(** * ETL transformation engine: relational rows to embedded documents

    A shallow embedding of [etl/transform.py]: the [IDMapper], the timestamp
    normaliser and the entity transformers, together with the fragment of
    Python's dynamic semantics they rely on (subscripting, [dict.get],
    iteration, truthiness, [==], hashing of dictionary keys, [list.sort]).

    Source rows are JSON values as the extraction layer returns them
    (numbers are integers, strings are strings of one-byte characters);
    target documents additionally hold [ObjectId]s and [datetime]s.  Code
    that mutates the mapper is written in a state-and-exception monad.
    Logging is left out: the values it formats are lengths of lists and
    fields that the documents built before always have. *)

From Stdlib Require Import ZArith Ascii String List Bool Lia Permutation Sorted
  DecimalString.
From stdpp Require Import gmap strings.

Import ListNotations.
Open Scope string_scope.
Open Scope Z_scope.

Set Warnings "-register-all".

(** ** Dictionary keys

    The hashable source values, [True] and [False] being the keys [1] and
    [0]. *)
Inductive pykey : Type :=
| KNone
| KInt (z : Z)
| KStr (s : string).

Global Instance pykey_eq_dec : EqDecision pykey.
Proof. solve_decision. Defined.

Definition pykey_enc (k : pykey) : option (Z + string) :=
  match k with
  | KNone => None
  | KInt z => Some (inl z)
  | KStr s => Some (inr s)
  end.

Definition pykey_dec (o : option (Z + string)) : pykey :=
  match o with
  | None => KNone
  | Some (inl z) => KInt z
  | Some (inr s) => KStr s
  end.

Global Instance pykey_countable : Countable pykey.
Proof.
  refine (inj_countable' pykey_enc pykey_dec _).
  intros []; reflexivity.
Defined.

(** ** Exceptions and results *)

Inductive exn : Type :=
| KeyError (key : pykey)
| TypeError
| AttributeError
| ValueError.

Inductive result (A : Type) : Type :=
| Ok (a : A)
| Raise (e : exn).

Arguments Ok {A} a.
Arguments Raise {A} e.

Definition is_ok {A} (r : result A) : bool :=
  match r with Ok _ => true | Raise _ => false end.

Definition rbind {A B} (r : result A) (k : A -> result B) : result B :=
  match r with
  | Ok a => k a
  | Raise e => Raise e
  end.

(** ** Source values: JSON as decoded by the extraction client *)

Inductive json : Type :=
| JNull
| JBool (b : bool)
| JInt (z : Z)
| JStr (s : string)
| JList (l : list json)
| JDict (kv : list (string * json)).

(** ** Datetimes

    [dt_wall] counts the microseconds of the wall-clock reading since
    0001-01-01T00:00:00; [dt_offset] is the UTC offset in microseconds of an
    aware datetime and [None] for a naive one. *)

Record datetime : Type := mkDatetime {
  dt_wall : Z;
  dt_offset : option Z
}.

(** [datetime.min]: the naive 0001-01-01T00:00:00. *)
Definition datetime_min : datetime := mkDatetime 0 None.

(** The [<] of two datetimes: wall clocks for two naive values, instants for
    two aware ones, and [TypeError] for a naive against an aware one. *)
Definition dt_lt (a b : datetime) : result bool :=
  match dt_offset a, dt_offset b with
  | None, None => Ok (dt_wall a <? dt_wall b)
  | Some oa, Some ob => Ok (dt_wall a - oa <? dt_wall b - ob)
  | _, _ => Raise TypeError
  end.

(** ** Target values: documents *)

Definition ObjectId : Type := N.

Inductive doc : Type :=
| DNone
| DBool (b : bool)
| DInt (z : Z)
| DStr (s : string)
| DOid (o : ObjectId)
| DDate (d : datetime)
| DList (l : list doc)
| DDict (kv : list (string * doc)).

(** A source value stored in a document is the same Python object. *)
Fixpoint of_json (j : json) : doc :=
  match j with
  | JNull => DNone
  | JBool b => DBool b
  | JInt z => DInt z
  | JStr s => DStr s
  | JList l => DList (map of_json l)
  | JDict kv => DDict (map (fun p => let '(k, v) := p in (k, of_json v)) kv)
  end.

(** ** Dictionaries as ordered key/value lists

    A Python dict is its list of items in insertion order, each key once;
    lookup takes the first item with the key. *)

Section Dict.
Context {V : Type}.

Fixpoint dict_get (k : string) (d : list (string * V)) : option V :=
  match d with
  | [] => None
  | (k', v) :: d' => if String.eqb k k' then Some v else dict_get k d'
  end.

(** [d[k] = v] *)
Fixpoint dict_set (k : string) (v : V) (d : list (string * V)) : list (string * V) :=
  match d with
  | [] => [(k, v)]
  | (k', v') :: d' =>
      if String.eqb k k' then (k', v) :: d' else (k', v') :: dict_set k v d'
  end.

(** [del d[k]] for a key that is present *)
Fixpoint dict_del (k : string) (d : list (string * V)) : list (string * V) :=
  match d with
  | [] => []
  | (k', v') :: d' =>
      if String.eqb k k' then dict_del k d' else (k', v') :: dict_del k d'
  end.

Definition has_key (k : string) (d : list (string * V)) : bool :=
  match dict_get k d with Some _ => true | None => false end.
End Dict.

(** ** Python primitives on source values *)

(** [v[k]] with a string key. *)
Definition getitem (v : json) (k : string) : result json :=
  match v with
  | JDict d =>
      match dict_get k d with
      | Some x => Ok x
      | None => Raise (KeyError (KStr k))
      end
  | _ => Raise TypeError
  end.

(** [v.get(k, default)] *)
Definition py_get (v : json) (k : string) (default : json) : result json :=
  match v with
  | JDict d =>
      match dict_get k d with
      | Some x => Ok x
      | None => Ok default
      end
  | _ => Raise AttributeError
  end.

Fixpoint chars (s : string) : list json :=
  match s with
  | EmptyString => []
  | String c s' => JStr (String c EmptyString) :: chars s'
  end.

(** The items a [for] loop over [v] visits. *)
Definition py_iter (v : json) : result (list json) :=
  match v with
  | JList l => Ok l
  | JStr s => Ok (chars s)
  | JDict d => Ok (map (fun p => JStr (fst p)) d)
  | _ => Raise TypeError
  end.

(** [len(v)] *)
Definition py_len (v : json) : result Z :=
  match v with
  | JList l => Ok (Z.of_nat (length l))
  | JStr s => Ok (Z.of_nat (String.length s))
  | JDict d => Ok (Z.of_nat (length d))
  | _ => Raise TypeError
  end.

(** Truth value of [v] in a condition. *)
Definition truthy (v : json) : bool :=
  match v with
  | JNull => false
  | JBool b => b
  | JInt z => negb (z =? 0)
  | JStr s => negb (String.eqb s "")
  | JList l => match l with [] => false | _ => true end
  | JDict d => match d with [] => false | _ => true end
  end.

(** [a == b]: structural, with [True == 1] and [False == 0], and dicts
    compared as mappings. *)
Fixpoint py_eq (a b : json) : bool :=
  match a, b with
  | JNull, JNull => true
  | JBool x, JBool y => Bool.eqb x y
  | JBool x, JInt z => (if x then 1 else 0) =? z
  | JInt z, JBool x => z =? (if x then 1 else 0)
  | JInt x, JInt y => x =? y
  | JStr x, JStr y => String.eqb x y
  | JList l1, JList l2 =>
      (fix go (l1 l2 : list json) : bool :=
         match l1, l2 with
         | [], [] => true
         | x :: l1', y :: l2' => py_eq x y && go l1' l2'
         | _, _ => false
         end) l1 l2
  | JDict d1, JDict d2 =>
      (length d1 =? length d2)%nat &&
      forallb (fun p => let '(k, v) := p in
                 match dict_get k d2 with
                 | Some v' => py_eq v v'
                 | None => false
                 end) d1
  | _, _ => false
  end.

(** [hash(v)] as far as dictionary membership is concerned: lists and dicts
    are unhashable. *)
Definition py_hash (v : json) : result pykey :=
  match v with
  | JNull => Ok KNone
  | JBool b => Ok (KInt (if b then 1 else 0))
  | JInt z => Ok (KInt z)
  | JStr s => Ok (KStr s)
  | JList _ | JDict _ => Raise TypeError
  end.

(** ** The identifier mapper *)

Inductive entity : Type := Org | User | Label | Project | Task | Comment.

Global Instance entity_eq_dec : EqDecision entity.
Proof. solve_decision. Defined.

(** One table per entity type, from source id to generated identifier. *)
Record IDMapper : Type := mkIDMapper {
  org_ids : gmap pykey ObjectId;
  user_ids : gmap pykey ObjectId;
  label_ids : gmap pykey ObjectId;
  project_ids : gmap pykey ObjectId;
  task_ids : gmap pykey ObjectId;
  comment_ids : gmap pykey ObjectId
}.

(** [IDMapper()] *)
Definition IDMapper_new : IDMapper := mkIDMapper ∅ ∅ ∅ ∅ ∅ ∅.

Definition table (e : entity) (m : IDMapper) : gmap pykey ObjectId :=
  match e with
  | Org => org_ids m
  | User => user_ids m
  | Label => label_ids m
  | Project => project_ids m
  | Task => task_ids m
  | Comment => comment_ids m
  end.

Definition set_table (e : entity) (t : gmap pykey ObjectId) (m : IDMapper) : IDMapper :=
  match e with
  | Org => mkIDMapper t (user_ids m) (label_ids m) (project_ids m) (task_ids m) (comment_ids m)
  | User => mkIDMapper (org_ids m) t (label_ids m) (project_ids m) (task_ids m) (comment_ids m)
  | Label => mkIDMapper (org_ids m) (user_ids m) t (project_ids m) (task_ids m) (comment_ids m)
  | Project => mkIDMapper (org_ids m) (user_ids m) (label_ids m) t (task_ids m) (comment_ids m)
  | Task => mkIDMapper (org_ids m) (user_ids m) (label_ids m) (project_ids m) t (comment_ids m)
  | Comment => mkIDMapper (org_ids m) (user_ids m) (label_ids m) (project_ids m) (task_ids m) t
  end.

(** The state a transformation runs in: the mapper, and the process-wide
    [ObjectId] generator, abstracted as the next identifier of a supply that
    never repeats one. *)
Record state : Type := mkState {
  id_mapper : IDMapper;
  next_oid : ObjectId
}.

(** ** The state-and-exception monad *)

Definition M (A : Type) : Type := state -> result (A * state).

Definition ret {A} (a : A) : M A := fun s => Ok (a, s).

Definition bind {A B} (c : M A) (k : A -> M B) : M B :=
  fun s =>
    match c s with
    | Ok (a, s') => k a s'
    | Raise e => Raise e
    end.

Definition lift {A} (r : result A) : M A :=
  fun s =>
    match r with
    | Ok a => Ok (a, s)
    | Raise e => Raise e
    end.

Notation "x <- c ;; k" := (bind c (fun x => k))
  (at level 100, c at next level, right associativity).
Notation "x <~ r ;; k" := (bind (lift r) (fun x => k))
  (at level 100, r at next level, right associativity).

(** A [for] loop that appends one item per element. *)
Fixpoint mapM {A B} (f : A -> M B) (l : list A) : M (list B) :=
  match l with
  | [] => ret []
  | x :: l' =>
      y <- f x ;;
      ys <- mapM f l' ;;
      ret (y :: ys)
  end.

(** A [for] loop that appends an item for some elements only. *)
Fixpoint collectM {A B} (f : A -> M (option B)) (l : list A) : M (list B) :=
  match l with
  | [] => ret []
  | x :: l' =>
      o <- f x ;;
      ys <- collectM f l' ;;
      ret (match o with Some y => y :: ys | None => ys end)
  end.

(** Modelled from the spec: [ObjectId()] of the [bson] library, which is not
    among the sources.  A call yields "a new globally-unique opaque
    identifier (e.g., a 96-bit random or monotonic surrogate)": here the
    next identifier of a monotonic supply. *)
Definition ObjectId_new : M ObjectId :=
  fun s => Ok (next_oid s, mkState (id_mapper s) (N.succ (next_oid s))).

(** [k in self.t], [self.t[k] = o] and [self.t[k]] on the table of [e]. *)
Definition mapper_contains (e : entity) (k : pykey) : M bool :=
  fun s => Ok (bool_decide (is_Some (table e (id_mapper s) !! k)), s).

Definition mapper_store (e : entity) (k : pykey) (o : ObjectId) : M unit :=
  fun s =>
    Ok (tt, mkState (set_table e (<[k := o]> (table e (id_mapper s))) (id_mapper s))
                    (next_oid s)).

Definition mapper_load (e : entity) (k : pykey) : M ObjectId :=
  fun s =>
    match table e (id_mapper s) !! k with
    | Some o => Ok (o, s)
    | None => Raise (KeyError k)
    end.

(** The body shared by the six [generate_*_id] methods:
    [if pg_id not in self.t: self.t[pg_id] = ObjectId()], then
    [return self.t[pg_id]]. *)
Definition generate (e : entity) (pg_id : json) : M ObjectId :=
  k <~ py_hash pg_id ;;
  present <- mapper_contains e k ;;
  _ <- (if present : bool then ret tt
        else o <- ObjectId_new ;; mapper_store e k o) ;;
  mapper_load e k.

Definition generate_org_id : json -> M ObjectId := generate Org.
Definition generate_user_id : json -> M ObjectId := generate User.
Definition generate_label_id : json -> M ObjectId := generate Label.
Definition generate_project_id : json -> M ObjectId := generate Project.
Definition generate_task_id : json -> M ObjectId := generate Task.
Definition generate_comment_id : json -> M ObjectId := generate Comment.

(** [get_stats] *)
Definition get_stats (m : IDMapper) : list (string * Z) :=
  [("organizations", Z.of_nat (size (org_ids m)));
   ("users", Z.of_nat (size (user_ids m)));
   ("labels", Z.of_nat (size (label_ids m)));
   ("projects", Z.of_nat (size (project_ids m)));
   ("tasks", Z.of_nat (size (task_ids m)));
   ("comments", Z.of_nat (size (comment_ids m)))].

Notation "x <-- r ;; k" := (rbind r (fun x => k))
  (at level 100, r at next level, right associativity).

(** ** Data type conversions *)

(** [s.replace(old, new)] for a one-character [old]. *)
Fixpoint str_replace (old : ascii) (new : string) (s : string) : string :=
  match s with
  | EmptyString => EmptyString
  | String c s' =>
      if Ascii.eqb c old then new ++ str_replace old new s'
      else String c (str_replace old new s')
  end.

(** [v.replace(old, new)]: only strings have the method. *)
Definition py_replace (v : json) (old : ascii) (new : string) : result string :=
  match v with
  | JStr s => Ok (str_replace old new s)
  | _ => Raise AttributeError
  end.

(** [handle_null] *)
Definition handle_null (value : json) (omit_if_none : bool) : json :=
  match value with
  | JNull => if omit_if_none then JStr "__OMIT__" else value
  | _ => value
  end.

(** [list.sort(key=...)] on datetime keys: a stable sort whose comparisons
    may raise. *)
Section Sort.
Context {A : Type} (key : A -> datetime).

Fixpoint sort_insert (x : A) (l : list A) : result (list A) :=
  match l with
  | [] => Ok [x]
  | y :: l' =>
      b <-- dt_lt (key y) (key x) ;;
      if b : bool then (r <-- sort_insert x l' ;; Ok (y :: r))
      else Ok (x :: y :: l')
  end.

Fixpoint list_sort (l : list A) : result (list A) :=
  match l with
  | [] => Ok []
  | x :: l' => r <-- list_sort l' ;; sort_insert x r
  end.
End Sort.

(** Subscripting and comparing the documents built so far. *)
Definition doc_getitem (d : doc) (k : string) : result doc :=
  match d with
  | DDict kv =>
      match dict_get k kv with
      | Some x => Ok x
      | None => Raise (KeyError (KStr k))
      end
  | _ => Raise TypeError
  end.

Definition doc_eq_str (d : doc) (s : string) : bool :=
  match d with
  | DStr s' => String.eqb s' s
  | _ => false
  end.

Definition doc_int (d : doc) : result Z :=
  match d with
  | DInt z => Ok z
  | DBool b => Ok (if b then 1 else 0)
  | _ => Raise TypeError
  end.

Fixpoint rmap {A B} (f : A -> result B) (l : list A) : result (list B) :=
  match l with
  | [] => Ok []
  | x :: l' => y <-- f x ;; ys <-- rmap f l' ;; Ok (y :: ys)
  end.

(** [sum(1 for t in ts if t['status'] == s)] *)
Definition count_status (s : string) (ts : list doc) : result Z :=
  flags <-- rmap (fun t => st <-- doc_getitem t "status" ;; Ok (doc_eq_str st s)) ts ;;
  Ok (Z.of_nat (length (List.filter (fun b : bool => b) flags))).

(** [sum(t['comment_count'] for t in ts)] *)
Definition sum_comment_counts (ts : list doc) : result Z :=
  ns <-- rmap (fun t => c <-- doc_getitem t "comment_count" ;; doc_int c) ts ;;
  Ok (fold_left Z.add ns 0).

(** The key [c['created_at'] or datetime.min] of a comment document, whose
    [created_at] is a datetime or [None]. *)
Definition comment_sort_key (c : doc) : datetime :=
  match doc_getitem c "created_at" with
  | Ok (DDate t) => t
  | _ => datetime_min
  end.

(** [{label['id']: label for label in labels}] *)
Fixpoint build_labels_lookup (labels : list json) (acc : gmap pykey json)
  : result (gmap pykey json) :=
  match labels with
  | [] => Ok acc
  | label :: rest =>
      id <-- getitem label "id" ;;
      k <-- py_hash id ;;
      build_labels_lookup rest (<[k := label]> acc)
  end.

(** ** The transformers

    [datetime.fromisoformat] is library code: [fromisoformat s] is the value
    it returns on the string [s], and [None] stands for its [ValueError]. *)

Section Transform.
Variable fromisoformat : string -> option datetime.

Definition py_fromisoformat (s : string) : result datetime :=
  match fromisoformat s with
  | Some d => Ok d
  | None => Raise ValueError
  end.

(** [convert_timestamp]: the [try] body is
    [datetime.fromisoformat(timestamp_str.replace('Z', '+00:00'))], the
    handler catches [ValueError] and [AttributeError]. *)
Definition convert_timestamp (timestamp_str : json) : result doc :=
  match timestamp_str with
  | JNull => Ok DNone
  | _ =>
      match (s <-- py_replace timestamp_str "Z" "+00:00" ;; py_fromisoformat s) with
      | Ok d => Ok (DDate d)
      | Raise ValueError => Ok DNone
      | Raise AttributeError => Ok DNone
      | Raise e => Raise e
      end
  end.

(** *** Organizations *)

Definition transform_organization (org : json) : M doc :=
  id <~ getitem org "id" ;;
  mongo_id <- generate_org_id id ;;
  pg_id <~ getitem org "id" ;;
  name <~ getitem org "name" ;;
  created <~ getitem org "created_at" ;;
  created_at <~ convert_timestamp created ;;
  members <~ py_get org "org_members" (JList []) ;;
  member_count <~ py_len members ;;
  let doc :=
    [("_id", DOid mongo_id);
     ("pg_id", of_json pg_id);
     ("name", of_json name);
     ("created_at", created_at);
     ("member_count", DInt member_count);
     ("project_count", DInt 0)] in
  settings <~ py_get org "settings" JNull ;;
  if truthy settings then
    v <~ getitem org "settings" ;;
    ret (DDict (dict_set "settings" (of_json v) doc))
  else ret (DDict doc).

Definition transform_organizations (organizations : json) : M (list doc) :=
  rows <~ py_iter organizations ;;
  mapM transform_organization rows.

(** *** Users *)

(** The body of the loop over [user.get('org_members', [])]. *)
Definition membership_entry (membership : json) : M doc :=
  org_data <~ py_get membership "organizations" (JDict []) ;;
  oid <~ getitem membership "org_id" ;;
  org_id <- generate_org_id oid ;;
  org_name <~ py_get org_data "name" (JStr "") ;;
  role <~ getitem membership "role" ;;
  joined <~ getitem membership "joined_at" ;;
  joined_at <~ convert_timestamp joined ;;
  ret (DDict [("org_id", DOid org_id);
              ("org_name", of_json org_name);
              ("role", of_json role);
              ("joined_at", joined_at)]).

Definition transform_user (user : json) : M doc :=
  id <~ getitem user "id" ;;
  mongo_id <- generate_user_id id ;;
  members <~ py_get user "org_members" (JList []) ;;
  rows <~ py_iter members ;;
  organizations <- mapM membership_entry rows ;;
  pg_id <~ getitem user "id" ;;
  email <~ getitem user "email" ;;
  name <~ getitem user "name" ;;
  created <~ getitem user "created_at" ;;
  created_at <~ convert_timestamp created ;;
  ret (DDict [("_id", DOid mongo_id);
              ("pg_id", of_json pg_id);
              ("email", of_json email);
              ("name", of_json name);
              ("created_at", created_at);
              ("organizations", DList organizations);
              ("stats", DDict [("assigned_tasks", DInt 0);
                               ("completed_tasks", DInt 0);
                               ("comments_made", DInt 0)])]).

Definition transform_users (users : json) : M (list doc) :=
  rows <~ py_iter users ;;
  mapM transform_user rows.

(** *** Labels *)

Definition transform_label (label : json) : M doc :=
  id <~ getitem label "id" ;;
  mongo_id <- generate_label_id id ;;
  pg_id <~ getitem label "id" ;;
  oid <~ getitem label "org_id" ;;
  org_id <- generate_org_id oid ;;
  name <~ getitem label "name" ;;
  color <~ getitem label "color" ;;
  created <~ getitem label "created_at" ;;
  created_at <~ convert_timestamp created ;;
  ret (DDict [("_id", DOid mongo_id);
              ("pg_id", of_json pg_id);
              ("org_id", DOid org_id);
              ("name", of_json name);
              ("color", of_json color);
              ("created_at", created_at);
              ("usage_count", DInt 0)]).

Definition transform_labels (labels : json) : M (list doc) :=
  rows <~ py_iter labels ;;
  mapM transform_label rows.

(** *** Tasks *)

(** The body of the loop over [task.get('task_assignees', [])]. *)
Definition assignee_entry (assignment : json) : M doc :=
  user_data <~ py_get assignment "users" (JDict []) ;;
  uid <~ getitem user_data "id" ;;
  user_id <- generate_user_id uid ;;
  name <~ py_get user_data "name" (JStr "") ;;
  email <~ py_get user_data "email" (JStr "") ;;
  assigned <~ getitem assignment "assigned_at" ;;
  assigned_at <~ convert_timestamp assigned ;;
  ret (DDict [("user_id", DOid user_id);
              ("name", of_json name);
              ("email", of_json email);
              ("assigned_at", assigned_at)]).

(** The body of the loop over [task.get('task_labels', [])]: an entry is
    appended under [if label_pg_id:]. *)
Definition label_entry (task_label : json) : M (option doc) :=
  label_data <~ py_get task_label "labels" (JDict []) ;;
  label_pg_id <~ py_get label_data "id" JNull ;;
  if truthy label_pg_id then
    label_id <- generate_label_id label_pg_id ;;
    name <~ py_get label_data "name" (JStr "") ;;
    color <~ py_get label_data "color" (JStr "#000000") ;;
    ret (Some (DDict [("label_id", DOid label_id);
                      ("name", of_json name);
                      ("color", of_json color)]))
  else ret None.

(** The body of the loop over [task.get('comments', [])]. *)
Definition comment_entry (comment : json) : M doc :=
  user_data <~ py_get comment "users" (JDict []) ;;
  cid <~ getitem comment "id" ;;
  _id <- generate_comment_id cid ;;
  pg_id <~ getitem comment "id" ;;
  uid <~ getitem user_data "id" ;;
  user_id <- generate_user_id uid ;;
  author_name <~ py_get user_data "name" (JStr "") ;;
  content <~ getitem comment "content" ;;
  created <~ getitem comment "created_at" ;;
  created_at <~ convert_timestamp created ;;
  ret (DDict [("_id", DOid _id);
              ("pg_id", of_json pg_id);
              ("user_id", DOid user_id);
              ("author_name", of_json author_name);
              ("content", of_json content);
              ("created_at", created_at)]).

Definition transform_task (task : json) (labels_lookup : gmap pykey json) : M doc :=
  id <~ getitem task "id" ;;
  mongo_id <- generate_task_id id ;;
  assignments <~ py_get task "task_assignees" (JList []) ;;
  assignment_rows <~ py_iter assignments ;;
  assignees <- mapM assignee_entry assignment_rows ;;
  task_labels <~ py_get task "task_labels" (JList []) ;;
  label_rows <~ py_iter task_labels ;;
  labels <- collectM label_entry label_rows ;;
  task_comments <~ py_get task "comments" (JList []) ;;
  comment_rows <~ py_iter task_comments ;;
  unsorted <- mapM comment_entry comment_rows ;;
  comments <~ list_sort comment_sort_key unsorted ;;
  pg_id <~ getitem task "id" ;;
  title <~ getitem task "title" ;;
  description <~ py_get task "description" JNull ;;
  status <~ getitem task "status" ;;
  priority <~ getitem task "priority" ;;
  due <~ py_get task "due_date" JNull ;;
  due_date <~ convert_timestamp due ;;
  created <~ getitem task "created_at" ;;
  created_at <~ convert_timestamp created ;;
  updated <~ getitem task "updated_at" ;;
  updated_at <~ convert_timestamp updated ;;
  let doc :=
    [("_id", DOid mongo_id);
     ("pg_id", of_json pg_id);
     ("title", of_json title);
     ("description", of_json description);
     ("status", of_json status);
     ("priority", of_json priority);
     ("due_date", due_date);
     ("created_at", created_at);
     ("updated_at", updated_at);
     ("assignees", DList assignees);
     ("labels", DList labels);
     ("comments", DList comments);
     ("comment_count", DInt (Z.of_nat (length comments)));
     ("assignee_count", DInt (Z.of_nat (length assignees)))] in
  match dict_get "description" doc with
  | Some DNone => ret (DDict (dict_del "description" doc))
  | _ => ret (DDict doc)
  end.

(** *** Projects *)

(** The body of the loop over [tasks] in [transform_project]: a task is
    transformed under [if task['project_id'] == project['id']:]. *)
Definition project_task (project : json) (labels_lookup : gmap pykey json)
           (task : json) : M (option doc) :=
  task_project <~ getitem task "project_id" ;;
  project_id <~ getitem project "id" ;;
  if py_eq task_project project_id then
    task_doc <- transform_task task labels_lookup ;;
    ret (Some task_doc)
  else ret None.

Definition transform_project (project tasks : json)
           (labels_lookup : gmap pykey json) : M doc :=
  id <~ getitem project "id" ;;
  mongo_id <- generate_project_id id ;;
  org_data <~ py_get project "organizations" (JDict []) ;;
  task_rows <~ py_iter tasks ;;
  transformed_tasks <- collectM (project_task project labels_lookup) task_rows ;;
  completed_tasks <~ count_status "completed" transformed_tasks ;;
  in_progress_tasks <~ count_status "in_progress" transformed_tasks ;;
  todo_tasks <~ count_status "todo" transformed_tasks ;;
  total_comments <~ sum_comment_counts transformed_tasks ;;
  let stats :=
    [("total_tasks", DInt (Z.of_nat (length transformed_tasks)));
     ("completed_tasks", DInt completed_tasks);
     ("in_progress_tasks", DInt in_progress_tasks);
     ("todo_tasks", DInt todo_tasks);
     ("total_comments", DInt total_comments)] in
  pg_id <~ getitem project "id" ;;
  oid <~ getitem project "org_id" ;;
  org_id <- generate_org_id oid ;;
  org_name <~ py_get org_data "name" (JStr "") ;;
  name <~ getitem project "name" ;;
  description <~ py_get project "description" JNull ;;
  status <~ getitem project "status" ;;
  created <~ getitem project "created_at" ;;
  created_at <~ convert_timestamp created ;;
  let doc :=
    [("_id", DOid mongo_id);
     ("pg_id", of_json pg_id);
     ("org_id", DOid org_id);
     ("org_name", of_json org_name);
     ("name", of_json name);
     ("description", of_json description);
     ("status", of_json status);
     ("created_at", created_at);
     ("tasks", DList transformed_tasks);
     ("stats", DDict stats)] in
  match dict_get "description" doc with
  | Some DNone => ret (DDict (dict_del "description" doc))
  | _ => ret (DDict doc)
  end.

Definition transform_projects (projects tasks : json)
           (labels_lookup : gmap pykey json) : M (list doc) :=
  rows <~ py_iter projects ;;
  mapM (fun project => transform_project project tasks labels_lookup) rows.

(** *** The whole data set

    [transform_all_steps] is the body of [transform_all_data] from the
    labels lookup to [return mongo_data]; [transform_all_data] creates the
    mapper and runs it, [oid0] being the state of the [ObjectId] supply
    when the run starts.  The [except] clause logs and re-raises. *)
Definition transform_all_steps (source_data : json) : M doc :=
  labels <~ getitem source_data "labels" ;;
  label_rows <~ py_iter labels ;;
  labels_lookup <~ build_labels_lookup label_rows ∅ ;;
  src_orgs <~ getitem source_data "organizations" ;;
  organizations <- transform_organizations src_orgs ;;
  src_users <~ getitem source_data "users" ;;
  users <- transform_users src_users ;;
  src_labels <~ getitem source_data "labels" ;;
  labels_docs <- transform_labels src_labels ;;
  src_projects <~ getitem source_data "projects" ;;
  src_tasks <~ getitem source_data "tasks" ;;
  projects <- transform_projects src_projects src_tasks labels_lookup ;;
  ret (DDict [("organizations", DList organizations);
              ("users", DList users);
              ("labels", DList labels_docs);
              ("projects", DList projects)]).

Definition transform_all_data (source_data : json) (oid0 : ObjectId) : result doc :=
  match transform_all_steps source_data (mkState IDMapper_new oid0) with
  | Ok (mongo_data, _) => Ok mongo_data
  | Raise e => Raise e
  end.

End Transform.

(** ** A reference parser

    The fragment [YYYY-MM-DD], [YYYY-MM-DD?HH:MM:SS] and
    [YYYY-MM-DD?HH:MM:SS+HH:MM] (or [-HH:MM]) of [datetime.fromisoformat],
    [?] being any one character; used to run the transformers on concrete
    rows. *)

Definition digit (c : ascii) : option Z :=
  let n := Z.of_nat (nat_of_ascii c) in
  if (48 <=? n) && (n <=? 57) then Some (n - 48) else None.

Definition num2 (a b : ascii) : option Z :=
  match digit a, digit b with
  | Some x, Some y => Some (10 * x + y)
  | _, _ => None
  end.

Definition num4 (a b c d : ascii) : option Z :=
  match num2 a b, num2 c d with
  | Some x, Some y => Some (100 * x + y)
  | _, _ => None
  end.

Definition is_leap (y : Z) : bool :=
  ((y mod 4 =? 0) && negb (y mod 100 =? 0)) || (y mod 400 =? 0).

Definition days_in_month (y m : Z) : Z :=
  if m =? 2 then (if is_leap y then 29 else 28)
  else if (m =? 4) || (m =? 6) || (m =? 9) || (m =? 11) then 30
  else 31.

Definition days_before_year (y : Z) : Z :=
  (y - 1) * 365 + (y - 1) / 4 - (y - 1) / 100 + (y - 1) / 400.

Definition days_before_month (y m : Z) : Z :=
  fold_left Z.add (map (days_in_month y) (map Z.of_nat (seq 1 (Z.to_nat (m - 1))))) 0.

Definition usec_per_second : Z := 1000000.

Definition civil (y m d : Z) : option Z :=
  if (1 <=? y) && (1 <=? m) && (m <=? 12) && (1 <=? d) && (d <=? days_in_month y m)
  then Some ((days_before_year y + days_before_month y m + (d - 1)) * 86400 * usec_per_second)
  else None.

Definition clock (h mi s : Z) : option Z :=
  if (h <? 24) && (mi <? 60) && (s <? 60)
  then Some ((h * 3600 + mi * 60 + s) * usec_per_second)
  else None.

Definition parse_date (y1 y2 y3 y4 m1 m2 d1 d2 : ascii) : option Z :=
  match num4 y1 y2 y3 y4, num2 m1 m2, num2 d1 d2 with
  | Some y, Some m, Some d => civil y m d
  | _, _, _ => None
  end.

Definition parse_clock (h1 h2 m1 m2 s1 s2 : ascii) : option Z :=
  match num2 h1 h2, num2 m1 m2, num2 s1 s2 with
  | Some h, Some mi, Some s => clock h mi s
  | _, _, _ => None
  end.

Definition parse_offset (sign : ascii) (h1 h2 m1 m2 : ascii) : option Z :=
  match num2 h1 h2, num2 m1 m2 with
  | Some h, Some mi =>
      if (h <? 24) && (mi <? 60) then
        if Ascii.eqb sign "+" then Some ((h * 3600 + mi * 60) * usec_per_second)
        else if Ascii.eqb sign "-" then Some (- ((h * 3600 + mi * 60) * usec_per_second))
        else None
      else None
  | _, _ => None
  end.

Definition fromisoformat_ref (s : string) : option datetime :=
  match list_ascii_of_string s with
  | [y1; y2; y3; y4; dash1; m1; m2; dash2; d1; d2] =>
      if Ascii.eqb dash1 "-" && Ascii.eqb dash2 "-" then
        match parse_date y1 y2 y3 y4 m1 m2 d1 d2 with
        | Some day => Some (mkDatetime day None)
        | None => None
        end
      else None
  | y1 :: y2 :: y3 :: y4 :: dash1 :: m1 :: m2 :: dash2 :: d1 :: d2 :: _
      :: h1 :: h2 :: c1 :: mi1 :: mi2 :: c2 :: s1 :: s2 :: zone =>
      if Ascii.eqb dash1 "-" && Ascii.eqb dash2 "-" && Ascii.eqb c1 ":" && Ascii.eqb c2 ":" then
        match parse_date y1 y2 y3 y4 m1 m2 d1 d2, parse_clock h1 h2 mi1 mi2 s1 s2 with
        | Some day, Some t =>
            match zone with
            | [] => Some (mkDatetime (day + t) None)
            | [sign; o1; o2; c3; o3; o4] =>
                if Ascii.eqb c3 ":" then
                  match parse_offset sign o1 o2 o3 o4 with
                  | Some off => Some (mkDatetime (day + t) (Some off))
                  | None => None
                  end
                else None
            | _ => None
            end
        | _, _ => None
        end
      else None
  | _ => None
  end.

(** ** A small data set *)

Module Sample.

Definition acme : json :=
  JDict [("id", JInt 1); ("name", JStr "Acme");
         ("created_at", JStr "2024-01-01T00:00:00Z");
         ("org_members", JList [JDict [("user_id", JInt 1)]])].

Definition ann : json :=
  JDict [("id", JInt 1); ("name", JStr "Ann"); ("email", JStr "ann@x.com");
         ("created_at", JStr "2024-01-02T08:30:00+00:00");
         ("org_members",
          JList [JDict [("org_id", JInt 1); ("role", JStr "admin");
                        ("joined_at", JStr "2024-01-01T00:00:00Z");
                        ("organizations", JDict [("id", JInt 1); ("name", JStr "Acme")])]])].

Definition bug : json :=
  JDict [("id", JInt 7); ("org_id", JInt 1); ("name", JStr "bug");
         ("color", JStr "#ff0000"); ("created_at", JStr "2024-01-03T00:00:00Z")].

Definition website : json :=
  JDict [("id", JInt 1); ("org_id", JInt 1); ("name", JStr "Website");
         ("description", JNull); ("status", JStr "active");
         ("created_at", JStr "2024-01-04T00:00:00Z");
         ("organizations", JDict [("id", JInt 1); ("name", JStr "Acme")])].

Definition mobile : json :=
  JDict [("id", JInt 2); ("org_id", JInt 1); ("name", JStr "Mobile");
         ("description", JStr "the app"); ("status", JStr "planning");
         ("created_at", JStr "2024-01-05T00:00:00Z");
         ("organizations", JDict [("id", JInt 1)])].

Definition ann_ref : json :=
  JDict [("id", JInt 1); ("name", JStr "Ann"); ("email", JStr "ann@x.com")].

Definition comment (id : Z) (created_at : json) : json :=
  JDict [("id", JInt id); ("content", JStr "ok"); ("created_at", created_at);
         ("users", ann_ref)].

Definition task (id project_id : Z) (due_date : json) (labels comments : list json) : json :=
  JDict [("id", JInt id); ("project_id", JInt project_id); ("title", JStr "Design");
         ("description", JNull); ("status", JStr "completed"); ("priority", JStr "high");
         ("due_date", due_date);
         ("created_at", JStr "2024-01-06T00:00:00Z");
         ("updated_at", JStr "2024-01-07T00:00:00Z");
         ("task_assignees",
          JList [JDict [("assigned_at", JStr "2024-01-06T09:00:00Z"); ("users", ann_ref)]]);
         ("task_labels", JList labels);
         ("comments", JList comments)].

Definition bug_row : json :=
  JDict [("labels", JDict [("id", JInt 7); ("name", JStr "bug"); ("color", JStr "#ff0000")])].

Definition design : json :=
  task 10 1 JNull [bug_row]
       [comment 101 (JStr "2024-02-02T00:00:00Z"); comment 102 (JStr "2024-02-01T00:00:00Z")].

Definition build : json :=
  task 11 2 (JStr "2024-03-01T00:00:00Z") [] [].

Definition deploy : json :=
  task 12 1 (JStr "2024-03-02T00:00:00Z") [] [].

Definition source_data : json :=
  JDict [("organizations", JList [acme]);
         ("users", JList [ann]);
         ("labels", JList [bug]);
         ("projects", JList [website; mobile]);
         ("tasks", JList [design; build; deploy])].

Definition start : state := mkState IDMapper_new 0%N.


(** An undated comment next to one with an aware timestamp. *)
Definition mixed : json :=
  task 21 1 JNull []
       [comment 211 JNull; comment 212 (JStr "2024-01-15T10:00:00+00:00")].

(** A [task_labels] row whose joined label is null. *)
Definition unlabelled : json :=
  task 22 1 JNull [JDict [("labels", JNull)]] [].



(** A task of a project that is not in the data set, without a title. *)
Definition orphan : json :=
  JDict [("id", JInt 30); ("project_id", JInt 99)].

End Sample.

(** ** Vocabulary of the statements *)

(** A sequence of calls to the mapper's [generate_*_id] methods, with the
    identifiers they return. *)
Definition run_calls (calls : list (entity * json)) : M (list ObjectId) :=
  mapM (fun call => generate (fst call) (snd call)) calls.

(** The state a run starts in: a new mapper, the supply at [oid0]. *)
Definition initial_state (oid0 : ObjectId) : state := mkState IDMapper_new oid0.

(** Every identifier stored in the mapper was drawn from the supply before
    its current position. *)
Definition mapper_below (s : state) : Prop :=
  forall e k o, table e (id_mapper s) !! k = Some o -> (o < next_oid s)%N.

(** No identifier is stored under two (entity type, source id) pairs. *)
Definition mapper_injective (s : state) : Prop :=
  forall e1 k1 e2 k2 o,
    table e1 (id_mapper s) !! k1 = Some o ->
    table e2 (id_mapper s) !! k2 = Some o ->
    e1 = e2 /\ k1 = k2.

(** What a [for] loop over [v.get(k, [])] visits. *)
Definition rows_of (v : json) (k : string) : result (list json) :=
  x <-- py_get v k (JList []) ;; py_iter x.

(** [d[k]] on a document without the key [k]. *)
Definition missing (k : string) : result doc := Raise (KeyError (KStr k)).

(** The fields of a task document; [description] is there unless the source
    value is [None]. *)
Definition task_document (d : doc) (mongo_id : ObjectId)
           (pg_id title description status priority : json)
           (due_date created_at updated_at : doc)
           (assignees labels comments : list doc) : Prop :=
  doc_getitem d "_id" = Ok (DOid mongo_id) /\
  doc_getitem d "pg_id" = Ok (of_json pg_id) /\
  doc_getitem d "title" = Ok (of_json title) /\
  doc_getitem d "description" =
    (match description with
     | JNull => missing "description"
     | _ => Ok (of_json description)
     end) /\
  doc_getitem d "status" = Ok (of_json status) /\
  doc_getitem d "priority" = Ok (of_json priority) /\
  doc_getitem d "due_date" = Ok due_date /\
  doc_getitem d "created_at" = Ok created_at /\
  doc_getitem d "updated_at" = Ok updated_at /\
  doc_getitem d "assignees" = Ok (DList assignees) /\
  doc_getitem d "labels" = Ok (DList labels) /\
  doc_getitem d "comments" = Ok (DList comments) /\
  doc_getitem d "comment_count" = Ok (DInt (Z.of_nat (length comments))) /\
  doc_getitem d "assignee_count" = Ok (DInt (Z.of_nat (length assignees))).



(** The items kept by a loop that appends for some elements only. *)
Fixpoint somes {A} (os : list (option A)) : list A :=
  match os with
  | [] => []
  | Some y :: os' => y :: somes os'
  | None :: os' => somes os'
  end.

(** [a <= b] for two datetimes that compare: [b < a] is false. *)
Definition dt_le (a b : datetime) : Prop := dt_lt b a = Ok false.




(** [task['project_id'] == project['id']], for a task and a project that
    have the two fields. *)
Definition belongs (project task : json) : bool :=
  match getitem task "project_id", getitem project "id" with
  | Ok a, Ok b => py_eq a b
  | _, _ => false
  end.


(** The source fields each transformer subscripts. *)
Definition organization_fields : list string := ["id"; "name"; "created_at"].
Definition user_fields : list string := ["id"; "email"; "name"; "created_at"].
Definition label_fields : list string := ["id"; "org_id"; "name"; "color"; "created_at"].
Definition project_fields : list string := ["id"; "org_id"; "name"; "status"; "created_at"].
Definition task_fields : list string :=
  ["id"; "title"; "status"; "priority"; "created_at"; "updated_at"].

(** A record that lacks one of [fields]. *)
Definition lacks (fields : list string) (record : json) : Prop :=
  exists d k, record = JDict d /\ In k fields /\ dict_get k d = None.

(** A record of the data set from which a required field is missing where
    the transformation looks for it: an organization, user, label or project
    record; a task without [project_id] when there is a project to compare
    it with; a task of a listed project. *)
Definition missing_required (organizations users labels projects tasks : list json) : Prop :=
  (exists r, In r organizations /\ lacks organization_fields r) \/
  (exists r, In r users /\ lacks user_fields r) \/
  (exists r, In r labels /\ lacks label_fields r) \/
  (exists r, In r projects /\ lacks project_fields r) \/
  (exists t, In t tasks /\ projects <> [] /\ lacks ["project_id"] t) \/
  (exists t p, In t tasks /\ In p projects /\ belongs p t = true /\ lacks task_fields t).

(** The mapper invariant: stored identifiers are old and pairwise distinct. *)
Definition mapper_ok (s : state) : Prop := mapper_below s /\ mapper_injective s.

(** [c] keeps the mapper invariant and the bindings that are there. *)
Definition preserves {A} (c : M A) : Prop :=
  forall s a s',
    c s = Ok (a, s') ->
    (mapper_ok s -> mapper_ok s') /\
    (forall e k o, table e (id_mapper s) !! k = Some o ->
                   table e (id_mapper s') !! k = Some o).

(** [c in s] for a character. *)
Fixpoint occurs (c : ascii) (s : string) : bool :=
  match s with
  | EmptyString => false
  | String d s' => Ascii.eqb d c || occurs c s'
  end.

(** The value and the final state of a run that returned. *)
Definition run_value {A} (default : A) (r : result (A * state)) : A :=
  match r with Ok (a, _) => a | Raise _ => default end.

Definition run_state {A} (r : result (A * state)) : state :=
  match r with Ok (_, s) => s | Raise _ => initial_state 0%N end.

(** The list stored under [k] in a document. *)
Definition doc_list (d : doc) (k : string) : list doc :=
  match doc_getitem d k with
  | Ok (DList l) => l
  | _ => []
  end.

(** Runs of the transformers on the sample data. *)
Module Runs.
Definition design_run : result (doc * state) :=
  transform_task fromisoformat_ref Sample.design ∅ Sample.start.





Definition calls : list (entity * json) :=
  [(Org, JInt 1); (User, JInt 1); (Org, JInt 1); (Task, JStr "1"); (User, JBool true)].

Definition calls_run : result (list ObjectId * state) :=
  run_calls calls (initial_state 5%N).

(** A user record without [email]. *)
Definition anonymous : json :=
  JDict [("id", JInt 2); ("name", JStr "Bob"); ("created_at", JNull)].

Definition broken_data : json :=
  JDict [("organizations", JList [Sample.acme]);
         ("users", JList [Sample.ann; anonymous]);
         ("labels", JList []);
         ("projects", JList []);
         ("tasks", JList [])].

(** A task without a title whose project is not in the data set. *)
Definition orphan_data : json :=
  JDict [("organizations", JList []);
         ("users", JList []);
         ("labels", JList []);
         ("projects", JList [Sample.website]);
         ("tasks", JList [Sample.orphan])].
End Runs.

(** [s'] has every binding of [s]. *)
Definition extends (s s' : state) : Prop :=
  forall e k o,
    table e (id_mapper s) !! k = Some o -> table e (id_mapper s') !! k = Some o.

(** A run of [c] only adds bindings, and run again in a mapper that has
    them it returns the same value and changes nothing. *)
Definition replays {A} (c : M A) : Prop :=
  forall s a s',
    c s = Ok (a, s') ->
    extends s s' /\
    (forall s'', extends s' s'' -> c s'' = Ok (a, s'')).

(** The identifier the mapper holds for a source id of entity type [e]. *)
Definition stored (e : entity) (pg_id : json) (s : state) : option ObjectId :=
  match py_hash pg_id with
  | Ok k => table e (id_mapper s) !! k
  | Raise _ => None
  end.

(** The field [key] of the document [d] is the identifier the mapper holds
    for the source id [record[field]] of entity type [e]. *)
Definition refers (s : state) (e : entity) (record : json) (field : string)
           (d : doc) (key : string) : Prop :=
  exists pg_id o,
    getitem record field = Ok pg_id /\
    stored e pg_id s = Some o /\
    doc_getitem d key = Ok (DOid o).

Definition membership_resolved (s : state) (row : json) (entry : doc) : Prop :=
  refers s Org row "org_id" entry "org_id".

Definition assignee_resolved (s : state) (row : json) (entry : doc) : Prop :=
  exists user_data,
    py_get row "users" (JDict []) = Ok user_data /\
    refers s User user_data "id" entry "user_id".

Definition label_ref_resolved (s : state) (row : json) (entry : doc) : Prop :=
  exists label_data,
    py_get row "labels" (JDict []) = Ok label_data /\
    refers s Label label_data "id" entry "label_id".

Definition comment_resolved (s : state) (row : json) (entry : doc) : Prop :=
  refers s Comment row "id" entry "_id" /\
  exists user_data,
    py_get row "users" (JDict []) = Ok user_data /\
    refers s User user_data "id" entry "user_id".

Definition organization_resolved (s : state) (org : json) (d : doc) : Prop :=
  refers s Org org "id" d "_id".

Definition user_resolved (s : state) (user : json) (d : doc) : Prop :=
  refers s User user "id" d "_id" /\
  exists rows entries,
    rows_of user "org_members" = Ok rows /\
    doc_getitem d "organizations" = Ok (DList entries) /\
    Forall2 (membership_resolved s) rows entries.

Definition label_resolved (s : state) (label : json) (d : doc) : Prop :=
  refers s Label label "id" d "_id" /\
  refers s Org label "org_id" d "org_id".

Definition task_resolved (s : state) (task : json) (d : doc) : Prop :=
  refers s Task task "id" d "_id" /\
  exists arows lrows crows assignees labels comments,
    rows_of task "task_assignees" = Ok arows /\
    rows_of task "task_labels" = Ok lrows /\
    rows_of task "comments" = Ok crows /\
    doc_getitem d "assignees" = Ok (DList assignees) /\
    doc_getitem d "labels" = Ok (DList labels) /\
    doc_getitem d "comments" = Ok (DList comments) /\
    Forall2 (assignee_resolved s) arows assignees /\
    Forall (fun entry => exists row, In row lrows /\ label_ref_resolved s row entry) labels /\
    Forall (fun entry => exists row, In row crows /\ comment_resolved s row entry) comments.

Definition project_resolved (s : state) (tasks : json) (project : json) (d : doc) : Prop :=
  refers s Project project "id" d "_id" /\
  refers s Org project "org_id" d "org_id" /\
  exists T tdocs,
    py_iter tasks = Ok T /\
    doc_getitem d "tasks" = Ok (DList tdocs) /\
    Forall2 (task_resolved s) (List.filter (belongs project) T) tdocs.

(** The rows of a table of the source data. *)
Definition source_rows (source_data : json) (key : string) : result (list json) :=
  x <-- getitem source_data key ;; py_iter x.

(** The run of [transform_all_data] on the sample data set. *)
Definition sample_run : result (doc * state) :=
  transform_all_steps fromisoformat_ref Sample.source_data (initial_state 0%N).

(** The document [d] carries the source id of [record] as [pg_id]. *)
Definition keeps_pg_id (record : json) (d : doc) : Prop :=
  exists id, getitem record "id" = Ok id /\ doc_getitem d "pg_id" = Ok (of_json id).

(** [task['status'] == status] on a source task. *)
Definition has_status (status : string) (task : json) : bool :=
  match getitem task "status" with
  | Ok (JStr s) => String.eqb s status
  | _ => false
  end.

(** The number of rows under [task['comments']]. *)
Definition comment_rows (task : json) : Z :=
  match rows_of task "comments" with
  | Ok rows => Z.of_nat (length rows)
  | Raise _ => 0
  end.

(** How many items of [l] satisfy [p]. *)
Definition count {A} (p : A -> bool) (l : list A) : Z :=
  Z.of_nat (length (List.filter p l)).

(** The sum of [f] over [l]. *)
Definition total {A} (f : A -> Z) (l : list A) : Z :=
  fold_left Z.add (map f l) 0.

(** The counters the transformers initialise. *)
Definition user_stats_zero : doc :=
  DDict [("assigned_tasks", DInt 0); ("completed_tasks", DInt 0); ("comments_made", DInt 0)].




(** Further runs on the sample data. *)
Definition website_run : result (doc * state) :=
  transform_project fromisoformat_ref Sample.website
    (JList [Sample.design; Sample.build; Sample.deploy]) ∅ Sample.start.

Definition acme_run : result (doc * state) :=
  transform_organization fromisoformat_ref Sample.acme Sample.start.




(** An organization whose [org_members] is null. *)
Definition memberless : json :=
  JDict [("id", JInt 2); ("name", JStr "Globex");
         ("created_at", JStr "2024-01-01T00:00:00Z"); ("org_members", JNull)].

(** The dict key of the call [c] when it is a call for entity type [e]. *)
Definition call_key (e : entity) (c : entity * json) : option pykey :=
  if decide (fst c = e) then
    match py_hash (snd c) with
    | Ok k => Some k
    | Raise _ => None
    end
  else None.

(** The distinct source ids the calls present for entity type [e]. *)
Definition keys_of (e : entity) (calls : list (entity * json)) : gset pykey :=
  list_to_set (omap (call_key e) calls).

(** The number of entries of a mapper, all tables together. *)
Definition entries (m : IDMapper) : nat :=
  (size (org_ids m) + size (user_ids m) + size (label_ids m) +
   size (project_ids m) + size (task_ids m) + size (comment_ids m))%nat.

(** The sort key of the entry of a comment row, read off the row. *)
Definition source_sort_key (fromisoformat : string -> option datetime) (row : json)
  : result datetime :=
  created <-- getitem row "created_at" ;;
  d <-- convert_timestamp fromisoformat created ;;
  Ok (match d with DDate t => t | _ => datetime_min end).

(** A task whose two comments are stamped without and with a UTC offset. *)
Definition naive_and_aware : json :=
  Sample.task 26 1 JNull []
    [Sample.comment 261 (JStr "2024-01-15T10:00:00");
     Sample.comment 262 (JStr "2024-01-15T10:00:00+00:00")].

(** The sort key of a row under the reference parser. *)
Definition run_key (row : json) : datetime :=
  match source_sort_key fromisoformat_ref row with
  | Ok t => t
  | Raise _ => datetime_min
  end.

(** * Loading ([etl/load.py])

    The loader talks to MongoDB through the driver.  What the driver does
    is not in the sources: the server is a state [DB], and each call of the
    driver is a function of the state that returns what the call returned
    or raised, with the state that follows.  Logging is left out. *)

Module Load.

(** A document is a dict. *)
Definition document : Type := list (string * doc).

(** The exceptions that cross the loader: the driver's
    [ConnectionFailure], any other [Exception] of the driver, and the
    interpreter's own. *)
Inductive error : Type :=
| ConnectionFailure (msg : string)
| DriverError (msg : string)
| ZeroDivisionError
| Builtin (e : exn).

Inductive outcome (A : Type) : Type :=
| Returns (a : A)
| Raises (e : error).

Arguments Returns {A} a.
Arguments Raises {A} e.

(** [str(n)] for an integer. *)
Definition py_str (n : Z) : string := NilZero.string_of_int (Z.to_int n).

(** [len(l)] *)
Definition len {A} (l : list A) : Z := Z.of_nat (length l).

(** [range(0, stop, step)] *)
Fixpoint range_up (fuel : nat) (i stop step : Z) : list Z :=
  match fuel with
  | O => []
  | S fuel' => if i <? stop then i :: range_up fuel' (i + step) stop step else []
  end.

Fixpoint range_down (fuel : nat) (i stop step : Z) : list Z :=
  match fuel with
  | O => []
  | S fuel' => if stop <? i then i :: range_down fuel' (i + step) stop step else []
  end.

Definition py_range (stop step : Z) : result (list Z) :=
  if step =? 0 then Raise ValueError
  else if 0 <? step then Ok (range_up (Z.to_nat stop) 0 stop step)
  else Ok (range_down (Z.to_nat (- stop)) 0 stop step).

(** [l[i:j]]: an index below zero counts from the end, and both are cut to
    the list. *)
Definition clamp (n x : Z) : Z :=
  if x <? 0 then Z.max (x + n) 0 else Z.min x n.

Definition py_slice {A} (l : list A) (i j : Z) : list A :=
  let lo := clamp (len l) i in
  let hi := clamp (len l) j in
  firstn (Z.to_nat (hi - lo)) (skipn (Z.to_nat lo) l).

(** ** [LoadStats] *)

Record LoadStats : Type := mkLoadStats {
  collection_name : string;
  total_documents : Z;
  inserted_count : Z;
  failed_count : Z;
  errors : list string;
  batches_processed : Z
}.

Definition LoadStats_new (name : string) : LoadStats :=
  mkLoadStats name 0 0 0 [] 0.

Definition set_total_documents (n : Z) (st : LoadStats) : LoadStats :=
  mkLoadStats (collection_name st) n (inserted_count st) (failed_count st)
              (errors st) (batches_processed st).

Definition add_success (count : Z) (st : LoadStats) : LoadStats :=
  mkLoadStats (collection_name st) (total_documents st) (inserted_count st + count)
              (failed_count st) (errors st) (batches_processed st).

Definition add_failure (count : Z) (error : string) (st : LoadStats) : LoadStats :=
  mkLoadStats (collection_name st) (total_documents st) (inserted_count st)
              (failed_count st + count) (errors st ++ [error]) (batches_processed st).

Definition increment_batch (st : LoadStats) : LoadStats :=
  mkLoadStats (collection_name st) (total_documents st) (inserted_count st)
              (failed_count st) (errors st) (batches_processed st + 1).

(** The dict [get_summary] returns. *)
Record summary : Type := mkSummary {
  sum_collection : string;
  sum_total_documents : Z;
  sum_inserted : Z;
  sum_failed : Z;
  sum_batches : Z;
  sum_success_rate : string;
  sum_errors : list string
}.

(** The dict [load_all_data] returns. *)
Record load_results : Type := mkLoadResults {
  res_total_documents : Z;
  res_total_inserted : Z;
  res_total_failed : Z;
  res_success_rate : string;
  res_collections : list (string * summary)
}.

(** What [collection.bulk_write] of insert operations returns or raises:
    a result with its [inserted_count]; a [BulkWriteError] with the
    [nInserted] and the length of the [writeErrors] of its details, when
    the details have them; a [DuplicateKeyError] or any other [Exception], with its
    text. *)
Inductive write_result : Type :=
| BulkWriteResult (inserted_count : Z)
| BulkWriteError (nInserted : option Z) (writeErrors : option nat)
| DuplicateKeyError (msg : string)
| WriteException (msg : string).

(** The same for upsert operations. *)
Inductive upsert_result : Type :=
| UpsertResult (upserted_count modified_count : Z)
| UpsertBulkWriteError (nUpserted nModified : option Z) (writeErrors : option nat)
| UpsertException (msg : string).

Section Driver.
Variable DB : Type.

(** [MongoConnection()]: [None] when the database handle is obtained,
    otherwise what [get_mongo_database] raised. *)
Variable connect : DB -> option error.

(** [collection.bulk_write(operations, ordered=ordered)] on the collection
    of that name, for insert and for upsert operations. *)
Variable bulk_write : string -> list document -> bool -> DB -> write_result * DB.
Variable bulk_upsert : string -> list document -> DB -> upsert_result * DB.

(** [collection.delete_many({})] with the [deleted_count] of its result. *)
Variable delete_many : string -> DB -> outcome Z * DB.

(** The text of [f"{(a / b * 100):.1f}%"] for [b <> 0]: float division and
    formatting are the interpreter's. *)
Variable percent : Z -> Z -> string.

Definition get_summary (st : LoadStats) : summary :=
  mkSummary (collection_name st) (total_documents st) (inserted_count st)
            (failed_count st) (batches_processed st)
            (if 0 <? total_documents st
             then percent (inserted_count st) (total_documents st)
             else "0%")
            (errors st).

(** One turn of the loop of [load_collection_bulk], for the index [i]. *)
Definition load_batch (name : string) (documents : list document) (batch_size : Z)
           (ordered : bool) (st : LoadStats * DB) (i : Z) : LoadStats * DB :=
  let '(stats, db) := st in
  let batch := py_slice documents i (i + batch_size) in
  match bulk_write name batch ordered db with
  | (BulkWriteResult n, db') =>
      (increment_batch (add_success n stats), db')
  | (BulkWriteError nInserted writeErrors, db') =>
      let inserted := default 0 nInserted in
      let failed := Z.of_nat (default 0%nat writeErrors) in
      (increment_batch
         (add_failure failed ("BulkWriteError: " ++ py_str failed ++ " documents failed")
                      (add_success inserted stats)), db')
  | (DuplicateKeyError msg, db') =>
      (increment_batch (add_failure (len batch) ("DuplicateKeyError: " ++ msg) stats), db')
  | (WriteException msg, db') =>
      (increment_batch (add_failure (len batch) ("Unexpected error: " ++ msg) stats), db')
  end.

(** [load_collection_bulk]: both outer handlers record the failure in the
    statistics, which are then lost, and raise again. *)
Definition load_collection_bulk (name : string) (documents : list document)
           (batch_size : Z) (ordered : bool) (db : DB) : outcome LoadStats * DB :=
  let stats := set_total_documents (len documents) (LoadStats_new name) in
  match documents with
  | [] => (Returns stats, db)
  | _ =>
      match connect db with
      | Some e => (Raises e, db)
      | None =>
          match py_range (len documents) batch_size with
          | Raise e => (Raises (Builtin e), db)
          | Ok indices =>
              let '(stats', db') :=
                fold_left (load_batch name documents batch_size ordered) indices (stats, db) in
              (Returns stats', db')
          end
      end
  end.

(** The operations of an upsert batch: [doc["_id"]] for each document. *)
Definition upsert_keys (batch : list document) : result (list doc) :=
  rmap (fun d => match dict_get "_id" d with
                 | Some v => Ok v
                 | None => Raise (KeyError (KStr "_id"))
                 end) batch.

Definition upsert_batch (name : string) (documents : list document) (batch_size : Z)
           (st : LoadStats * DB) (i : Z) : LoadStats * DB :=
  let '(stats, db) := st in
  let batch := py_slice documents i (i + batch_size) in
  match upsert_keys batch with
  | Raise _ =>
      (increment_batch (add_failure (len batch) "Unexpected error: '_id'" stats), db)
  | Ok _ =>
      match bulk_upsert name batch db with
      | (UpsertResult upserted modified, db') =>
          (increment_batch (add_success (upserted + modified) stats), db')
      | (UpsertBulkWriteError nUpserted nModified writeErrors, db') =>
          let upserted := default 0 nUpserted + default 0 nModified in
          let failed := Z.of_nat (default 0%nat writeErrors) in
          (increment_batch
             (add_failure failed ("BulkWriteError: " ++ py_str failed ++ " failed")
                          (add_success upserted stats)), db')
      | (UpsertException msg, db') =>
          (increment_batch (add_failure (len batch) ("Unexpected error: " ++ msg) stats), db')
      end
  end.

Definition upsert_collection_bulk (name : string) (documents : list document)
           (batch_size : Z) (db : DB) : outcome LoadStats * DB :=
  let stats := set_total_documents (len documents) (LoadStats_new name) in
  match documents with
  | [] => (Returns stats, db)
  | _ =>
      match connect db with
      | Some e => (Raises e, db)
      | None =>
          match py_range (len documents) batch_size with
          | Raise e => (Raises (Builtin e), db)
          | Ok indices =>
              let '(stats', db') :=
                fold_left (upsert_batch name documents batch_size) indices (stats, db) in
              (Returns stats', db')
          end
      end
  end.

Definition load_organizations (documents : list document) (batch_size : Z)
  : DB -> outcome LoadStats * DB :=
  load_collection_bulk "organizations" documents batch_size false.

Definition load_users (documents : list document) (batch_size : Z)
  : DB -> outcome LoadStats * DB :=
  load_collection_bulk "users" documents batch_size false.

Definition load_labels (documents : list document) (batch_size : Z)
  : DB -> outcome LoadStats * DB :=
  load_collection_bulk "labels" documents batch_size false.

(** [len(v)] on a document value. *)
Definition doc_len (v : doc) : result Z :=
  match v with
  | DList l => Ok (len l)
  | DStr s => Ok (Z.of_nat (String.length s))
  | DDict kv => Ok (len kv)
  | _ => Raise TypeError
  end.

(** [sum(len(proj.get('tasks', [])) for proj in documents)] *)
Definition embedded_tasks (documents : list document) : result Z :=
  ns <-- rmap (fun proj => doc_len (default (DList []) (dict_get "tasks" proj))) documents ;;
  Ok (fold_left Z.add ns 0).

Definition load_projects (documents : list document) (batch_size : Z) (db : DB)
  : outcome LoadStats * DB :=
  match embedded_tasks documents with
  | Raise e => (Raises (Builtin e), db)
  | Ok _ => load_collection_bulk "projects" documents batch_size false db
  end.

(** [clear_collection] and [clear_all_collections] *)
Definition clear_collection (name : string) (db : DB) : outcome Z * DB :=
  match connect db with
  | Some e => (Raises e, db)
  | None => delete_many name db
  end.

Fixpoint clear_collections (names : list string) (deleted : list (string * Z)) (db : DB)
  : outcome (list (string * Z)) * DB :=
  match names with
  | [] => (Returns deleted, db)
  | name :: rest =>
      match clear_collection name db with
      | (Raises e, db') => (Raises e, db')
      | (Returns n, db') => clear_collections rest (dict_set name n deleted) db'
      end
  end.

Definition clear_all_collections : DB -> outcome (list (string * Z)) * DB :=
  clear_collections ["organizations"; "users"; "labels"; "projects"] [].

(** [mongo_data[key]] *)
Definition collection_of (mongo_data : list (string * list document)) (key : string)
  : outcome (list document) :=
  match dict_get key mongo_data with
  | Some l => Returns l
  | None => Raises (Builtin (KeyError (KStr key)))
  end.

(** The part of [load_all_data] after the four loads: the totals, the rate
    that is logged when a document failed, and the summary. *)
Definition summarize (all_stats : list (string * LoadStats)) : outcome load_results :=
  let total_inserted := fold_left Z.add (map (fun p => inserted_count (snd p)) all_stats) 0 in
  let total_failed := fold_left Z.add (map (fun p => failed_count (snd p)) all_stats) 0 in
  let total_documents := fold_left Z.add (map (fun p => total_documents (snd p)) all_stats) 0 in
  if (0 <? total_failed) && (total_documents =? 0) then Raises ZeroDivisionError
  else
    Returns (mkLoadResults total_documents total_inserted total_failed
               (if 0 <? total_documents then percent total_inserted total_documents
                else "0%")
               (map (fun p => (fst p, get_summary (snd p))) all_stats)).

(** A step of [load_all_data]: load the collection [key] with [load] and
    keep its statistics under [key]. *)
Definition load_step (mongo_data : list (string * list document)) (key : string)
           (load : list document -> DB -> outcome LoadStats * DB)
           (k : list (string * LoadStats) -> DB -> outcome load_results * DB)
           (all_stats : list (string * LoadStats)) (db : DB) : outcome load_results * DB :=
  match collection_of mongo_data key with
  | Raises e => (Raises e, db)
  | Returns documents =>
      match load documents db with
      | (Raises e, db') => (Raises e, db')
      | (Returns stats, db') => k (dict_set key stats all_stats) db'
      end
  end.

Definition load_all_data (mongo_data : list (string * list document)) (batch_size : Z)
           (clear_existing : bool) (db : DB) : outcome load_results * DB :=
  let load :=
    load_step mongo_data "organizations" (fun d => load_organizations d batch_size)
      (load_step mongo_data "users" (fun d => load_users d batch_size)
         (load_step mongo_data "labels" (fun d => load_labels d batch_size)
            (load_step mongo_data "projects" (fun d => load_projects d batch_size)
               (fun all_stats db' => (summarize all_stats, db'))))) [] in
  if clear_existing then
    match clear_all_collections db with
    | (Raises e, db') => (Raises e, db')
    | (Returns _, db') => load db'
    end
  else load db.

End Driver.
End Load.

(** The batches of the loop [for i in range(0, len(documents), batch_size)]:
    [documents[i:i + batch_size]] for each index, in order. *)
Definition batches {A} (documents : list A) (batch_size : Z) : list (list A) :=
  match Load.py_range (Load.len documents) batch_size with
  | Ok indices => map (fun i => Load.py_slice documents i (i + batch_size)) indices
  | Raise _ => []
  end.

(** The driver accounts for every document of a batch: an insert result
    reports all of them inserted, a [BulkWriteError] reports each one
    inserted or failed. *)
Definition accounts (r : Load.write_result) (batch : list Load.document) : Prop :=
  match r with
  | Load.BulkWriteResult n => n = Load.len batch
  | Load.BulkWriteError nInserted writeErrors =>
      default 0 nInserted + Z.of_nat (default 0%nat writeErrors) = Load.len batch
  | _ => True
  end.

(** The server after the batches [bs] were written to the collection. *)
Definition written {DB : Type}
           (bulk_write : string -> list Load.document -> bool -> DB -> Load.write_result * DB)
           (name : string) (ordered : bool) (bs : list (list Load.document)) (db : DB) : DB :=
  fold_left (fun d b => snd (bulk_write name b ordered d)) bs db.

(** A server that keeps the batches it is sent, behind a driver that
    always connects and inserts every document. *)
Module Journal.
Definition DB : Type := list (string * list Load.document).

Definition connect (db : DB) : option Load.error := None.

Definition bulk_write (name : string) (batch : list Load.document) (ordered : bool) (db : DB)
  : Load.write_result * DB :=
  (Load.BulkWriteResult (Load.len batch), (db ++ [(name, batch)])%list).

Definition delete_many (name : string) (db : DB) : Load.outcome Z * DB :=
  (Load.Returns (Load.len (List.filter (fun p => String.eqb (fst p) name) db)),
   List.filter (fun p => negb (String.eqb (fst p) name)) db).

(** The two numbers of a rate, left unformatted. *)
Definition percent (a b : Z) : string := Load.py_str a ++ "/" ++ Load.py_str b.

Definition alice : Load.document := [("_id", DOid 1%N); ("name", DStr "Alice")].
Definition bob : Load.document := [("_id", DOid 2%N); ("name", DStr "Bob")].
Definition carol : Load.document := [("_id", DOid 3%N); ("name", DStr "Carol")].

(** Data without the [labels] collection. *)
Definition unlabelled_data : list (string * list Load.document) :=
  [("organizations", [alice]); ("users", [alice; bob; carol]); ("projects", [])].

Definition full_data : list (string * list Load.document) :=
  [("organizations", [alice]); ("users", [alice; bob; carol]);
   ("labels", []); ("projects", [bob])].
End Journal.

(** * The orchestrator ([etl/migrate.py])

    [MigrationOrchestrator] runs the connection test, the extraction, the
    transformation and the load.  The connection tests and the extraction
    are the collaborators' (what they return or raise is given), the
    transformation and the load are the ones above.  Logging and the
    timing statistics are left out, and so are an interrupt from the
    keyboard and the closing of the client, which touch none of the
    values below. *)

Module Migrate.

(** [v.get(k, default)], [len(v)], [for x in v] and [v.values()] on
    document values. *)
Definition doc_get (v : doc) (k : string) (default : doc) : result doc :=
  match v with
  | DDict kv => Ok (match dict_get k kv with Some x => x | None => default end)
  | _ => Raise AttributeError
  end.

Fixpoint doc_chars (s : string) : list doc :=
  match s with
  | EmptyString => []
  | String c s' => DStr (String c EmptyString) :: doc_chars s'
  end.

Definition doc_iter (v : doc) : result (list doc) :=
  match v with
  | DList l => Ok l
  | DStr s => Ok (doc_chars s)
  | DDict kv => Ok (map (fun p => DStr (fst p)) kv)
  | _ => Raise TypeError
  end.

Definition doc_values (v : doc) : result (list doc) :=
  match v with
  | DDict kv => Ok (map snd kv)
  | _ => Raise AttributeError
  end.

(** [len(v.get(k, []))] *)
Definition len_of (v : doc) (k : string) : result Z :=
  x <-- doc_get v k (DList []) ;; Load.doc_len x.

(** [sum(f(x) for x in v)] *)
Definition sum_over (f : doc -> result Z) (v : doc) : result Z :=
  xs <-- doc_iter v ;;
  ns <-- rmap f xs ;;
  Ok (fold_left Z.add ns 0).

(** The data of [transform_all_data] as [load_all_data] takes them, a dict
    of lists of dicts: [transform_all_data] returns nothing else. *)
Definition as_document (d : doc) : Load.document :=
  match d with DDict kv => kv | _ => [] end.

Definition as_documents (v : doc) : list Load.document :=
  match v with DList l => map as_document l | _ => [] end.

Definition as_collections (mongo_data : doc) : list (string * list Load.document) :=
  match mongo_data with
  | DDict kv => map (fun p => (fst p, as_documents (snd p))) kv
  | _ => []
  end.

(** What went wrong, as [self.stats["errors"]] records it: the phase and
    the exception. *)
Inductive failure : Type :=
| Extraction (e : Load.error)
| Transformation (e : Load.error)
| Loading (e : Load.error)
| Unexpected (e : Load.error).

(** [self.stats] *)
Record stats : Type := mkStats {
  source_data : list (string * Z);
  transformed_data : list (string * Z);
  load_results : option Load.load_results;
  errors : list failure
}.

Definition stats_new : stats := mkStats [] [] None [].

Definition add_error (f : failure) (st : stats) : stats :=
  mkStats (source_data st) (transformed_data st) (load_results st) (errors st ++ [f]).

Definition set_source_data (d : list (string * Z)) (st : stats) : stats :=
  mkStats d (transformed_data st) (load_results st) (errors st).

Definition set_transformed_data (d : list (string * Z)) (st : stats) : stats :=
  mkStats (source_data st) d (load_results st) (errors st).

Definition set_load_results (r : Load.load_results) (st : stats) : stats :=
  mkStats (source_data st) (transformed_data st) (Some r) (errors st).

Section Orchestrator.
Variable fromisoformat : string -> option datetime.

(** The [ObjectId] supply when the transformation starts. *)
Variable oid0 : ObjectId.

(** The options of the run. *)
Variable dry_run : bool.
Variable clear_existing : bool.
Variable batch_size : Z.

(** [test_supabase_connection()] and [test_mongo_connection()], which
    catch every [Exception] and return a boolean. *)
Variable test_supabase_connection : bool.
Variable test_mongo_connection : bool.

(** [extract_all_data()] *)
Variable extract_all_data : Load.outcome json.

(** The driver of the loader. *)
Variable DB : Type.
Variable connect : DB -> option Load.error.
Variable bulk_write : string -> list Load.document -> bool -> DB -> Load.write_result * DB.
Variable delete_many : string -> DB -> Load.outcome Z * DB.
Variable percent : Z -> Z -> string.

(** [config.test_connections()["all_connected"]] *)
Definition all_connected : bool := test_supabase_connection && test_mongo_connection.

Definition test_connections : bool := all_connected.

(** The statistics of [extract_phase]. *)
Definition source_counts (data : json) : result (list (string * Z)) :=
  let count k := (x <-- py_get data k (JList []) ;; py_len x) in
  organizations <-- count "organizations" ;;
  users <-- count "users" ;;
  labels <-- count "labels" ;;
  projects <-- count "projects" ;;
  tasks <-- count "tasks" ;;
  Ok [("organizations", organizations); ("users", users); ("labels", labels);
      ("projects", projects); ("tasks", tasks)].

Definition extract_phase (st : stats) : option json * stats :=
  match extract_all_data with
  | Load.Raises e => (None, add_error (Extraction e) st)
  | Load.Returns data =>
      match source_counts data with
      | Raise e => (None, add_error (Extraction (Load.Builtin e)) st)
      | Ok counts => (Some data, set_source_data counts st)
      end
  end.

(** The statistics of [transform_phase]: the four collections first, then
    the embedded tasks and comments. *)
Definition collection_counts (mongo_data : doc) : result (list (string * Z)) :=
  organizations <-- len_of mongo_data "organizations" ;;
  users <-- len_of mongo_data "users" ;;
  labels <-- len_of mongo_data "labels" ;;
  projects <-- len_of mongo_data "projects" ;;
  Ok [("organizations", organizations); ("users", users); ("labels", labels);
      ("projects", projects)].

Definition embedded_tasks (mongo_data : doc) : result Z :=
  projects <-- doc_get mongo_data "projects" (DList []) ;;
  sum_over (fun proj => len_of proj "tasks") projects.

Definition embedded_comments (mongo_data : doc) : result Z :=
  projects <-- doc_get mongo_data "projects" (DList []) ;;
  sum_over (fun proj =>
              tasks <-- doc_get proj "tasks" (DList []) ;;
              sum_over (fun task => len_of task "comments") tasks)
           projects.

Definition transform_phase (data : json) (st : stats) : option doc * stats :=
  match transform_all_data fromisoformat data oid0 with
  | Raise e => (None, add_error (Transformation (Load.Builtin e)) st)
  | Ok mongo_data =>
      match collection_counts mongo_data with
      | Raise e => (None, add_error (Transformation (Load.Builtin e)) st)
      | Ok counts =>
          let st1 := set_transformed_data counts st in
          match (total_tasks <-- embedded_tasks mongo_data ;;
                 total_comments <-- embedded_comments mongo_data ;;
                 Ok (total_tasks, total_comments)) with
          | Raise e => (None, add_error (Transformation (Load.Builtin e)) st1)
          | Ok (total_tasks, total_comments) =>
              (Some mongo_data,
               set_transformed_data
                 (dict_set "embedded_comments" total_comments
                    (dict_set "embedded_tasks" total_tasks counts)) st1)
          end
      end
  end.

(** [sum(len(v) for v in mongo_data.values() if isinstance(v, list))] *)
Definition list_total (mongo_data : doc) : result Z :=
  vs <-- doc_values mongo_data ;;
  Ok (fold_left Z.add
        (map (fun v => match v with DList l => Load.len l | _ => 0 end)
             (List.filter (fun v => match v with DList _ => true | _ => false end) vs))
        0).

(** [load_phase]: the dry run returns a summary of its own, which is not
    kept in the statistics. *)
Definition load_phase (mongo_data : doc) (st : stats) (db : DB)
  : result (option Load.load_results) * stats * DB :=
  if dry_run then
    match list_total mongo_data with
    | Raise e => (Raise e, st, db)
    | Ok n => (Ok (Some (Load.mkLoadResults n 0 0 "N/A (dry run)" [])), st, db)
    end
  else
    match Load.load_all_data DB connect bulk_write delete_many percent
            (as_collections mongo_data) batch_size clear_existing db with
    | (Load.Returns r, db') => (Ok (Some r), set_load_results r st, db')
    | (Load.Raises e, db') => (Ok None, add_error (Loading e) st, db')
    end.

(** [run]: the verdict, the statistics and the server at the end. *)
Definition run (db : DB) : bool * stats * DB :=
  let st := stats_new in
  if negb test_connections then (false, st, db)
  else
    match extract_phase st with
    | (None, st) => (false, st, db)
    | (Some data, st) =>
        match transform_phase data st with
        | (None, st) => (false, st, db)
        | (Some mongo_data, st) =>
            match load_phase mongo_data st db with
            | (Raise e, st, db') =>
                (false, add_error (Unexpected (Load.Builtin e)) st, db')
            | (Ok results, st, db') =>
                if match results with None => negb dry_run | Some _ => false end
                then (false, st, db')
                else match errors st with
                     | [] => (true, st, db')
                     | _ => (false, st, db')
                     end
            end
        end
    end.

End Orchestrator.
End Migrate.

(** A driver that connects and whose every [bulk_write] raises. *)
Module Rejecting.
Definition bulk_write (name : string) (batch : list Load.document) (ordered : bool)
           (db : Journal.DB) : Load.write_result * Journal.DB :=
  (Load.WriteException "connection reset", db).
End Rejecting.

(** The migration of the sample data with the journal driver, and with the
    driver that rejects every batch. *)
Definition sample_migration : bool * Migrate.stats * Journal.DB :=
  Migrate.run fromisoformat_ref 0%N false false 2 true true
              (Load.Returns Sample.source_data)
              Journal.DB Journal.connect Journal.bulk_write Journal.delete_many
              Journal.percent [].

Definition rejected_migration : bool * Migrate.stats * Journal.DB :=
  Migrate.run fromisoformat_ref 0%N false false 2 true true
              (Load.Returns Sample.source_data)
              Journal.DB Journal.connect Rejecting.bulk_write Journal.delete_many
              Journal.percent [].

(** * Properties *)

(** ** The monad *)

Lemma bind_ok {A B} (c : M A) (k : A -> M B) s b s' :
  bind c k s = Ok (b, s') ->
  exists a s1, c s = Ok (a, s1) /\ k a s1 = Ok (b, s').
Proof.
  unfold bind. destruct (c s) as [[a s1]|e]; [eauto | discriminate].
Qed.

Lemma bind_lift_ok {A B} (r : result A) (k : A -> M B) s b s' :
  bind (lift r) k s = Ok (b, s') ->
  exists a, r = Ok a /\ k a s = Ok (b, s').
Proof.
  unfold bind, lift. destruct r as [a|e]; [eauto | discriminate].
Qed.

Lemma ret_ok {A} (a b : A) s s' : ret a s = Ok (b, s') -> b = a /\ s' = s.
Proof. unfold ret. intros H. injection H as -> ->. auto. Qed.

Lemma bind_step {A B} (c : M A) (k : A -> M B) s a s1 :
  c s = Ok (a, s1) -> bind c k s = k a s1.
Proof. unfold bind. intros ->. reflexivity. Qed.

Lemma bind_lift_step {A B} (r : result A) (k : A -> M B) s a :
  r = Ok a -> bind (lift r) k s = k a s.
Proof. intros ->. reflexivity. Qed.

Lemma bind_raise {A B} (c : M A) (k : A -> M B) s e :
  c s = Raise e -> bind c k s = Raise e.
Proof. unfold bind. intros ->. reflexivity. Qed.

Lemma bind_lift_raise {A B} (r : result A) (k : A -> M B) s e :
  r = Raise e -> bind (lift r) k s = Raise e.
Proof. intros ->. reflexivity. Qed.

Lemma rbind_ok {A B} (r : result A) (k : A -> result B) b :
  rbind r k = Ok b -> exists a, r = Ok a /\ k a = Ok b.
Proof. destruct r as [a|e]; simpl; [eauto | discriminate]. Qed.

Lemma bind_ext_l {A B} (c c' : M A) (k : A -> M B) :
  (forall s, c s = c' s) -> forall s, bind c k s = bind c' k s.
Proof. intros H s. unfold bind. now rewrite H. Qed.

Lemma bind_ext_r {A B} (c : M A) (k k' : A -> M B) :
  (forall a s, k a s = k' a s) -> forall s, bind c k s = bind c k' s.
Proof. intros H s. unfold bind. destruct (c s) as [[a s1]|]; [apply H | reflexivity]. Qed.

Lemma bind_lift_ext {A B} (r : result A) (k k' : A -> M B) :
  (forall a, r = Ok a -> forall s, k a s = k' a s) ->
  forall s, bind (lift r) k s = bind (lift r) k' s.
Proof. intros H s. destruct r as [a|]; [apply (H a eq_refl) | reflexivity]. Qed.

(** Decompose a successful run into the successful runs of its steps. *)
Ltac monad_inv H :=
  repeat
    (lazymatch type of H with
     | bind (lift _) _ _ = Ok _ =>
         let a := fresh "v" in
         let E := fresh "E" in
         apply bind_lift_ok in H; destruct H as (a & E & H)
     | bind _ _ _ = Ok _ =>
         let a := fresh "v" in
         let s := fresh "s" in
         let E := fresh "E" in
         apply bind_ok in H; destruct H as (a & s & E & H)
     | ret _ _ = Ok _ =>
         let E := fresh "E" in
         apply ret_ok in H; destruct H as [E H]
     | rbind _ _ = Ok _ =>
         let a := fresh "v" in
         let E := fresh "E" in
         apply rbind_ok in H; destruct H as (a & E & H)
     end).

(** ** Timestamps *)




Lemma str_replace_absent old new s :
  occurs old s = false -> str_replace old new s = s.
Proof.
  induction s as [|c s IH]; simpl; [reflexivity |].
  destruct (Ascii.eqb c old); simpl; [discriminate |].
  intros H. now rewrite IH.
Qed.

Section TimestampFacts.
Variable fromisoformat : string -> option datetime.

Lemma convert_timestamp_ok v :
  exists d, convert_timestamp fromisoformat v = Ok d.
Proof.
  destruct v; simpl; eauto.
  unfold py_fromisoformat. destruct (fromisoformat _); eauto.
Qed.

Lemma convert_timestamp_str s :
  convert_timestamp fromisoformat (JStr s) =
  Ok (match fromisoformat (str_replace "Z" "+00:00" s) with
      | Some t => DDate t
      | None => DNone
      end).
Proof.
  simpl. unfold py_fromisoformat. destruct (fromisoformat _); reflexivity.
Qed.

End TimestampFacts.

(** ** The identifier mapper *)

Lemma table_set_same e t m : table e (set_table e t m) = t.
Proof. destruct e; reflexivity. Qed.

Lemma table_set_other e e' t m : e <> e' -> table e' (set_table e t m) = table e' m.
Proof. destruct e, e'; intros H; try reflexivity; congruence. Qed.

(** The state after a call that had to draw a new identifier. *)
Definition recorded (e : entity) (k : pykey) (s : state) : state :=
  mkState (set_table e (<[k := next_oid s]> (table e (id_mapper s))) (id_mapper s))
          (N.succ (next_oid s)).

Lemma generate_unfold e pg_id s :
  generate e pg_id s =
  match py_hash pg_id with
  | Raise x => Raise x
  | Ok k =>
      match table e (id_mapper s) !! k with
      | Some o => Ok (o, s)
      | None => Ok (next_oid s, recorded e k s)
      end
  end.
Proof.
  unfold generate. destruct (py_hash pg_id) as [k|x]; [| reflexivity].
  rewrite (bind_lift_step _ _ _ k eq_refl).
  unfold bind at 1, mapper_contains.
  destruct (table e (id_mapper s) !! k) as [o|] eqn:E.
  - rewrite bool_decide_eq_true_2 by eauto.
    unfold bind, ret, mapper_load. now rewrite E.
  - rewrite bool_decide_eq_false_2 by (intros [? ?]; discriminate).
    unfold bind, ObjectId_new, mapper_store, mapper_load, recorded. simpl.
    now rewrite table_set_same, lookup_insert_eq.
Qed.

Lemma recorded_lookup e k s e' k' :
  table e' (id_mapper (recorded e k s)) !! k' =
  if decide (e = e' /\ k = k') then Some (next_oid s)
  else table e' (id_mapper s) !! k'.
Proof.
  unfold recorded; simpl. destruct (decide (e = e')) as [<-|Hne].
  - rewrite table_set_same. destruct (decide (k = k')) as [<-|Hk].
    + rewrite lookup_insert_eq. now rewrite decide_True.
    + rewrite lookup_insert_ne by assumption.
      rewrite decide_False; [reflexivity | tauto].
  - rewrite table_set_other by assumption.
    rewrite decide_False; [reflexivity | tauto].
Qed.

(** A call never changes a binding that is already there. *)
Lemma generate_keeps e pg_id s o s' e' k' o' :
  generate e pg_id s = Ok (o, s') ->
  table e' (id_mapper s) !! k' = Some o' ->
  table e' (id_mapper s') !! k' = Some o'.
Proof.
  rewrite generate_unfold. destruct (py_hash pg_id) as [k|]; [| discriminate].
  destruct (table e (id_mapper s) !! k) as [o0|] eqn:E; intros H; injection H as <- <-.
  - auto.
  - intros H'. rewrite recorded_lookup. destruct (decide _) as [[<- <-]|]; [congruence | assumption].
Qed.

(** The value a call returns is the one stored for its key afterwards. *)
Lemma generate_stored e pg_id s o s' :
  generate e pg_id s = Ok (o, s') ->
  exists k, py_hash pg_id = Ok k /\ table e (id_mapper s') !! k = Some o.
Proof.
  rewrite generate_unfold. destruct (py_hash pg_id) as [k|]; [| discriminate].
  exists k. split; [reflexivity |].
  destruct (table e (id_mapper s) !! k) as [o0|] eqn:E; injection H as <- <-.
  - assumption.
  - rewrite recorded_lookup. now rewrite decide_True.
Qed.

Lemma run_calls_keeps calls : forall s ids s' e k o,
  run_calls calls s = Ok (ids, s') ->
  table e (id_mapper s) !! k = Some o ->
  table e (id_mapper s') !! k = Some o.
Proof.
  unfold run_calls.
  induction calls as [|[e0 j] calls IH]; intros s ids s' e k o H Hk; simpl in H.
  - apply ret_ok in H as [_ ->]. assumption.
  - monad_inv H. subst. eapply IH; [eassumption |].
    eapply generate_keeps; eassumption.
Qed.

(** C2. A call for an integer source id always returns; when the id is not
    yet in the table the call records the next identifier of the supply
    under it, and from then on, whatever other calls are made on the mapper
    in between, every call for the same (entity type, source id) returns
    that recorded identifier and leaves the mapper as it is. *)
Theorem generate_idempotent (e : entity) (pg_id : Z) (s : state) :
  exists o s',
    generate e (JInt pg_id) s = Ok (o, s') /\
    table e (id_mapper s') !! KInt pg_id = Some o /\
    (table e (id_mapper s) !! KInt pg_id = None -> o = next_oid s) /\
    (forall calls ids s'',
        run_calls calls s' = Ok (ids, s'') ->
        generate e (JInt pg_id) s'' = Ok (o, s'')).
Proof.
  destruct (generate e (JInt pg_id) s) as [[o s']|x] eqn:G.
  2:{ rewrite generate_unfold in G. simpl in G.
      destruct (table e (id_mapper s) !! KInt pg_id); discriminate. }
  exists o, s'. split; [reflexivity |].
  destruct (generate_stored _ _ _ _ _ G) as (k & Hk & Hs').
  simpl in Hk. injection Hk as <-.
  split; [assumption |]. split.
  - intros Hnone. rewrite generate_unfold in G. simpl in G.
    rewrite Hnone in G. now injection G as <- _.
  - intros calls ids s'' Hrun. rewrite generate_unfold. simpl.
    now rewrite (run_calls_keeps _ _ _ _ _ _ _ Hrun Hs').
Qed.

Lemma initial_below oid0 : mapper_below (initial_state oid0).
Proof. intros e k o H. destruct e; simpl in H; rewrite lookup_empty in H; discriminate. Qed.

Lemma initial_injective oid0 : mapper_injective (initial_state oid0).
Proof.
  intros e1 k1 e2 k2 o H. destruct e1; simpl in H; rewrite lookup_empty in H; discriminate.
Qed.

Lemma generate_below e pg_id s o s' :
  generate e pg_id s = Ok (o, s') -> mapper_below s -> mapper_below s'.
Proof.
  rewrite generate_unfold. destruct (py_hash pg_id) as [k|]; [| discriminate].
  destruct (table e (id_mapper s) !! k) as [o0|] eqn:E; intros H; injection H as <- <-.
  - auto.
  - intros Hb e' k' o'. rewrite recorded_lookup. simpl.
    destruct (decide _); intros H.
    + injection H as <-. lia.
    + apply Hb in H. lia.
Qed.

Lemma generate_injective e pg_id s o s' :
  generate e pg_id s = Ok (o, s') ->
  mapper_below s -> mapper_injective s -> mapper_injective s'.
Proof.
  rewrite generate_unfold. destruct (py_hash pg_id) as [k|]; [| discriminate].
  destruct (table e (id_mapper s) !! k) as [o0|] eqn:E; intros H; injection H as <- <-.
  - auto.
  - intros Hb Hi e1 k1 e2 k2 o'. rewrite !recorded_lookup.
    destruct (decide (e = e1 /\ k = k1)) as [[<- <-]|N1];
      destruct (decide (e = e2 /\ k = k2)) as [[<- <-]|N2]; intros H1 H2.
    + auto.
    + injection H1 as <-. apply Hb in H2. lia.
    + injection H2 as <-. apply Hb in H1. lia.
    + eapply Hi; eassumption.
Qed.

Lemma run_calls_invariant calls : forall s ids s',
  run_calls calls s = Ok (ids, s') ->
  mapper_below s /\ mapper_injective s ->
  mapper_below s' /\ mapper_injective s'.
Proof.
  unfold run_calls.
  induction calls as [|[e0 j] calls IH]; intros s ids s' H [Hb Hi]; simpl in H.
  - apply ret_ok in H as [_ ->]. auto.
  - monad_inv H. subst. eapply IH; [eassumption |]. split.
    + eapply generate_below; eassumption.
    + eapply generate_injective; eassumption.
Qed.

(** What the [i]-th call returned is stored under its key at the end. *)
Lemma run_calls_stored calls : forall s ids s' i e pg_id o,
  run_calls calls s = Ok (ids, s') ->
  nth_error calls i = Some (e, pg_id) ->
  nth_error ids i = Some o ->
  exists k, py_hash pg_id = Ok k /\ table e (id_mapper s') !! k = Some o.
Proof.
  induction calls as [|[e0 j] calls IH]; intros s ids s' i e pg_id o H Hc Hi.
  - destruct i; discriminate.
  - unfold run_calls in H. simpl in H. monad_inv H. subst.
    destruct i as [|i]; simpl in Hc, Hi.
    + injection Hc as -> ->. injection Hi as ->.
      destruct (generate_stored _ _ _ _ _ E) as (k & Hk & Hs).
      exists k. split; [assumption |].
      eapply run_calls_keeps; eassumption.
    + eapply IH; eassumption.
Qed.

(** C5. In a mapper that started empty, after any sequence of calls no
    identifier is stored, in one table or in two different ones, under two
    different (entity type, source id) pairs; hence two calls that returned
    the same identifier were calls for the same entity type and the same
    source id. *)
Theorem mapper_tables_disjoint (oid0 : ObjectId) (calls : list (entity * json))
        (ids : list ObjectId) (s : state) :
  run_calls calls (initial_state oid0) = Ok (ids, s) ->
  mapper_injective s /\
  (forall i j e1 pg_id1 e2 pg_id2 o,
      nth_error calls i = Some (e1, pg_id1) ->
      nth_error calls j = Some (e2, pg_id2) ->
      nth_error ids i = Some o ->
      nth_error ids j = Some o ->
      e1 = e2 /\ py_hash pg_id1 = py_hash pg_id2).
Proof.
  intros H.
  assert (Hi : mapper_injective s).
  { eapply run_calls_invariant in H as [_ Hi]; [exact Hi |].
    split; [apply initial_below | apply initial_injective]. }
  split; [exact Hi |].
  intros i j e1 pg_id1 e2 pg_id2 o Hc1 Hc2 Ho1 Ho2.
  destruct (run_calls_stored _ _ _ _ _ _ _ _ H Hc1 Ho1) as (k1 & Hk1 & Hs1).
  destruct (run_calls_stored _ _ _ _ _ _ _ _ H Hc2 Ho2) as (k2 & Hk2 & Hs2).
  destruct (Hi _ _ _ _ _ Hs1 Hs2) as [-> ->].
  split; [reflexivity | congruence].
Qed.

(** ** The mapper under the transformers *)

Lemma preserves_ret {A} (a : A) : preserves (ret a).
Proof. intros s b s' H. apply ret_ok in H as [_ ->]. auto. Qed.

Lemma preserves_lift {A} (r : result A) : preserves (lift r).
Proof.
  intros s b s' H. destruct r; simpl in H; [| discriminate].
  injection H as _ <-. auto.
Qed.

Lemma preserves_bind {A B} (c : M A) (k : A -> M B) :
  preserves c -> (forall a, preserves (k a)) -> preserves (bind c k).
Proof.
  intros Hc Hk s b s' H. apply bind_ok in H as (a & s1 & H1 & H2).
  destruct (Hc _ _ _ H1) as [Hc1 Hc2]. destruct (Hk _ _ _ _ H2) as [Hk1 Hk2].
  split; auto.
Qed.

Lemma preserves_generate e pg_id : preserves (generate e pg_id).
Proof.
  intros s o s' H. split.
  - intros [Hb Hi]. split.
    + eapply generate_below; eassumption.
    + eapply generate_injective; eassumption.
  - intros e' k' o'. eapply generate_keeps; eassumption.
Qed.

Lemma preserves_mapM {A B} (f : A -> M B) (l : list A) :
  (forall x, preserves (f x)) -> preserves (mapM f l).
Proof.
  intros Hf. induction l as [|x l IH]; simpl.
  - apply preserves_ret.
  - apply preserves_bind; [apply Hf | intros y].
    apply preserves_bind; [exact IH | intros ys]. apply preserves_ret.
Qed.

Lemma preserves_collectM {A B} (f : A -> M (option B)) (l : list A) :
  (forall x, preserves (f x)) -> preserves (collectM f l).
Proof.
  intros Hf. induction l as [|x l IH]; simpl.
  - apply preserves_ret.
  - apply preserves_bind; [apply Hf | intros y].
    apply preserves_bind; [exact IH | intros ys]. apply preserves_ret.
Qed.

(** A source id that is already in the mapper keeps its identifier through
    any transformer: a later reference to it gets the identifier the earlier
    one got. *)
Lemma reference_stable {A} (c : M A) e pg_id o s s1 a s2 :
  preserves c ->
  generate e pg_id s = Ok (o, s1) ->
  c s1 = Ok (a, s2) ->
  generate e pg_id s2 = Ok (o, s2).
Proof.
  intros Hc Hg Hrun.
  destruct (generate_stored _ _ _ _ _ Hg) as (k & Hk & Hs).
  apply Hc in Hrun as [_ Hkeep]. apply Hkeep in Hs.
  rewrite generate_unfold, Hk, Hs. reflexivity.
Qed.

(** Go through a transformer step by step. *)
Ltac preserves_steps :=
  repeat
    (lazymatch goal with
     | |- preserves (bind _ _) => apply preserves_bind; [| intros ?]
     | |- preserves (lift _) => apply preserves_lift
     | |- preserves (ret _) => apply preserves_ret
     | |- preserves (generate _ _) => apply preserves_generate
     | |- preserves (generate_org_id _) => apply preserves_generate
     | |- preserves (generate_user_id _) => apply preserves_generate
     | |- preserves (generate_label_id _) => apply preserves_generate
     | |- preserves (generate_project_id _) => apply preserves_generate
     | |- preserves (generate_task_id _) => apply preserves_generate
     | |- preserves (generate_comment_id _) => apply preserves_generate
     | |- preserves (mapM _ _) => apply preserves_mapM; intros ?
     | |- preserves (collectM _ _) => apply preserves_collectM; intros ?
     | |- preserves (if ?b then _ else _) => destruct b
     | |- preserves (match ?x with _ => _ end) => destruct x
     end).

Section MapperUnderTransformers.
Variable fromisoformat : string -> option datetime.

Lemma preserves_transform_organization org :
  preserves (transform_organization fromisoformat org).
Proof. unfold transform_organization. preserves_steps. Qed.

Lemma preserves_membership_entry row : preserves (membership_entry fromisoformat row).
Proof. unfold membership_entry. preserves_steps. Qed.

Lemma preserves_transform_user user : preserves (transform_user fromisoformat user).
Proof.
  unfold transform_user. preserves_steps. apply preserves_membership_entry.
Qed.

Lemma preserves_transform_label label : preserves (transform_label fromisoformat label).
Proof. unfold transform_label. preserves_steps. Qed.

Lemma preserves_assignee_entry row : preserves (assignee_entry fromisoformat row).
Proof. unfold assignee_entry. preserves_steps. Qed.

Lemma preserves_label_entry row : preserves (label_entry row).
Proof. unfold label_entry. preserves_steps. Qed.

Lemma preserves_comment_entry row : preserves (comment_entry fromisoformat row).
Proof. unfold comment_entry. preserves_steps. Qed.

Lemma preserves_transform_task task lookup :
  preserves (transform_task fromisoformat task lookup).
Proof.
  unfold transform_task. preserves_steps;
    first [apply preserves_assignee_entry | apply preserves_label_entry
          | apply preserves_comment_entry].
Qed.

Lemma preserves_transform_project project tasks lookup :
  preserves (transform_project fromisoformat project tasks lookup).
Proof.
  unfold transform_project. preserves_steps.
  unfold project_task. preserves_steps. apply preserves_transform_task.
Qed.

Lemma preserves_transform_all_steps source_data :
  preserves (transform_all_steps fromisoformat source_data).
Proof.
  unfold transform_all_steps, transform_organizations, transform_users,
    transform_labels, transform_projects.
  preserves_steps;
    first [apply preserves_transform_organization | apply preserves_transform_user
          | apply preserves_transform_label | apply preserves_transform_project].
Qed.

(** The mapper a whole transformation leaves behind stores no identifier
    under two (entity type, source id) pairs. *)
Lemma transform_all_steps_injective source_data oid0 mongo_data s :
  transform_all_steps fromisoformat source_data (initial_state oid0) = Ok (mongo_data, s) ->
  mapper_injective s.
Proof.
  intros H. apply preserves_transform_all_steps in H as [H _].
  apply H. split; [apply initial_below | apply initial_injective].
Qed.
End MapperUnderTransformers.

(** ** Loops *)

Lemma not_ok_raises {A} (r : result A) : (forall a, r <> Ok a) -> exists e, r = Raise e.
Proof. destruct r as [a|e]; [intros H; now destruct (H a) | eauto]. Qed.

Lemma mapM_ok {A B} (f : A -> M B) (l : list A) : forall s ys s',
  mapM f l s = Ok (ys, s') ->
  Forall2 (fun x y => exists s1 s2, f x s1 = Ok (y, s2)) l ys.
Proof.
  induction l as [|x l IH]; intros s ys s' H; simpl in H.
  - apply ret_ok in H as [-> _]. constructor.
  - monad_inv H. subst. constructor; eauto.
Qed.

Lemma collectM_ok {A B} (f : A -> M (option B)) (l : list A) : forall s ys s',
  collectM f l s = Ok (ys, s') ->
  exists os, Forall2 (fun x o => exists s1 s2, f x s1 = Ok (o, s2)) l os /\ ys = somes os.
Proof.
  induction l as [|x l IH]; intros s ys s' H; simpl in H.
  - apply ret_ok in H as [-> _]. exists []. split; [constructor | reflexivity].
  - monad_inv H. subst. destruct (IH _ _ _ E0) as (os & Hos & ->).
    exists (v :: os). split; [constructor; eauto |]. now destruct v.
Qed.

Lemma mapM_ext {A B} (f g : A -> M B) (l : list A) :
  (forall x, In x l -> forall s, f x s = g x s) ->
  forall s, mapM f l s = mapM g l s.
Proof.
  induction l as [|x l IH]; intros Hfg s; simpl; [reflexivity |].
  unfold bind. rewrite (Hfg x (or_introl eq_refl)).
  destruct (g x s) as [[y s1]|]; [| reflexivity].
  rewrite IH; [reflexivity |]. intros z Hz. apply Hfg. now right.
Qed.

Lemma collectM_skip {A B} (f : A -> M (option B)) (l1 l2 : list A) (x : A) :
  (forall s, f x s = Ok (None, s)) ->
  forall s, collectM f (l1 ++ x :: l2)%list s = collectM f (l1 ++ l2)%list s.
Proof.
  intros Hx. induction l1 as [|y l1 IH]; intros s; simpl.
  - unfold bind at 1. rewrite Hx.
    unfold bind, ret. destruct (collectM f l2 s) as [[ys s1]|]; reflexivity.
  - unfold bind at 1 3. destruct (f y s) as [[o s1]|]; [| reflexivity].
    unfold bind. now rewrite IH.
Qed.

Lemma Forall2_In_l {A B} (R : A -> B -> Prop) l l' x :
  Forall2 R l l' -> In x l -> exists y, In y l' /\ R x y.
Proof.
  induction 1 as [|a b l l' Hab _ IH]; simpl; [tauto |].
  intros [<-|Hx]; [eauto |]. destruct (IH Hx) as (y & Hy & Hxy). eauto.
Qed.


(** ** Tasks *)

Section TaskFacts.
Variable fromisoformat : string -> option datetime.

Lemma transform_task_inv task lookup s d s' :
  transform_task fromisoformat task lookup s = Ok (d, s') ->
  exists pg_id mongo_id s1 arows assignees s2 lrows labels s3 crows unsorted comments
         title description status priority due due_date created created_at updated updated_at,
    getitem task "id" = Ok pg_id /\
    generate_task_id pg_id s = Ok (mongo_id, s1) /\
    rows_of task "task_assignees" = Ok arows /\
    mapM (assignee_entry fromisoformat) arows s1 = Ok (assignees, s2) /\
    rows_of task "task_labels" = Ok lrows /\
    collectM label_entry lrows s2 = Ok (labels, s3) /\
    rows_of task "comments" = Ok crows /\
    mapM (comment_entry fromisoformat) crows s3 = Ok (unsorted, s') /\
    list_sort comment_sort_key unsorted = Ok comments /\
    getitem task "title" = Ok title /\
    py_get task "description" JNull = Ok description /\
    getitem task "status" = Ok status /\
    getitem task "priority" = Ok priority /\
    py_get task "due_date" JNull = Ok due /\
    convert_timestamp fromisoformat due = Ok due_date /\
    getitem task "created_at" = Ok created /\
    convert_timestamp fromisoformat created = Ok created_at /\
    getitem task "updated_at" = Ok updated /\
    convert_timestamp fromisoformat updated = Ok updated_at /\
    task_document d mongo_id pg_id title description status priority
                  due_date created_at updated_at assignees labels comments.
Proof.
  intros H. unfold transform_task in H. monad_inv H.
  rewrite E in E11. injection E11 as <-.
  exists v, v0, s0, v2, v3, s1, v5, v6, s2, v8, v9, v10,
         v12, v13, v14, v15, v16, v17, v18, v19, v20, v21.
  assert (s' = s3 /\
          task_document d v0 v v12 v13 v14 v15 v17 v19 v21 v3 v6 v10) as [-> Hd].
  { simpl in H. destruct v13; simpl in H; apply ret_ok in H as [-> ->];
      (split; [reflexivity |]); unfold task_document; repeat split. }
  unfold rows_of. rewrite E1, E4, E7. simpl.
  repeat (split; [assumption |]). exact Hd.
Qed.

(** C4. A task whose source [due_date] is null or absent, once transformed,
    carries the key [due_date] with the value [None]: only [description] is
    deleted from the document. *)
Theorem task_null_due_date_kept task lookup s d s' :
  transform_task fromisoformat task lookup s = Ok (d, s') ->
  py_get task "due_date" JNull = Ok JNull ->
  doc_getitem d "due_date" = Ok DNone.
Proof.
  intros H Hdue. apply transform_task_inv in H.
  destruct H as (pg_id & mongo_id & s1 & arows & assignees & s2 & lrows & labels & s3 &
                 crows & unsorted & comments & title & description & status & priority &
                 due & due_date & created & created_at & updated & updated_at & H).
  destruct H as (_ & _ & _ & _ & _ & _ & _ & _ & _ & _ & _ & _ & _ & Hd & Hc & _ & _ & _ & _ & Hdoc).
  rewrite Hdue in Hd. injection Hd as <-. simpl in Hc. injection Hc as <-.
  apply Hdoc.
Qed.

(** The sibling path: a null or absent [description] leaves no key. *)
Lemma task_null_description_omitted task lookup s d s' :
  transform_task fromisoformat task lookup s = Ok (d, s') ->
  py_get task "description" JNull = Ok JNull ->
  doc_getitem d "description" = missing "description".
Proof.
  intros H Hdesc. apply transform_task_inv in H.
  destruct H as (pg_id & mongo_id & s1 & arows & assignees & s2 & lrows & labels & s3 &
                 crows & unsorted & comments & title & description & status & priority &
                 due & due_date & created & created_at & updated & updated_at & H).
  destruct H as (_ & _ & _ & _ & _ & _ & _ & _ & _ & _ & Hd & _ & _ & _ & _ & _ & _ & _ & _ & Hdoc).
  rewrite Hdesc in Hd. injection Hd as <-.
  apply Hdoc.
Qed.

Lemma label_entry_null_payload r s :
  dict_get "labels" r = Some JNull ->
  label_entry (JDict r) s = Raise AttributeError.
Proof. intros H. unfold label_entry, bind, lift. simpl. now rewrite H. Qed.

(** C7. A [task_labels] row whose joined label payload is [null] is not
    skipped: [transform_task] raises on every task that has such a row. *)
Theorem null_label_payload_raises task lookup s rows r :
  rows_of task "task_labels" = Ok rows ->
  In (JDict r) rows ->
  dict_get "labels" r = Some JNull ->
  exists e, transform_task fromisoformat task lookup s = Raise e.
Proof.
  intros Hrows Hin Hnull. apply not_ok_raises. intros [d s'] H.
  apply transform_task_inv in H.
  destruct H as (pg_id & mongo_id & s1 & arows & assignees & s2 & lrows & labels & s3 &
                 crows & unsorted & comments & title & description & status & priority &
                 due & due_date & created & created_at & updated & updated_at & H).
  destruct H as (_ & _ & _ & _ & Hl & Hc & _).
  rewrite Hrows in Hl. injection Hl as <-.
  apply collectM_ok in Hc as (os & Hall & _).
  destruct (Forall2_In_l _ _ _ _ Hall Hin) as (o & _ & s4 & s5 & Hrun).
  rewrite (label_entry_null_payload _ _ Hnull) in Hrun. discriminate.
Qed.






End TaskFacts.

(** ** Sorting *)

Lemma dt_lt_asym a b : dt_lt a b = Ok true -> dt_le a b.
Proof.
  unfold dt_le, dt_lt. destruct (dt_offset a), (dt_offset b); try discriminate;
    intros H; injection H as H; f_equal; lia.
Qed.

Lemma dt_le_trans a b c : dt_le a b -> dt_le b c -> dt_le a c.
Proof.
  unfold dt_le, dt_lt.
  destruct (dt_offset a), (dt_offset b), (dt_offset c); try discriminate;
    intros H1 H2; injection H1 as H1; injection H2 as H2; f_equal; lia.
Qed.

Section SortFacts.
Context {A : Type} (key : A -> datetime).

Definition key_le (x y : A) : Prop := dt_le (key x) (key y).

Lemma sort_insert_perm x l : forall r,
  sort_insert key x l = Ok r -> Permutation (x :: l) r.
Proof.
  induction l as [|y l IH]; intros r H; simpl in H.
  - injection H as <-. reflexivity.
  - monad_inv H. destruct v.
    + monad_inv H. injection H as <-.
      rewrite perm_swap. constructor. auto.
    + injection H as <-. reflexivity.
Qed.

Lemma list_sort_perm l : forall r, list_sort key l = Ok r -> Permutation l r.
Proof.
  induction l as [|x l IH]; intros r H; simpl in H.
  - injection H as <-. constructor.
  - monad_inv H. apply sort_insert_perm in H. rewrite <- H. constructor. auto.
Qed.

Lemma sort_insert_sorted x l : forall r,
  StronglySorted key_le l ->
  sort_insert key x l = Ok r ->
  StronglySorted key_le r.
Proof.
  induction l as [|y l IH]; intros r Hs H; simpl in H.
  - injection H as <-. repeat constructor.
  - apply StronglySorted_inv in Hs as [Hs Hy].
    monad_inv H. destruct v.
    + monad_inv H. injection H as <-. constructor; [eauto |].
      apply sort_insert_perm in E0.
      eapply Permutation_Forall; [exact E0 |].
      constructor; [apply dt_lt_asym, E | exact Hy].
    + injection H as <-. constructor; [constructor; assumption |].
      constructor; [exact E |].
      eapply Forall_impl; [exact Hy |].
      intros z Hz. eapply dt_le_trans; [exact E | exact Hz].
Qed.

Lemma list_sort_sorted l : forall r,
  list_sort key l = Ok r -> StronglySorted key_le r.
Proof.
  induction l as [|x l IH]; intros r H; simpl in H.
  - injection H as <-. constructor.
  - monad_inv H. eapply sort_insert_sorted; eauto.
Qed.

End SortFacts.

(** ** Comment order *)

Section CommentOrder.
Variable fromisoformat : string -> option datetime.



End CommentOrder.

(** ** What the sort raises *)

Lemma dt_lt_raises a b e : dt_lt a b = Raise e -> e = TypeError.
Proof.
  unfold dt_lt. destruct (dt_offset a), (dt_offset b); try discriminate;
    intros H; now injection H as <-.
Qed.

Lemma dt_le_same_kind a b : dt_le a b -> dt_offset a = None <-> dt_offset b = None.
Proof.
  unfold dt_le, dt_lt. destruct (dt_offset a), (dt_offset b); try discriminate;
    intros _; split; congruence.
Qed.

Section SortRaises.
Context {A : Type} (key : A -> datetime).

Lemma sort_insert_raises x l e : sort_insert key x l = Raise e -> e = TypeError.
Proof.
  induction l as [|y l IH]; simpl; [discriminate |].
  destruct (dt_lt (key y) (key x)) as [[|]|e'] eqn:E; simpl.
  - destruct (sort_insert key x l); simpl; [discriminate |].
    intros H. injection H as <-. now apply IH.
  - discriminate.
  - intros H. injection H as <-. eapply dt_lt_raises; eassumption.
Qed.

Lemma list_sort_raises l e : list_sort key l = Raise e -> e = TypeError.
Proof.
  induction l as [|x l IH]; simpl; [discriminate |].
  destruct (list_sort key l) as [r|e']; simpl.
  - apply sort_insert_raises.
  - intros H. injection H as <-. now apply IH.
Qed.

Lemma sorted_same_kind r :
  StronglySorted (key_le key) r ->
  forall a b, In a r -> In b r ->
              dt_offset (key a) = None <-> dt_offset (key b) = None.
Proof.
  induction 1 as [|x r Hs IH Hx]; intros a b Ha Hb; [destruct Ha |].
  rewrite List.Forall_forall in Hx.
  destruct Ha as [<-|Ha], Hb as [<-|Hb].
  - tauto.
  - apply dt_le_same_kind, Hx, Hb.
  - symmetry. apply dt_le_same_kind, Hx, Ha.
  - auto.
Qed.

(** A list with a naive and an aware key cannot be sorted. *)
Lemma list_sort_mixed l a b off :
  In a l -> In b l ->
  dt_offset (key a) = None -> dt_offset (key b) = Some off ->
  list_sort key l = Raise TypeError.
Proof.
  intros Ha Hb Hna Hab.
  destruct (list_sort key l) as [r|e] eqn:E.
  - pose proof (list_sort_perm key _ _ E) as Hp.
    pose proof (sorted_same_kind _ (list_sort_sorted key _ _ E) a b
                  (Permutation_in _ Hp Ha) (Permutation_in _ Hp Hb)) as [H _].
    rewrite (H Hna) in Hab. discriminate.
  - now rewrite (list_sort_raises _ _ E).
Qed.
End SortRaises.

(** ** Sibling paths and missed cases *)

Section Slips.
Variable fromisoformat : string -> option datetime.

Lemma comment_entry_created r s e s' created :
  comment_entry fromisoformat (JDict r) s = Ok (e, s') ->
  dict_get "created_at" r = Some created ->
  Ok (comment_sort_key e) =
  (d <-- convert_timestamp fromisoformat created ;;
   Ok (match d with DDate t => t | _ => datetime_min end)).
Proof.
  intros H Hc. unfold comment_entry in H. monad_inv H.
  simpl in E7. rewrite Hc in E7. injection E7 as <-.
  rewrite E8. subst e. simpl. unfold comment_sort_key. simpl.
  now destruct v8.
Qed.

(** A task with an undated comment and a comment whose timestamp carries a
    UTC offset is not transformed: sorting its comments compares
    [datetime.min], which is naive, with an aware datetime. *)
Lemma undated_next_to_aware_raises task lookup s rows r1 r2 stamp t off :
  rows_of task "comments" = Ok rows ->
  In (JDict r1) rows ->
  In (JDict r2) rows ->
  dict_get "created_at" r1 = Some JNull ->
  dict_get "created_at" r2 = Some (JStr stamp) ->
  fromisoformat (str_replace "Z" "+00:00" stamp) = Some t ->
  dt_offset t = Some off ->
  exists e, transform_task fromisoformat task lookup s = Raise e.
Proof.
  intros Hrows H1 H2 Hc1 Hc2 Ht Hoff. apply not_ok_raises. intros [d s'] H.
  apply transform_task_inv in H.
  destruct H as (pg_id & mongo_id & s1 & arows & assignees & s2 & lrows & labels & s3 &
                 crows & unsorted & comments & title & description & status & priority &
                 due & due_date & created & created_at & updated & updated_at & H).
  destruct H as (_ & _ & _ & _ & _ & _ & Hc & Hrun & Hsort & _).
  rewrite Hrows in Hc. injection Hc as <-.
  apply mapM_ok in Hrun.
  destruct (Forall2_In_l _ _ _ _ Hrun H1) as (e1 & He1 & sa & sb & Hentry1).
  destruct (Forall2_In_l _ _ _ _ Hrun H2) as (e2 & He2 & sc & sd & Hentry2).
  pose proof (comment_entry_created _ _ _ _ _ Hentry1 Hc1) as K1.
  pose proof (comment_entry_created _ _ _ _ _ Hentry2 Hc2) as K2.
  simpl in K1. injection K1 as K1.
  rewrite convert_timestamp_str, Ht in K2.
  simpl in K2. injection K2 as K2.
  rewrite (list_sort_mixed comment_sort_key unsorted e1 e2 off He1 He2) in Hsort;
    [discriminate | now rewrite K1 | now rewrite K2].
Qed.

(** The sibling path of projects: a null or absent [description] leaves no
    key. *)
Lemma project_null_description_omitted project tasks lookup s d s' :
  transform_project fromisoformat project tasks lookup s = Ok (d, s') ->
  py_get project "description" JNull = Ok JNull ->
  doc_getitem d "description" = missing "description".
Proof.
  intros H Hdesc. unfold transform_project in H. monad_inv H.
  rewrite Hdesc in E13. injection E13 as <-.
  simpl in H. apply ret_ok in H as [-> _]. reflexivity.
Qed.

(** A [task_labels] row without the [labels] key is skipped, and nothing
    else happens. *)
Lemma label_entry_absent_payload r s :
  dict_get "labels" r = None -> label_entry (JDict r) s = Ok (None, s).
Proof. intros H. unfold label_entry, bind, lift. simpl. now rewrite H. Qed.

(** A row whose payload has a truthy id gets an entry whose [label_id] is
    the identifier of that id, the label's own. *)
Lemma label_entry_present r l id s o s' :
  dict_get "labels" r = Some (JDict l) ->
  dict_get "id" l = Some id ->
  truthy id = true ->
  label_entry (JDict r) s = Ok (o, s') ->
  exists e label_id,
    o = Some e /\
    generate_label_id id s = Ok (label_id, s') /\
    doc_getitem e "label_id" = Ok (DOid label_id).
Proof.
  intros Hr Hid Ht H. unfold label_entry in H. monad_inv H.
  simpl in E. rewrite Hr in E. injection E as <-.
  simpl in E0. rewrite Hid in E0. injection E0 as <-.
  rewrite Ht in H. monad_inv H. subst. eauto.
Qed.
End Slips.

(** ** Defaults for missing denormalised fields *)

Section Defaults.
Variable fromisoformat : string -> option datetime.






End Defaults.

(** ** Task partitioning *)






Section Partition.
Variable fromisoformat : string -> option datetime.

Lemma collectM_project_task project lookup T : forall s tdocs s',
  collectM (project_task fromisoformat project lookup) T s = Ok (tdocs, s') ->
  mapM (fun t => transform_task fromisoformat t lookup)
       (List.filter (belongs project) T) s = Ok (tdocs, s').
Proof.
  induction T as [|t T IH]; intros s tdocs s' H; simpl in H.
  - exact H.
  - monad_inv H. subst. apply IH in E0.
    unfold project_task in E. monad_inv E.
    assert (Hb : belongs project t = py_eq v1 v2)
      by (unfold belongs; now rewrite E1, E2).
    simpl. rewrite Hb.
    destruct (py_eq v1 v2).
    + apply bind_ok in E as (td & s2 & Ht & E). apply ret_ok in E as [-> ->].
      simpl. rewrite (bind_step _ _ _ _ _ Ht). cbv beta.
      rewrite (bind_step _ _ _ _ _ E0). reflexivity.
    + apply ret_ok in E as [-> ->]. exact E0.
Qed.

Lemma transform_project_inv project tasks lookup s d s' :
  transform_project fromisoformat project tasks lookup s = Ok (d, s') ->
  exists id T s1 s2 tdocs,
    getitem project "id" = Ok id /\
    py_iter tasks = Ok T /\
    collectM (project_task fromisoformat project lookup) T s1 = Ok (tdocs, s2) /\
    doc_getitem d "pg_id" = Ok (of_json id) /\
    doc_getitem d "tasks" = Ok (DList tdocs).
Proof.
  intros H. unfold transform_project in H. monad_inv H.
  exists v, v2, s0, s1, v3.
  repeat (split; [assumption |]).
  rewrite E in E8. injection E8 as <-.
  simpl in H. destruct v13; simpl in H; apply ret_ok in H as [-> _]; split; reflexivity.
Qed.


End Partition.

(** ** Fail fast *)

Lemma lacks_getitem fields r :
  lacks fields r -> Forall (fun k => exists v, getitem r k = Ok v) fields -> False.
Proof.
  intros (d & k & -> & Hk & Hnone) Hall.
  rewrite List.Forall_forall in Hall. destruct (Hall k Hk) as (v & Hv).
  simpl in Hv. rewrite Hnone in Hv. discriminate.
Qed.

Section FailFast.
Variable fromisoformat : string -> option datetime.

Lemma transform_organization_fields r s d s' :
  transform_organization fromisoformat r s = Ok (d, s') ->
  Forall (fun k => exists v, getitem r k = Ok v) organization_fields.
Proof.
  intros H. unfold transform_organization in H. monad_inv H.
  repeat constructor; eauto.
Qed.

Lemma transform_user_fields r s d s' :
  transform_user fromisoformat r s = Ok (d, s') ->
  Forall (fun k => exists v, getitem r k = Ok v) user_fields.
Proof.
  intros H. unfold transform_user in H. monad_inv H.
  repeat constructor; eauto.
Qed.

Lemma transform_label_fields r s d s' :
  transform_label fromisoformat r s = Ok (d, s') ->
  Forall (fun k => exists v, getitem r k = Ok v) label_fields.
Proof.
  intros H. unfold transform_label in H. monad_inv H.
  repeat constructor; eauto.
Qed.

Lemma transform_task_fields t lookup s d s' :
  transform_task fromisoformat t lookup s = Ok (d, s') ->
  Forall (fun k => exists v, getitem t k = Ok v) task_fields.
Proof.
  intros H. unfold transform_task in H. monad_inv H.
  repeat constructor; eauto.
Qed.

Lemma transform_project_fields p tasks lookup s d s' :
  transform_project fromisoformat p tasks lookup s = Ok (d, s') ->
  Forall (fun k => exists v, getitem p k = Ok v) project_fields.
Proof.
  intros H. unfold transform_project in H. monad_inv H.
  repeat constructor; eauto.
Qed.

Lemma project_task_fields p lookup t s o s' :
  project_task fromisoformat p lookup t s = Ok (o, s') ->
  (exists v, getitem t "project_id" = Ok v) /\
  (belongs p t = true -> Forall (fun k => exists v, getitem t k = Ok v) task_fields).
Proof.
  intros H. unfold project_task in H. monad_inv H.
  split; [eauto |]. unfold belongs. rewrite E, E0. intros Hb. rewrite Hb in H.
  monad_inv H. eapply transform_task_fields; eassumption.
Qed.

Lemma transform_project_tasks p T lookup s d s' t :
  transform_project fromisoformat p (JList T) lookup s = Ok (d, s') ->
  In t T ->
  (exists v, getitem t "project_id" = Ok v) /\
  (belongs p t = true -> Forall (fun k => exists v, getitem t k = Ok v) task_fields).
Proof.
  intros H Hin.
  apply transform_project_inv in H as (id & T' & sa & sb & tdocs & _ & HT & Hc & _).
  injection HT as <-. apply collectM_ok in Hc as (os & Hall & _).
  destruct (Forall2_In_l _ _ _ _ Hall Hin) as (o & _ & s1 & s2 & Hrun).
  eapply project_task_fields; eassumption.
Qed.

Lemma mapM_ok_In {A B} (f : A -> M B) l s ys s' x :
  mapM f l s = Ok (ys, s') -> In x l -> exists y s1 s2, f x s1 = Ok (y, s2).
Proof.
  intros H Hin. apply mapM_ok in H.
  destruct (Forall2_In_l _ _ _ _ H Hin) as (y & _ & s1 & s2 & Hy). eauto.
Qed.

Lemma project_task_skips project lookup t a id :
  getitem t "project_id" = Ok a ->
  getitem project "id" = Ok id ->
  belongs project t = false ->
  forall s, project_task fromisoformat project lookup t s = Ok (None, s).
Proof.
  intros Ha Hid Hb s. unfold belongs in Hb. rewrite Ha, Hid in Hb.
  unfold project_task. rewrite (bind_lift_step _ _ _ _ Ha), (bind_lift_step _ _ _ _ Hid), Hb.
  reflexivity.
Qed.

(** A task that belongs to no listed project is left out of every project's
    scan result: the run is the one without it, whatever else the task
    lacks. *)
Lemma orphan_task_ignored projects T1 t T2 lookup a :
  getitem t "project_id" = Ok a ->
  (forall p, In p projects -> belongs p t = false) ->
  forall s,
    transform_projects fromisoformat (JList projects) (JList (T1 ++ t :: T2)) lookup s =
    transform_projects fromisoformat (JList projects) (JList (T1 ++ T2)) lookup s.
Proof.
  intros Ha Hno s. unfold transform_projects.
  rewrite !(bind_lift_step _ _ _ projects eq_refl).
  apply mapM_ext. intros p Hp s0. unfold transform_project.
  apply bind_lift_ext. intros id Hid s1.
  apply bind_ext_r. intros mongo_id s2.
  apply bind_lift_ext. intros org_data _ s3.
  rewrite (bind_lift_step (py_iter (JList (T1 ++ t :: T2))) _ _ _ eq_refl),
          (bind_lift_step (py_iter (JList (T1 ++ T2))) _ _ _ eq_refl).
  apply bind_ext_l.
  apply collectM_skip, (project_task_skips p lookup t a id Ha Hid (Hno p Hp)).
Qed.
(** C6. When an organization, user, label or project record, a task
    compared with a project, or a task of a listed project lacks a field
    its transformer subscripts, [transform_all_data] raises: it returns no
    document at all, not the part transformed so far.  A task that belongs
    to no listed project does not count: the projects are transformed as
    if it were not in the task list. *)
Theorem missing_required_field_raises :
  (forall source_data oid0 organizations users labels projects tasks,
      getitem source_data "organizations" = Ok (JList organizations) ->
      getitem source_data "users" = Ok (JList users) ->
      getitem source_data "labels" = Ok (JList labels) ->
      getitem source_data "projects" = Ok (JList projects) ->
      getitem source_data "tasks" = Ok (JList tasks) ->
      missing_required organizations users labels projects tasks ->
      exists e, transform_all_data fromisoformat source_data oid0 = Raise e) /\
  (forall projects T1 t T2 lookup a s,
      getitem t "project_id" = Ok a ->
      (forall p, In p projects -> belongs p t = false) ->
      transform_projects fromisoformat (JList projects) (JList (T1 ++ t :: T2)) lookup s =
      transform_projects fromisoformat (JList projects) (JList (T1 ++ T2)) lookup s).
Proof.
  split; [| intros; eapply orphan_task_ignored; eassumption].
  intros source_data oid0 organizations users labels projects tasks.
  intros Ho Hu Hl Hp Ht Hmiss. apply not_ok_raises. intros mongo_data H.
  unfold transform_all_data in H.
  destruct (transform_all_steps _ _ _) as [[d s']|] eqn:Hrun; [clear H | discriminate].
  unfold transform_all_steps in Hrun. monad_inv Hrun.
  rewrite Ho in E2. injection E2 as <-.
  rewrite Hu in E4. injection E4 as <-.
  rewrite Hl in E6. injection E6 as <-.
  rewrite Hp in E8. injection E8 as <-.
  rewrite Ht in E9. injection E9 as <-.
  unfold transform_organizations in E3. monad_inv E3. injection E2 as <-.
  unfold transform_users in E5. monad_inv E5. injection E2 as <-.
  unfold transform_labels in E7. monad_inv E7. injection E2 as <-.
  unfold transform_projects in E10. monad_inv E10. injection E2 as <-.
  destruct Hmiss as [(r & Hin & Hlack)|[(r & Hin & Hlack)|[(r & Hin & Hlack)|
                    [(r & Hin & Hlack)|[(t & Hin & Hne & Hlack)|(t & p & Hin & Hinp & Hb & Hlack)]]]]].
  - destruct (mapM_ok_In _ _ _ _ _ _ E3 Hin) as (y & s1' & s2' & Hy).
    eapply lacks_getitem; [exact Hlack |]. eapply transform_organization_fields; eassumption.
  - destruct (mapM_ok_In _ _ _ _ _ _ E5 Hin) as (y & s1' & s2' & Hy).
    eapply lacks_getitem; [exact Hlack |]. eapply transform_user_fields; eassumption.
  - destruct (mapM_ok_In _ _ _ _ _ _ E7 Hin) as (y & s1' & s2' & Hy).
    eapply lacks_getitem; [exact Hlack |]. eapply transform_label_fields; eassumption.
  - destruct (mapM_ok_In _ _ _ _ _ _ E10 Hin) as (y & s1' & s2' & Hy).
    eapply lacks_getitem; [exact Hlack |]. eapply transform_project_fields; eassumption.
  - destruct projects as [|p projects]; [congruence |].
    destruct (mapM_ok_In _ _ _ _ _ _ E10 (or_introl eq_refl)) as (y & s1' & s2' & Hy).
    destruct (transform_project_tasks _ _ _ _ _ _ _ Hy Hin) as [Hpid _].
    eapply lacks_getitem; [exact Hlack |]. repeat constructor; exact Hpid.
  - destruct (mapM_ok_In _ _ _ _ _ _ E10 Hinp) as (y & s1' & s2' & Hy).
    destruct (transform_project_tasks _ _ _ _ _ _ _ Hy Hin) as [_ Hfields].
    eapply lacks_getitem; [exact Hlack | auto].
Qed.
End FailFast.

(** ** Runs on the sample data *)




Lemma task_null_due_date_witness :
  doc_getitem (run_value DNone Runs.design_run) "due_date" = Ok DNone.
Proof.
  apply (task_null_due_date_kept fromisoformat_ref Sample.design ∅ Sample.start _
           (run_state Runs.design_run)).
  - vm_compute. reflexivity.
  - reflexivity.
Defined.

Lemma mapper_tables_disjoint_witness :
  mapper_injective (run_state Runs.calls_run).
Proof.
  apply (mapper_tables_disjoint 5%N Runs.calls (run_value [] Runs.calls_run)).
  vm_compute. reflexivity.
Defined.


Lemma missing_email_witness :
  exists e, transform_all_data fromisoformat_ref Runs.broken_data 0%N = Raise e.
Proof.
  apply (proj1 (missing_required_field_raises fromisoformat_ref) Runs.broken_data 0%N
               [Sample.acme] [Sample.ann; Runs.anonymous] [] [] []);
    try reflexivity.
  right. left. exists Runs.anonymous. split; [right; left; reflexivity |].
  eexists. exists "email". split; [reflexivity |]. split; [| reflexivity].
  right. left. reflexivity.
Defined.

(** A task of no listed project, without a title: the run returns. *)
Lemma orphan_task_counterexample :
  In Sample.orphan [Sample.orphan] /\
  lacks task_fields Sample.orphan /\
  exists mongo_data,
    transform_all_data fromisoformat_ref Runs.orphan_data 0%N = Ok mongo_data.
Proof.
  split; [left; reflexivity |]. split.
  - eexists. exists "title". split; [reflexivity |]. split; [| reflexivity].
    right. left. reflexivity.
  - eexists. vm_compute. reflexivity.
Qed.

Lemma null_label_payload_witness :
  exists e, transform_task fromisoformat_ref Sample.unlabelled ∅ Sample.start = Raise e.
Proof.
  apply (null_label_payload_raises fromisoformat_ref Sample.unlabelled ∅ Sample.start
           [JDict [("labels", JNull)]] [("labels", JNull)]).
  - reflexivity.
  - left. reflexivity.
  - reflexivity.
Defined.

(** The exception is the [AttributeError] of [None.get('id')]. *)
Lemma null_label_payload_attribute_error :
  transform_task fromisoformat_ref Sample.unlabelled ∅ Sample.start = Raise AttributeError.
Proof. vm_compute. reflexivity. Qed.

(** An undated comment next to one with an aware timestamp: the sort
    compares [datetime.min], which is naive, with an aware datetime. *)
Lemma undated_and_aware_comments_raise :
  transform_task fromisoformat_ref Sample.mixed ∅ Sample.start = Raise TypeError.
Proof. vm_compute. reflexivity. Qed.

(** ** Running a transformer again *)

Lemma extends_refl s : extends s s.
Proof. intros e k o H. exact H. Qed.

Lemma extends_trans s1 s2 s3 : extends s1 s2 -> extends s2 s3 -> extends s1 s3.
Proof. intros H1 H2 e k o H. auto. Qed.

Lemma replays_ret {A} (a : A) : replays (ret a).
Proof.
  intros s b s' H. apply ret_ok in H as [-> ->].
  split; [apply extends_refl | reflexivity].
Qed.

Lemma replays_lift {A} (r : result A) : replays (lift r).
Proof.
  intros s b s' H. destruct r as [a|]; simpl in H; [| discriminate].
  injection H as <- <-. split; [apply extends_refl | reflexivity].
Qed.

Lemma replays_bind {A B} (c : M A) (k : A -> M B) :
  replays c -> (forall a, replays (k a)) -> replays (bind c k).
Proof.
  intros Hc Hk s b s' H. apply bind_ok in H as (a & s1 & H1 & H2).
  destruct (Hc _ _ _ H1) as [E1 R1]. destruct (Hk _ _ _ _ H2) as [E2 R2].
  split; [eapply extends_trans; eassumption |].
  intros s'' Hs. unfold bind.
  rewrite (R1 s'' (extends_trans _ _ _ E2 Hs)). apply R2, Hs.
Qed.

Lemma replays_generate e pg_id : replays (generate e pg_id).
Proof.
  intros s o s' H. split.
  - intros e' k' o'. eapply generate_keeps; eassumption.
  - intros s'' Hs. destruct (generate_stored _ _ _ _ _ H) as (k & Hk & Hst).
    rewrite generate_unfold, Hk, (Hs _ _ _ Hst). reflexivity.
Qed.

Lemma replays_mapM {A B} (f : A -> M B) (l : list A) :
  (forall x, replays (f x)) -> replays (mapM f l).
Proof.
  intros Hf. induction l as [|x l IH]; simpl.
  - apply replays_ret.
  - apply replays_bind; [apply Hf | intros y].
    apply replays_bind; [exact IH | intros ys]. apply replays_ret.
Qed.

Lemma replays_collectM {A B} (f : A -> M (option B)) (l : list A) :
  (forall x, replays (f x)) -> replays (collectM f l).
Proof.
  intros Hf. induction l as [|x l IH]; simpl.
  - apply replays_ret.
  - apply replays_bind; [apply Hf | intros y].
    apply replays_bind; [exact IH | intros ys]. apply replays_ret.
Qed.

(** Go through a transformer step by step. *)
Ltac replays_steps :=
  repeat
    (lazymatch goal with
     | |- replays (bind _ _) => apply replays_bind; [| intros ?]
     | |- replays (lift _) => apply replays_lift
     | |- replays (ret _) => apply replays_ret
     | |- replays (generate _ _) => apply replays_generate
     | |- replays (generate_org_id _) => apply replays_generate
     | |- replays (generate_user_id _) => apply replays_generate
     | |- replays (generate_label_id _) => apply replays_generate
     | |- replays (generate_project_id _) => apply replays_generate
     | |- replays (generate_task_id _) => apply replays_generate
     | |- replays (generate_comment_id _) => apply replays_generate
     | |- replays (mapM _ _) => apply replays_mapM; intros ?
     | |- replays (collectM _ _) => apply replays_collectM; intros ?
     | |- replays (if ?b then _ else _) => destruct b
     | |- replays (match ?x with _ => _ end) => destruct x
     end).

Section Replay.
Variable fromisoformat : string -> option datetime.

Lemma replays_transform_organization org :
  replays (transform_organization fromisoformat org).
Proof. unfold transform_organization. replays_steps. Qed.

Lemma replays_membership_entry row : replays (membership_entry fromisoformat row).
Proof. unfold membership_entry. replays_steps. Qed.

Lemma replays_transform_user user : replays (transform_user fromisoformat user).
Proof. unfold transform_user. replays_steps. apply replays_membership_entry. Qed.

Lemma replays_transform_label label : replays (transform_label fromisoformat label).
Proof. unfold transform_label. replays_steps. Qed.

Lemma replays_assignee_entry row : replays (assignee_entry fromisoformat row).
Proof. unfold assignee_entry. replays_steps. Qed.

Lemma replays_label_entry row : replays (label_entry row).
Proof. unfold label_entry. replays_steps. Qed.

Lemma replays_comment_entry row : replays (comment_entry fromisoformat row).
Proof. unfold comment_entry. replays_steps. Qed.

Lemma replays_transform_task task lookup :
  replays (transform_task fromisoformat task lookup).
Proof.
  unfold transform_task. replays_steps;
    first [apply replays_assignee_entry | apply replays_label_entry
          | apply replays_comment_entry].
Qed.

Lemma replays_transform_project project tasks lookup :
  replays (transform_project fromisoformat project tasks lookup).
Proof.
  unfold transform_project. replays_steps.
  unfold project_task. replays_steps. apply replays_transform_task.
Qed.

Lemma replays_transform_all_steps source_data :
  replays (transform_all_steps fromisoformat source_data).
Proof.
  unfold transform_all_steps, transform_organizations, transform_users,
    transform_labels, transform_projects.
  replays_steps;
    first [apply replays_transform_organization | apply replays_transform_user
          | apply replays_transform_label | apply replays_transform_project].
Qed.

End Replay.

(** ** Where the identifiers of a document come from *)

Lemma generate_refers e pg_id s o s1 s_end :
  generate e pg_id s = Ok (o, s1) -> extends s1 s_end -> stored e pg_id s_end = Some o.
Proof.
  intros H Hext. destruct (generate_stored _ _ _ _ _ H) as (k & Hk & Hs).
  unfold stored. rewrite Hk. auto.
Qed.

Lemma mapM_ok_extends {A B} (f : A -> M B) (l : list A) :
  (forall x, replays (f x)) ->
  forall s ys s',
    mapM f l s = Ok (ys, s') ->
    Forall2 (fun x y => exists s1 s2, f x s1 = Ok (y, s2) /\ extends s2 s') l ys.
Proof.
  intros Hf. induction l as [|x l IH]; intros s ys s' H; simpl in H.
  - apply ret_ok in H as [-> _]. constructor.
  - monad_inv H. subst. constructor.
    + exists s, s0. split; [assumption |].
      exact (proj1 (replays_mapM f l Hf _ _ _ E0)).
    + eauto.
Qed.

Lemma collectM_ok_extends {A B} (f : A -> M (option B)) (l : list A) :
  (forall x, replays (f x)) ->
  forall s ys s',
    collectM f l s = Ok (ys, s') ->
    exists os,
      Forall2 (fun x o => exists s1 s2, f x s1 = Ok (o, s2) /\ extends s2 s') l os /\
      ys = somes os.
Proof.
  intros Hf. induction l as [|x l IH]; intros s ys s' H; simpl in H.
  - apply ret_ok in H as [-> _]. exists []. split; [constructor | reflexivity].
  - monad_inv H. subst. destruct (IH _ _ _ E0) as (os & Hos & ->).
    exists (v :: os). split; [| now destruct v]. constructor; [| assumption].
    exists s, s0. split; [assumption |].
    exact (proj1 (replays_collectM f l Hf _ _ _ E0)).
Qed.

Lemma Forall2_impl' {A B} (P Q : A -> B -> Prop) l l' :
  Forall2 P l l' -> (forall x y, P x y -> Q x y) -> Forall2 Q l l'.
Proof. induction 1; constructor; auto. Qed.

Lemma Forall2_somes {A B} (P : A -> option B -> Prop) (Q : B -> Prop) l os :
  Forall2 P l os ->
  (forall x y, In x l -> P x (Some y) -> Q y) ->
  Forall Q (somes os).
Proof.
  induction 1 as [|x o l os Hx _ IH]; intros HQ; simpl; [constructor |].
  destruct o as [y|].
  - constructor; [apply (HQ x); [now left | exact Hx] |].
    apply IH. intros x' y' Hin. apply HQ. now right.
  - apply IH. intros x' y' Hin. apply HQ. now right.
Qed.

Lemma Forall2_Forall_r {A B} (P : A -> B -> Prop) (Q : B -> Prop) l l' :
  Forall2 P l l' -> (forall x y, In x l -> P x y -> Q y) -> Forall Q l'.
Proof.
  induction 1 as [|x y l l' Hx _ IH]; intros HQ; constructor.
  - apply (HQ x); [now left | exact Hx].
  - apply IH. intros x' y' Hin. apply HQ. now right.
Qed.

Section Resolve.
Variable fromisoformat : string -> option datetime.

Lemma membership_entry_resolved row s1 e s2 s :
  membership_entry fromisoformat row s1 = Ok (e, s2) ->
  extends s2 s -> membership_resolved s row e.
Proof.
  intros H Hext. unfold membership_entry in H. monad_inv H. subst.
  exists v0, v1. split; [assumption |]. split; [| reflexivity].
  eapply generate_refers; eassumption.
Qed.

Lemma assignee_entry_resolved row s1 e s2 s :
  assignee_entry fromisoformat row s1 = Ok (e, s2) ->
  extends s2 s -> assignee_resolved s row e.
Proof.
  intros H Hext. unfold assignee_entry in H. monad_inv H. subst.
  exists v. split; [assumption |].
  exists v0, v1. split; [assumption |]. split; [| reflexivity].
  eapply generate_refers; eassumption.
Qed.

Lemma label_entry_resolved row s1 e s2 s :
  label_entry row s1 = Ok (Some e, s2) ->
  extends s2 s -> label_ref_resolved s row e.
Proof.
  intros H Hext. unfold label_entry in H. monad_inv H.
  destruct (truthy v0) eqn:Ht; [| apply ret_ok in H as [? _]; discriminate].
  monad_inv H. injection E4 as ->. subst.
  exists v. split; [assumption |].
  exists v0, v1. split; [| split; [| reflexivity]].
  - destruct v as [| | | | |l]; simpl in E0; try discriminate. simpl.
    destruct (dict_get "id" l); [assumption |].
    injection E0 as <-. discriminate.
  - eapply generate_refers; eassumption.
Qed.

Lemma comment_entry_resolved row s1 e s2 s :
  comment_entry fromisoformat row s1 = Ok (e, s2) ->
  extends s2 s -> comment_resolved s row e.
Proof.
  intros H Hext. unfold comment_entry in H. monad_inv H. subst.
  pose proof (proj1 (replays_generate _ _ _ _ _ E4)) as Hu.
  split.
  - exists v0, v1. split; [assumption |]. split; [| reflexivity].
    eapply generate_refers; [eassumption |]. eapply extends_trans; eassumption.
  - exists v. split; [assumption |].
    exists v3, v4. split; [assumption |]. split; [| reflexivity].
    eapply generate_refers; eassumption.
Qed.
End Resolve.

Section ResolveDocuments.
Variable fromisoformat : string -> option datetime.

Lemma transform_organization_resolved org s1 d s2 s :
  transform_organization fromisoformat org s1 = Ok (d, s2) ->
  extends s2 s -> organization_resolved s org d.
Proof.
  intros H Hext. unfold transform_organization in H. monad_inv H.
  exists v, v0. split; [assumption |]. split.
  - eapply generate_refers; [eassumption |].
    destruct (truthy v7); monad_inv H; subst; assumption.
  - destruct (truthy v7); monad_inv H; subst; reflexivity.
Qed.

Lemma transform_user_resolved user s1 d s2 s :
  transform_user fromisoformat user s1 = Ok (d, s2) ->
  extends s2 s -> user_resolved s user d.
Proof.
  intros H Hext. unfold transform_user in H. monad_inv H. subst.
  pose proof (proj1 (replays_mapM _ _ (replays_membership_entry fromisoformat) _ _ _ E3)) as Hm.
  split.
  - exists v, v0. split; [assumption |]. split; [| reflexivity].
    eapply generate_refers; [eassumption |]. eapply extends_trans; eassumption.
  - exists v2, v3. unfold rows_of. rewrite E1. simpl.
    split; [assumption |]. split; [reflexivity |].
    apply (mapM_ok_extends _ _ (replays_membership_entry fromisoformat)) in E3.
    eapply Forall2_impl'; [exact E3 |].
    intros row e (sa & sb & Hrun & Hsb).
    eapply membership_entry_resolved; [eassumption |].
    eapply extends_trans; eassumption.
Qed.

Lemma transform_label_resolved label s1 d s2 s :
  transform_label fromisoformat label s1 = Ok (d, s2) ->
  extends s2 s -> label_resolved s label d.
Proof.
  intros H Hext. unfold transform_label in H. monad_inv H. subst.
  pose proof (proj1 (replays_generate _ _ _ _ _ E3)) as Ho.
  split.
  - exists v, v0. split; [assumption |]. split; [| reflexivity].
    eapply generate_refers; [eassumption |]. eapply extends_trans; eassumption.
  - exists v2, v3. split; [assumption |]. split; [| reflexivity].
    eapply generate_refers; eassumption.
Qed.

Lemma transform_task_resolved task lookup s1 d s2 s :
  transform_task fromisoformat task lookup s1 = Ok (d, s2) ->
  extends s2 s -> task_resolved s task d.
Proof.
  intros H Hext. apply transform_task_inv in H.
  destruct H as (pg_id & mongo_id & sa & arows & assignees & sb & lrows & labels & sc &
                 crows & unsorted & comments & title & description & status & priority &
                 due & due_date & created & created_at & updated & updated_at & H).
  destruct H as (Hid & Hgen & Har & Ha & Hlr & Hl & Hcr & Hc & Hsort & _ & _ & _ & _ & _ &
                 _ & _ & _ & _ & _ & Hdoc).
  pose proof (proj1 (replays_mapM _ _ (replays_assignee_entry fromisoformat) _ _ _ Ha)) as Xa.
  pose proof (proj1 (replays_collectM _ _ replays_label_entry _ _ _ Hl)) as Xl.
  pose proof (proj1 (replays_mapM _ _ (replays_comment_entry fromisoformat) _ _ _ Hc)) as Xc.
  assert (Xcs : extends sc s) by (eapply extends_trans; eassumption).
  assert (Xbs : extends sb s) by (eapply extends_trans; eassumption).
  assert (Xas : extends sa s) by (eapply extends_trans; eassumption).
  split.
  - exists pg_id, mongo_id. split; [assumption |]. split; [| apply Hdoc].
    eapply generate_refers; eassumption.
  - exists arows, lrows, crows, assignees, labels, comments.
    do 3 (split; [assumption |]). do 3 (split; [apply Hdoc |]).
    split; [| split].
    + apply (mapM_ok_extends _ _ (replays_assignee_entry fromisoformat)) in Ha.
      eapply Forall2_impl'; [exact Ha |].
      intros row e (s3 & s4 & Hrun & Hs4).
      eapply assignee_entry_resolved; [eassumption |].
      eapply extends_trans; eassumption.
    + apply (collectM_ok_extends _ _ replays_label_entry) in Hl as (os & Hos & ->).
      eapply Forall2_somes; [exact Hos |].
      intros row e Hin (s3 & s4 & Hrun & Hs4). exists row. split; [assumption |].
      eapply label_entry_resolved; [eassumption |].
      eapply extends_trans; eassumption.
    + apply (mapM_ok_extends _ _ (replays_comment_entry fromisoformat)) in Hc.
      assert (Hun : Forall (fun entry => exists row,
                                 In row crows /\ comment_resolved s row entry) unsorted).
      { eapply Forall2_Forall_r; [exact Hc |].
        intros row e Hin (s3 & s4 & Hrun & Hs4). exists row. split; [assumption |].
        eapply comment_entry_resolved; [eassumption |].
        eapply extends_trans; eassumption. }
      eapply Permutation_Forall; [| exact Hun].
      exact (list_sort_perm _ _ _ Hsort).
Qed.

Lemma project_task_resolved project lookup task s1 o s2 :
  project_task fromisoformat project lookup task s1 = Ok (o, s2) ->
  if belongs project task
  then exists d, o = Some d /\ transform_task fromisoformat task lookup s1 = Ok (d, s2)
  else o = None /\ s2 = s1.
Proof.
  intros H. unfold project_task in H. monad_inv H.
  unfold belongs. rewrite E, E0. destruct (py_eq v v0).
  - monad_inv H. subst. eauto.
  - apply ret_ok in H as [-> ->]. auto.
Qed.

Lemma collectM_project_task_resolved project lookup T s :
  forall s1 tdocs s2,
    collectM (project_task fromisoformat project lookup) T s1 = Ok (tdocs, s2) ->
    extends s2 s ->
    Forall2 (task_resolved s) (List.filter (belongs project) T) tdocs.
Proof.
  induction T as [|t T IH]; intros s1 tdocs s2 H Hext; simpl in H.
  - apply ret_ok in H as [-> _]. constructor.
  - monad_inv H. subst.
    assert (R : forall x, replays (project_task fromisoformat project lookup x)).
    { intros x. unfold project_task. replays_steps. apply replays_transform_task. }
    pose proof (proj1 (replays_collectM _ _ R _ _ _ E0)) as X.
    apply project_task_resolved in E. simpl.
    destruct (belongs project t).
    + destruct E as (d & -> & Hd). constructor; [| eapply IH; eassumption].
      eapply transform_task_resolved; [eassumption |].
      eapply extends_trans; eassumption.
    + destruct E as [-> ->]. eapply IH; eassumption.
Qed.

Lemma transform_project_resolved project tasks lookup sa d sb s :
  transform_project fromisoformat project tasks lookup sa = Ok (d, sb) ->
  extends sb s -> project_resolved s tasks project d.
Proof.
  intros H Hext. unfold transform_project in H. monad_inv H.
  assert (Hd : sb = s2 /\
               doc_getitem d "_id" = Ok (DOid v0) /\
               doc_getitem d "org_id" = Ok (DOid v10) /\
               doc_getitem d "tasks" = Ok (DList v3)).
  { simpl in H. destruct v13; simpl in H; apply ret_ok in H as [-> ->]; repeat split. }
  destruct Hd as (-> & Hd1 & Hd2 & Hd3).
  assert (R : forall x, replays (project_task fromisoformat project lookup x)).
  { intros x. unfold project_task. replays_steps. apply replays_transform_task. }
  pose proof (proj1 (replays_collectM _ _ R _ _ _ E3)) as X1.
  pose proof (proj1 (replays_generate _ _ _ _ _ E10)) as X2.
  assert (X4 : extends s1 s) by (eapply extends_trans; eassumption).
  assert (X5 : extends s0 s) by (eapply extends_trans; eassumption).
  split; [| split].
  - exists v, v0. split; [assumption |]. split; [| assumption].
    eapply generate_refers; eassumption.
  - exists v9, v10. split; [assumption |]. split; [| assumption].
    eapply generate_refers; eassumption.
  - exists v2, v3. split; [assumption |]. split; [assumption |].
    eapply collectM_project_task_resolved; eassumption.
Qed.

Lemma mapM_resolved {A} (f : A -> M doc) (P : state -> A -> doc -> Prop) (l : list A) :
  (forall x, replays (f x)) ->
  (forall x sa d sb s, f x sa = Ok (d, sb) -> extends sb s -> P s x d) ->
  forall s1 ds s2 s,
    mapM f l s1 = Ok (ds, s2) -> extends s2 s -> Forall2 (P s) l ds.
Proof.
  intros R HP s1 ds s2 s H Hext.
  apply (mapM_ok_extends _ _ R) in H.
  eapply Forall2_impl'; [exact H |].
  intros x d (sa & sb & Hrun & Hsb).
  eapply HP; [eassumption |]. eapply extends_trans; eassumption.
Qed.

(** X2. In the data set a run of [transform_all_data] returns, every
    reference is the identifier the mapper holds, when the run ends, for the
    source row it points to: the [_id] of each organization, user, label,
    project, task and comment document for the row's own [id]; the [org_id]
    of labels, projects and membership entries for the row's [org_id]; the
    [user_id] of assignee entries and comments for the joined user's [id];
    the [label_id] of a task's label entries for the joined label's [id].
    The mapper holds no identifier under two (entity type, source id) pairs,
    so two references are equal exactly when they point to the same row. *)
Theorem references_resolved source_data oid0 mongo_data s :
  transform_all_steps fromisoformat source_data (initial_state oid0) = Ok (mongo_data, s) ->
  exists orgs users labels projects tasks,
    source_rows source_data "organizations" = Ok orgs /\
    source_rows source_data "users" = Ok users /\
    source_rows source_data "labels" = Ok labels /\
    source_rows source_data "projects" = Ok projects /\
    getitem source_data "tasks" = Ok tasks /\
    Forall2 (organization_resolved s) orgs (doc_list mongo_data "organizations") /\
    Forall2 (user_resolved s) users (doc_list mongo_data "users") /\
    Forall2 (label_resolved s) labels (doc_list mongo_data "labels") /\
    Forall2 (project_resolved s tasks) projects (doc_list mongo_data "projects") /\
    mapper_injective s.
Proof.
  intros H. pose proof (transform_all_steps_injective _ _ _ _ _ H) as Hinj.
  unfold transform_all_steps, transform_organizations, transform_users,
    transform_labels, transform_projects in H.
  monad_inv H. subst.
  apply bind_lift_ok in E3 as (orgs & Ho & E3).
  apply bind_lift_ok in E5 as (users & Hu & E5).
  apply bind_lift_ok in E7 as (labels & Hl & E7).
  apply bind_lift_ok in E10 as (projects & Hp & E10).
  assert (R4 : replays (mapM (fun project => transform_project fromisoformat project v9 v1)
                             projects)).
  { apply replays_mapM. intros x. apply replays_transform_project. }
  pose proof (proj1 (R4 _ _ _ E10)) as X3.
  pose proof (proj1 (replays_mapM _ _ (replays_transform_label fromisoformat) _ _ _ E7)) as X2.
  pose proof (proj1 (replays_mapM _ _ (replays_transform_user fromisoformat) _ _ _ E5)) as X1.
  assert (Y2 : extends s2 s3) by assumption.
  assert (Y1 : extends s1 s3) by (eapply extends_trans; eassumption).
  assert (Y0 : extends s0 s3) by (eapply extends_trans; eassumption).
  exists orgs, users, labels, projects, v9.
  unfold source_rows. rewrite E2, E4, E6, E8. simpl.
  do 5 (split; [assumption |]).
  split; [| split; [| split; [| split; [| exact Hinj]]]].
  - eapply (mapM_resolved _ organization_resolved);
      [apply replays_transform_organization | apply transform_organization_resolved
      | eassumption | assumption].
  - eapply (mapM_resolved _ user_resolved);
      [apply replays_transform_user | apply transform_user_resolved
      | eassumption | assumption].
  - eapply (mapM_resolved _ label_resolved);
      [apply replays_transform_label | apply transform_label_resolved
      | eassumption | assumption].
  - eapply (mapM_resolved _ (fun s => project_resolved s v9));
      [intros x; apply replays_transform_project
      | intros x sa d sb s; apply transform_project_resolved
      | eassumption | apply extends_refl].
Qed.
End ResolveDocuments.

Lemma references_resolved_witness :
  exists orgs users labels projects tasks,
    source_rows Sample.source_data "organizations" = Ok orgs /\
    source_rows Sample.source_data "users" = Ok users /\
    source_rows Sample.source_data "labels" = Ok labels /\
    source_rows Sample.source_data "projects" = Ok projects /\
    getitem Sample.source_data "tasks" = Ok tasks /\
    Forall2 (organization_resolved (run_state sample_run)) orgs
            (doc_list (run_value DNone sample_run) "organizations") /\
    Forall2 (user_resolved (run_state sample_run)) users
            (doc_list (run_value DNone sample_run) "users") /\
    Forall2 (label_resolved (run_state sample_run)) labels
            (doc_list (run_value DNone sample_run) "labels") /\
    Forall2 (project_resolved (run_state sample_run) tasks) projects
            (doc_list (run_value DNone sample_run) "projects") /\
    mapper_injective (run_state sample_run).
Proof.
  apply (references_resolved fromisoformat_ref Sample.source_data 0%N).
  vm_compute. reflexivity.
Defined.

(** ** Counts and counters *)

Lemma Forall2_length' {A B} (R : A -> B -> Prop) l l' :
  Forall2 R l l' -> length l = length l'.
Proof. induction 1; simpl; congruence. Qed.

Lemma rmap_Forall2 {A B C} (R : A -> B -> Prop) (g : B -> result C) (h : A -> C) l l' :
  Forall2 R l l' ->
  (forall x y, R x y -> g y = Ok (h x)) ->
  rmap g l' = Ok (map h l).
Proof.
  intros H Hg. induction H as [|x y l l' Hxy _ IH]; simpl; [reflexivity |].
  rewrite (Hg _ _ Hxy). simpl. rewrite IH. reflexivity.
Qed.

Lemma filter_map_length {A} (p : A -> bool) (l : list A) :
  length (List.filter (fun b : bool => b) (map p l)) = length (List.filter p l).
Proof.
  induction l as [|x l IH]; simpl; [reflexivity |].
  destruct (p x); simpl; congruence.
Qed.

Lemma doc_eq_str_of_json status v s :
  getitem v "status" = Ok status ->
  doc_eq_str (of_json status) s = has_status s v.
Proof.
  intros H. unfold has_status. rewrite H. now destruct status.
Qed.

Section Counters.
Variable fromisoformat : string -> option datetime.

Lemma transform_organization_pg_id r s d s' :
  transform_organization fromisoformat r s = Ok (d, s') ->
  keeps_pg_id r d /\ doc_getitem d "project_count" = Ok (DInt 0).
Proof.
  intros H. unfold transform_organization in H. monad_inv H.
  destruct (truthy v7); monad_inv H; subst; (split; [exists v1; split; [assumption | reflexivity] | reflexivity]).
Qed.

Lemma transform_user_pg_id r s d s' :
  transform_user fromisoformat r s = Ok (d, s') ->
  keeps_pg_id r d /\ doc_getitem d "stats" = Ok user_stats_zero.
Proof.
  intros H. unfold transform_user in H. monad_inv H. subst.
  split; [exists v4; split; [assumption | reflexivity] | reflexivity].
Qed.

Lemma transform_label_pg_id r s d s' :
  transform_label fromisoformat r s = Ok (d, s') ->
  keeps_pg_id r d /\ doc_getitem d "usage_count" = Ok (DInt 0).
Proof.
  intros H. unfold transform_label in H. monad_inv H. subst.
  split; [exists v1; split; [assumption | reflexivity] | reflexivity].
Qed.

Lemma transform_project_pg_id r tasks lookup s d s' :
  transform_project fromisoformat r tasks lookup s = Ok (d, s') -> keeps_pg_id r d.
Proof.
  intros H. apply transform_project_inv in H as (id & T & s1 & s2 & tdocs & Hid & _ & _ & Hd & _).
  exists id. split; assumption.
Qed.

Lemma mapM_Forall2 {A B} (f : A -> M B) (P : A -> B -> Prop) (l : list A) s ys s' :
  (forall x sa y sb, f x sa = Ok (y, sb) -> P x y) ->
  mapM f l s = Ok (ys, s') -> Forall2 P l ys.
Proof.
  intros HP H. apply mapM_ok in H.
  eapply Forall2_impl'; [exact H |].
  intros x y (sa & sb & Hxy). eauto.
Qed.

Lemma Forall2_Forall_right {A B} (P : A -> B -> Prop) (Q : B -> Prop) l l' :
  Forall2 P l l' -> (forall x y, P x y -> Q y) -> Forall Q l'.
Proof. induction 1; intros HQ; constructor; eauto. Qed.

(** X3. The data set a successful run returns has the four collections
    [organizations], [users], [labels] and [projects], each with one
    document per row of the source table of that name, in the order of the
    rows, the document carrying the row's [id] as [pg_id]: no row is
    dropped, merged or reordered. *)
Theorem one_document_per_row source_data s0 mongo_data s :
  transform_all_steps fromisoformat source_data s0 = Ok (mongo_data, s) ->
  exists orgs users labels projects odocs udocs ldocs pdocs,
    source_rows source_data "organizations" = Ok orgs /\
    source_rows source_data "users" = Ok users /\
    source_rows source_data "labels" = Ok labels /\
    source_rows source_data "projects" = Ok projects /\
    mongo_data = DDict [("organizations", DList odocs); ("users", DList udocs);
                        ("labels", DList ldocs); ("projects", DList pdocs)] /\
    Forall2 keeps_pg_id orgs odocs /\
    Forall2 keeps_pg_id users udocs /\
    Forall2 keeps_pg_id labels ldocs /\
    Forall2 keeps_pg_id projects pdocs.
Proof.
  intros H.
  unfold transform_all_steps, transform_organizations, transform_users,
    transform_labels, transform_projects in H.
  monad_inv H. subst.
  apply bind_lift_ok in E3 as (orgs & Ho & E3).
  apply bind_lift_ok in E5 as (users & Hu & E5).
  apply bind_lift_ok in E7 as (labels & Hl & E7).
  apply bind_lift_ok in E10 as (projects & Hp & E10).
  exists orgs, users, labels, projects, v3, v5, v7, v10.
  unfold source_rows. rewrite E2, E4, E6, E8. simpl.
  do 4 (split; [assumption |]). split; [reflexivity |].
  split; [| split; [| split]].
  - eapply mapM_Forall2; [| exact E3].
    intros x sa y sb Hx. now apply transform_organization_pg_id in Hx.
  - eapply mapM_Forall2; [| exact E5].
    intros x sa y sb Hx. now apply transform_user_pg_id in Hx.
  - eapply mapM_Forall2; [| exact E7].
    intros x sa y sb Hx. now apply transform_label_pg_id in Hx.
  - eapply mapM_Forall2; [| exact E10].
    intros x sa y sb Hx. now apply transform_project_pg_id in Hx.
Qed.

(** X4. The counters of organizations, users and labels are written once
    and never updated: in the data set a successful run returns, every
    organization has [project_count] 0, every user has the three counters
    of [stats] at 0 and every label has [usage_count] 0, whatever projects,
    tasks, assignments, comments and task labels the source holds. *)
Theorem counters_stay_zero source_data s0 mongo_data s :
  transform_all_steps fromisoformat source_data s0 = Ok (mongo_data, s) ->
  Forall (fun d => doc_getitem d "project_count" = Ok (DInt 0))
         (doc_list mongo_data "organizations") /\
  Forall (fun d => doc_getitem d "stats" = Ok user_stats_zero)
         (doc_list mongo_data "users") /\
  Forall (fun d => doc_getitem d "usage_count" = Ok (DInt 0))
         (doc_list mongo_data "labels").
Proof.
  intros H.
  unfold transform_all_steps, transform_organizations, transform_users,
    transform_labels, transform_projects in H.
  monad_inv H. subst.
  apply bind_lift_ok in E3 as (orgs & Ho & E3).
  apply bind_lift_ok in E5 as (users & Hu & E5).
  apply bind_lift_ok in E7 as (labels & Hl & E7).
  apply mapM_ok in E3, E5, E7.
  split; [| split].
  - eapply Forall2_Forall_right; [exact E3 |].
    intros x y (sa & sb & Hx). now apply transform_organization_pg_id in Hx.
  - eapply Forall2_Forall_right; [exact E5 |].
    intros x y (sa & sb & Hx). now apply transform_user_pg_id in Hx.
  - eapply Forall2_Forall_right; [exact E7 |].
    intros x y (sa & sb & Hx). now apply transform_label_pg_id in Hx.
Qed.

(** X5. The two counters of a task document count source rows:
    [assignee_count] is the number of rows under [task_assignees] and
    [comment_count] the number of rows under [comments], and the
    [assignees] and [comments] arrays have that many entries (an absent key
    counts as no rows). *)
Theorem task_counters task lookup s d s' :
  transform_task fromisoformat task lookup s = Ok (d, s') ->
  exists arows crows assignees comments,
    rows_of task "task_assignees" = Ok arows /\
    rows_of task "comments" = Ok crows /\
    doc_getitem d "assignees" = Ok (DList assignees) /\
    doc_getitem d "comments" = Ok (DList comments) /\
    length assignees = length arows /\
    length comments = length crows /\
    doc_getitem d "assignee_count" = Ok (DInt (Z.of_nat (length arows))) /\
    doc_getitem d "comment_count" = Ok (DInt (Z.of_nat (length crows))).
Proof.
  intros H. apply transform_task_inv in H.
  destruct H as (pg_id & mongo_id & s1 & arows & assignees & s2 & lrows & labels & s3 &
                 crows & unsorted & comments & title & description & status & priority &
                 due & due_date & created & created_at & updated & updated_at & H).
  destruct H as (_ & _ & Har & Ha & _ & _ & Hcr & Hc & Hsort & _ & _ & _ & _ & _ &
                 _ & _ & _ & _ & _ & Hdoc).
  apply mapM_ok, Forall2_length' in Ha, Hc.
  apply list_sort_perm, Permutation_length in Hsort.
  assert (La : length assignees = length arows) by congruence.
  assert (Lc : length comments = length crows) by congruence.
  exists arows, crows, assignees, comments.
  do 2 (split; [assumption |]).
  destruct Hdoc as (_ & _ & _ & _ & _ & _ & _ & _ & _ & Hda & _ & Hdc & Hcc & Hac).
  rewrite <- La, <- Lc. auto 10.
Qed.
End Counters.

Section Statistics.
Variable fromisoformat : string -> option datetime.

Lemma task_counters_aux task lookup s d s' :
  transform_task fromisoformat task lookup s = Ok (d, s') ->
  exists crows status,
    rows_of task "comments" = Ok crows /\
    getitem task "status" = Ok status /\
    doc_getitem d "status" = Ok (of_json status) /\
    doc_getitem d "comment_count" = Ok (DInt (Z.of_nat (length crows))).
Proof.
  intros H. apply transform_task_inv in H.
  destruct H as (pg_id & mongo_id & s1 & arows & assignees & s2 & lrows & labels & s3 &
                 crows & unsorted & comments & title & description & status & priority &
                 due & due_date & created & created_at & updated & updated_at & H).
  destruct H as (_ & _ & _ & _ & _ & _ & Hcr & Hc & Hsort & _ & _ & Hst & _ & _ &
                 _ & _ & _ & _ & _ & Hdoc).
  apply mapM_ok, Forall2_length' in Hc.
  apply list_sort_perm, Permutation_length in Hsort.
  destruct Hdoc as (_ & _ & _ & _ & Hds & _ & _ & _ & _ & _ & _ & _ & Hcc & _).
  exists crows, status. rewrite Hc, Hsort. auto.
Qed.

Lemma transform_task_status task lookup s d s' :
  transform_task fromisoformat task lookup s = Ok (d, s') ->
  (forall status, (st <-- doc_getitem d "status" ;; Ok (doc_eq_str st status)) =
                  Ok (has_status status task)) /\
  (c <-- doc_getitem d "comment_count" ;; doc_int c) = Ok (comment_rows task).
Proof.
  intros H. destruct (task_counters_aux task lookup s d s' H) as (crows & st & Hcr & Hst & Hds & Hdc).
  split.
  - intros status. rewrite Hds. simpl. now rewrite (doc_eq_str_of_json _ _ _ Hst).
  - rewrite Hdc. simpl. unfold comment_rows. now rewrite Hcr.
Qed.
Lemma count_status_source status (mine : list json) tdocs lookup :
  Forall2 (fun t td => exists s1 s2,
               transform_task fromisoformat t lookup s1 = Ok (td, s2)) mine tdocs ->
  count_status status tdocs = Ok (count (has_status status) mine).
Proof.
  intros H. unfold count_status.
  rewrite (rmap_Forall2 _ _ (has_status status) _ _ H).
  - simpl. unfold count. now rewrite filter_map_length.
  - intros t td (s1 & s2 & Ht). apply transform_task_status in Ht as [Ht _]. apply Ht.
Qed.

Lemma sum_comment_counts_source (mine : list json) tdocs lookup :
  Forall2 (fun t td => exists s1 s2,
               transform_task fromisoformat t lookup s1 = Ok (td, s2)) mine tdocs ->
  sum_comment_counts tdocs = Ok (total comment_rows mine).
Proof.
  intros H. unfold sum_comment_counts.
  rewrite (rmap_Forall2 _ _ comment_rows _ _ H); [reflexivity |].
  intros t td (s1 & s2 & Ht). apply transform_task_status in Ht as [_ Ht]. apply Ht.
Qed.

Lemma status_counts_le (l : list json) :
  count (has_status "completed") l + count (has_status "in_progress") l +
  count (has_status "todo") l <= Z.of_nat (length l).
Proof.
  unfold count. induction l as [|t l IH]; simpl; [lia |].
  assert (Hx : (if has_status "completed" t then 1 else 0) +
               (if has_status "in_progress" t then 1 else 0) +
               (if has_status "todo" t then 1 else 0) <= 1).
  { unfold has_status. destruct (getitem t "status") as [[| | |x| |]|]; simpl; try lia.
    destruct (String.eqb x "completed") eqn:E1;
      [apply String.eqb_eq in E1; subst; simpl; lia |].
    destruct (String.eqb x "in_progress") eqn:E2;
      [apply String.eqb_eq in E2; subst; simpl; lia |].
    destruct (String.eqb x "todo"); lia. }
  destruct (has_status "completed" t), (has_status "in_progress" t),
    (has_status "todo" t); simpl length; lia.
Qed.

(** X6. The [stats] of a project document are counts over the source tasks
    of the project (those of the task list whose [project_id] equals the
    project's [id]): [total_tasks] is their number, [completed_tasks],
    [in_progress_tasks] and [todo_tasks] the number of them whose source
    [status] is that string, [total_comments] the number of their comment
    rows.  The three status counters never add up to more than
    [total_tasks]. *)
Theorem project_stats project T lookup s d s' :
  transform_project fromisoformat project (JList T) lookup s = Ok (d, s') ->
  let mine := List.filter (belongs project) T in
  doc_getitem d "stats" =
  Ok (DDict [("total_tasks", DInt (Z.of_nat (length mine)));
             ("completed_tasks", DInt (count (has_status "completed") mine));
             ("in_progress_tasks", DInt (count (has_status "in_progress") mine));
             ("todo_tasks", DInt (count (has_status "todo") mine));
             ("total_comments", DInt (total comment_rows mine))]) /\
  count (has_status "completed") mine + count (has_status "in_progress") mine +
  count (has_status "todo") mine <= Z.of_nat (length mine).
Proof.
  intros H mine. split; [| apply status_counts_le].
  unfold transform_project in H. monad_inv H. injection E2 as <-.
  apply collectM_project_task, mapM_ok in E3. fold mine in E3.
  rewrite (count_status_source _ _ _ _ E3) in E4.
  rewrite (count_status_source _ _ _ _ E3) in E5.
  rewrite (count_status_source _ _ _ _ E3) in E6.
  rewrite (sum_comment_counts_source _ _ _ E3) in E7.
  injection E4 as <-. injection E5 as <-. injection E6 as <-. injection E7 as <-.
  rewrite (Forall2_length' _ _ _ E3).
  simpl in H. destruct v13; simpl in H; apply ret_ok in H as [-> _]; reflexivity.
Qed.
End Statistics.

Section Edges.
Variable fromisoformat : string -> option datetime.

(** X7. An organization document counts the rows under [org_members] as
    [member_count] (0 when the key is absent) and carries [settings] only
    when the source value is truthy: a null, absent or empty [settings]
    leaves no key. *)
Theorem organization_members_and_settings org s d s' :
  transform_organization fromisoformat org s = Ok (d, s') ->
  exists members n settings,
    py_get org "org_members" (JList []) = Ok members /\
    py_len members = Ok n /\
    doc_getitem d "member_count" = Ok (DInt n) /\
    py_get org "settings" JNull = Ok settings /\
    doc_getitem d "settings" =
      (if truthy settings then Ok (of_json settings) else missing "settings").
Proof.
  intros H. unfold transform_organization in H. monad_inv H.
  exists v5, v6, v7. do 2 (split; [assumption |]).
  destruct (truthy v7) eqn:Ht; monad_inv H; subst.
  - split; [reflexivity |]. split; [assumption |].
    destruct org as [| | | | |kv]; try discriminate.
    simpl in E7, E8. destruct (dict_get "settings" kv); [| discriminate].
    injection E7 as ->. injection E8 as ->. reflexivity.
  - repeat split; assumption.
Qed.

(** X8. [.get(key, [])] falls back to the empty list only when the key is
    absent.  A record whose relation is there with the value null is not
    transformed: an organization or user with a null [org_members], a task
    with a null [task_assignees], [task_labels] or [comments]. *)
Theorem null_relation_raises :
  (forall org s,
      py_get org "org_members" (JList []) = Ok JNull ->
      exists e, transform_organization fromisoformat org s = Raise e) /\
  (forall user s,
      py_get user "org_members" (JList []) = Ok JNull ->
      exists e, transform_user fromisoformat user s = Raise e) /\
  (forall task lookup s key,
      In key ["task_assignees"; "task_labels"; "comments"] ->
      py_get task key (JList []) = Ok JNull ->
      exists e, transform_task fromisoformat task lookup s = Raise e).
Proof.
  split; [| split].
  - intros org s Hnull. apply not_ok_raises. intros [d s'] H.
    unfold transform_organization in H. monad_inv H.
    rewrite Hnull in E5. injection E5 as <-. discriminate.
  - intros user s Hnull. apply not_ok_raises. intros [d s'] H.
    unfold transform_user in H. monad_inv H.
    rewrite Hnull in E1. injection E1 as <-. discriminate.
  - intros task lookup s key Hkey Hnull. apply not_ok_raises. intros [d s'] H.
    apply transform_task_inv in H.
    destruct H as (pg_id & mongo_id & s1 & arows & assignees & s2 & lrows & labels & s3 &
                   crows & unsorted & comments & title & description & status & priority &
                   due & due_date & created & created_at & updated & updated_at & H).
    destruct H as (_ & _ & Har & _ & Hlr & _ & Hcr & _).
    unfold rows_of in Har, Hlr, Hcr.
    destruct Hkey as [<-|[<-|[<-|[]]]]; rewrite Hnull in *; discriminate.
Qed.



End Edges.

(** ** More runs on the sample data *)

Lemma one_document_per_row_witness :
  exists orgs users labels projects odocs udocs ldocs pdocs,
    source_rows Sample.source_data "organizations" = Ok orgs /\
    source_rows Sample.source_data "users" = Ok users /\
    source_rows Sample.source_data "labels" = Ok labels /\
    source_rows Sample.source_data "projects" = Ok projects /\
    run_value DNone sample_run =
      DDict [("organizations", DList odocs); ("users", DList udocs);
             ("labels", DList ldocs); ("projects", DList pdocs)] /\
    Forall2 keeps_pg_id orgs odocs /\
    Forall2 keeps_pg_id users udocs /\
    Forall2 keeps_pg_id labels ldocs /\
    Forall2 keeps_pg_id projects pdocs.
Proof.
  apply (one_document_per_row fromisoformat_ref Sample.source_data (initial_state 0%N)
           _ (run_state sample_run)).
  vm_compute. reflexivity.
Defined.

Lemma counters_stay_zero_witness :
  Forall (fun d => doc_getitem d "project_count" = Ok (DInt 0))
         (doc_list (run_value DNone sample_run) "organizations") /\
  Forall (fun d => doc_getitem d "stats" = Ok user_stats_zero)
         (doc_list (run_value DNone sample_run) "users") /\
  Forall (fun d => doc_getitem d "usage_count" = Ok (DInt 0))
         (doc_list (run_value DNone sample_run) "labels").
Proof.
  apply (counters_stay_zero fromisoformat_ref Sample.source_data (initial_state 0%N)
           _ (run_state sample_run)).
  vm_compute. reflexivity.
Defined.

Lemma task_counters_witness :
  doc_getitem (run_value DNone Runs.design_run) "assignee_count" = Ok (DInt 1) /\
  doc_getitem (run_value DNone Runs.design_run) "comment_count" = Ok (DInt 2).
Proof.
  destruct (task_counters fromisoformat_ref Sample.design ∅ Sample.start
              (run_value DNone Runs.design_run) (run_state Runs.design_run))
    as (arows & crows & assignees & comments & Ha & Hc & _ & _ & _ & _ & Hac & Hcc).
  - vm_compute. reflexivity.
  - injection Ha as <-. injection Hc as <-. split; assumption.
Defined.

Lemma project_stats_witness :
  doc_getitem (run_value DNone website_run) "stats" =
  Ok (DDict [("total_tasks", DInt 2); ("completed_tasks", DInt 2);
             ("in_progress_tasks", DInt 0); ("todo_tasks", DInt 0);
             ("total_comments", DInt 2)]).
Proof.
  destruct (project_stats fromisoformat_ref Sample.website
              [Sample.design; Sample.build; Sample.deploy] ∅ Sample.start
              (run_value DNone website_run) (run_state website_run)) as [H _].
  - vm_compute. reflexivity.
  - exact H.
Defined.

Lemma organization_members_and_settings_witness :
  doc_getitem (run_value DNone acme_run) "member_count" = Ok (DInt 1) /\
  doc_getitem (run_value DNone acme_run) "settings" = missing "settings".
Proof.
  destruct (organization_members_and_settings fromisoformat_ref Sample.acme Sample.start
              (run_value DNone acme_run) (run_state acme_run))
    as (members & n & settings & Hm & Hn & Hc & Hs & Hd).
  - vm_compute. reflexivity.
  - injection Hm as <-. injection Hn as <-. injection Hs as <-. split; assumption.
Defined.

Lemma null_relation_witness :
  exists e, transform_organization fromisoformat_ref memberless Sample.start = Raise e.
Proof.
  apply (proj1 (null_relation_raises fromisoformat_ref)). reflexivity.
Defined.


(** ** The size of the mapper *)

Lemma table_recorded e k s e' :
  table e' (id_mapper (recorded e k s)) =
  if decide (e = e') then <[k := next_oid s]> (table e' (id_mapper s))
  else table e' (id_mapper s).
Proof.
  unfold recorded; simpl. destruct (decide (e = e')) as [<-|Hne].
  - apply table_set_same.
  - now apply table_set_other.
Qed.

Lemma entries_recorded e k s :
  table e (id_mapper s) !! k = None ->
  entries (id_mapper (recorded e k s)) = S (entries (id_mapper s)).
Proof.
  intros Hk. unfold entries, recorded. simpl.
  destruct e; simpl in *; rewrite (map_size_insert_None _ _ _ Hk); lia.
Qed.

Lemma keys_of_cons e c calls :
  keys_of e (c :: calls) =
  match call_key e c with
  | Some k => {[k]} ∪ keys_of e calls
  | None => keys_of e calls
  end.
Proof. unfold keys_of. simpl. now destruct (call_key e c). Qed.

Lemma generate_dom e pg_id s o s' :
  generate e pg_id s = Ok (o, s') ->
  (forall e', dom (table e' (id_mapper s')) =
              match call_key e' (e, pg_id) with
              | Some k => {[k]} ∪ dom (table e' (id_mapper s))
              | None => dom (table e' (id_mapper s))
              end) /\
  (N.to_nat (next_oid s') + entries (id_mapper s) =
   N.to_nat (next_oid s) + entries (id_mapper s'))%nat.
Proof.
  rewrite generate_unfold. unfold call_key. simpl.
  destruct (py_hash pg_id) as [k|]; [| discriminate].
  destruct (table e (id_mapper s) !! k) as [o0|] eqn:E; intros H; injection H as <- <-.
  - split; [| lia]. intros e'. destruct (decide (e = e')) as [<-|]; [| reflexivity].
    apply set_eq. intros x. rewrite elem_of_union, elem_of_singleton, !elem_of_dom.
    split; [tauto |]. intros [->|H]; [rewrite E; eauto | exact H].
  - split.
    + intros e'. rewrite table_recorded.
      destruct (decide (e = e')) as [<-|]; [| reflexivity].
      apply dom_insert_L.
    + rewrite (entries_recorded _ _ _ E). simpl. lia.
Qed.

Lemma run_calls_dom calls : forall s ids s',
  run_calls calls s = Ok (ids, s') ->
  (forall e, dom (table e (id_mapper s')) = dom (table e (id_mapper s)) ∪ keys_of e calls) /\
  (N.to_nat (next_oid s') + entries (id_mapper s) =
   N.to_nat (next_oid s) + entries (id_mapper s'))%nat.
Proof.
  unfold run_calls.
  induction calls as [|[e0 j] calls IH]; intros s ids s' H; simpl in H.
  - apply ret_ok in H as [_ ->]. split; [| reflexivity].
    intros e. unfold keys_of. simpl. now rewrite (right_id_L ∅ (∪)).
  - monad_inv H. subst.
    apply generate_dom in E as [D1 N1]. apply IH in E0 as [D2 N2].
    split; [| lia].
    intros e. rewrite D2, D1, keys_of_cons.
    destruct (call_key e (e0, j)) as [k|]; [| reflexivity].
    now rewrite (comm_L (∪) {[k]}), <- (assoc_L (∪)).
Qed.

(** X10. After any sequence of [generate_*_id] calls on a new mapper,
    [get_stats] reports for each entity type the number of distinct source
    ids the calls presented for it, and the mapper has drawn exactly one
    [ObjectId] per entry: repeated and interleaved calls draw nothing. *)
Theorem get_stats_counts_distinct_ids calls oid0 ids s :
  run_calls calls (initial_state oid0) = Ok (ids, s) ->
  get_stats (id_mapper s) =
    [("organizations", Z.of_nat (size (keys_of Org calls)));
     ("users", Z.of_nat (size (keys_of User calls)));
     ("labels", Z.of_nat (size (keys_of Label calls)));
     ("projects", Z.of_nat (size (keys_of Project calls)));
     ("tasks", Z.of_nat (size (keys_of Task calls)));
     ("comments", Z.of_nat (size (keys_of Comment calls)))] /\
  next_oid s = (oid0 + N.of_nat (entries (id_mapper s)))%N.
Proof.
  intros H. apply run_calls_dom in H as [D Hn].
  assert (Hsize : forall e, size (table e (id_mapper s)) = size (keys_of e calls)).
  { intros e. rewrite <- size_dom, D.
    replace (dom (table e (id_mapper (initial_state oid0)))) with (∅ : gset pykey)
      by (destruct e; simpl; now rewrite dom_empty_L).
    now rewrite (left_id_L ∅ (∪)). }
  split.
  - unfold get_stats.
    rewrite <- (Hsize Org), <- (Hsize User), <- (Hsize Label), <- (Hsize Project),
      <- (Hsize Task), <- (Hsize Comment). reflexivity.
  - simpl in Hn. unfold entries in Hn at 1. simpl in Hn.
    rewrite !map_size_empty in Hn. lia.
Qed.

(** X11. A [generate_*_id] call raises only for an id that cannot be a dict
    key, a list or a dict, and then [TypeError]; every other id, null
    included, gets an identifier, which is stored under it.  The lookup
    that ends the method never raises [KeyError]. *)
Theorem generate_raises_only_unhashable e pg_id s :
  match pg_id with
  | JList _ | JDict _ => generate e pg_id s = Raise TypeError
  | _ => exists k o s',
      py_hash pg_id = Ok k /\
      generate e pg_id s = Ok (o, s') /\
      table e (id_mapper s') !! k = Some o
  end.
Proof.
  assert (Hok : forall k, py_hash pg_id = Ok k ->
                          exists k o s', py_hash pg_id = Ok k /\
                                         generate e pg_id s = Ok (o, s') /\
                                         table e (id_mapper s') !! k = Some o).
  { intros k Hk. destruct (generate e pg_id s) as [[o s']|x] eqn:G.
    - destruct (generate_stored _ _ _ _ _ G) as (k' & Hk' & Hs).
      exists k', o, s'. auto.
    - rewrite generate_unfold, Hk in G.
      destruct (table e (id_mapper s) !! k); discriminate. }
  destruct pg_id; try (eapply Hok; reflexivity);
    rewrite generate_unfold; reflexivity.
Qed.

(** ** Naive and aware timestamps *)

Section MixedTimestamps.
Variable fromisoformat : string -> option datetime.

Lemma comment_entry_sort_key row s e s' :
  comment_entry fromisoformat row s = Ok (e, s') ->
  source_sort_key fromisoformat row = Ok (comment_sort_key e).
Proof.
  intros H. unfold comment_entry in H. monad_inv H. subst.
  unfold source_sort_key. rewrite E7. simpl. rewrite E8. simpl.
  unfold comment_sort_key. simpl. now destruct v8.
Qed.

(** X12. The comments of one task cannot mix sort keys with and without a
    UTC offset: when one comment row yields a naive key (a timestamp
    without offset, or a null or unparseable one, which sorts as
    [datetime.min]) and another an aware key, [transform_task] raises
    instead of returning a document. *)
Theorem mixed_comment_timestamps_raise task lookup s rows r1 r2 t1 t2 off :
  rows_of task "comments" = Ok rows ->
  In r1 rows ->
  In r2 rows ->
  source_sort_key fromisoformat r1 = Ok t1 ->
  source_sort_key fromisoformat r2 = Ok t2 ->
  dt_offset t1 = None ->
  dt_offset t2 = Some off ->
  exists e, transform_task fromisoformat task lookup s = Raise e.
Proof.
  intros Hrows H1 H2 K1 K2 Hn Ha. apply not_ok_raises. intros [d s'] H.
  apply transform_task_inv in H.
  destruct H as (pg_id & mongo_id & s1 & arows & assignees & s2 & lrows & labels & s3 &
                 crows & unsorted & comments & title & description & status & priority &
                 due & due_date & created & created_at & updated & updated_at & H).
  destruct H as (_ & _ & _ & _ & _ & _ & Hc & Hrun & Hsort & _).
  rewrite Hrows in Hc. injection Hc as <-.
  apply mapM_ok in Hrun.
  destruct (Forall2_In_l _ _ _ _ Hrun H1) as (e1 & He1 & sa & sb & Hentry1).
  destruct (Forall2_In_l _ _ _ _ Hrun H2) as (e2 & He2 & sc & sd & Hentry2).
  apply comment_entry_sort_key in Hentry1, Hentry2.
  rewrite K1 in Hentry1. rewrite K2 in Hentry2.
  injection Hentry1 as ->. injection Hentry2 as ->.
  rewrite (list_sort_mixed comment_sort_key unsorted e1 e2 off He1 He2 Hn Ha) in Hsort.
  discriminate.
Qed.
End MixedTimestamps.

(** ** Runs of the mapper *)

Lemma get_stats_witness :
  get_stats (id_mapper (run_state Runs.calls_run)) =
    [("organizations", 1); ("users", 1); ("labels", 0);
     ("projects", 0); ("tasks", 1); ("comments", 0)] /\
  next_oid (run_state Runs.calls_run) = 8%N.
Proof.
  destruct (get_stats_counts_distinct_ids Runs.calls 5%N (run_value [] Runs.calls_run)
              (run_state Runs.calls_run)) as [H1 H2].
  - vm_compute. reflexivity.
  - split; [| rewrite H2; vm_compute; reflexivity].
    rewrite H1. vm_compute. reflexivity.
Defined.

Lemma mixed_comment_timestamps_witness :
  exists e, transform_task fromisoformat_ref naive_and_aware ∅ Sample.start = Raise e.
Proof.
  apply (mixed_comment_timestamps_raise fromisoformat_ref naive_and_aware ∅ Sample.start
           [Sample.comment 261 (JStr "2024-01-15T10:00:00");
            Sample.comment 262 (JStr "2024-01-15T10:00:00+00:00")]
           (Sample.comment 261 (JStr "2024-01-15T10:00:00"))
           (Sample.comment 262 (JStr "2024-01-15T10:00:00+00:00"))
           (run_key (Sample.comment 261 (JStr "2024-01-15T10:00:00")))
           (run_key (Sample.comment 262 (JStr "2024-01-15T10:00:00+00:00")))
           0).
  - reflexivity.
  - now left.
  - right. now left.
  - vm_compute. reflexivity.
  - vm_compute. reflexivity.
  - vm_compute. reflexivity.
  - vm_compute. reflexivity.
Defined.

(** * Loading *)

(** ** Batches *)

Lemma skipn_all' {A} (l : list A) n : (length l <= n)%nat -> skipn n l = [].
Proof. intros H. apply skipn_all2. exact H. Qed.

Lemma py_slice_chunk {A} (l : list A) (i step : Z) :
  0 <= i -> 0 < step ->
  Load.py_slice l i (i + step) =
  firstn (Z.to_nat step) (skipn (Z.to_nat i) l).
Proof.
  intros Hi Hs. unfold Load.py_slice, Load.clamp, Load.len.
  destruct (i <? 0) eqn:E1; [apply Z.ltb_lt in E1; lia |].
  destruct (i + step <? 0) eqn:E2; [apply Z.ltb_lt in E2; lia |].
  destruct (Z.le_gt_cases (Z.of_nat (length l)) i) as [Hge|Hlt].
  - rewrite (Z.min_r i) by lia.
    rewrite !skipn_all' by lia. now rewrite !firstn_nil.
  - rewrite (Z.min_l i) by lia.
    destruct (Z.le_gt_cases (i + step) (Z.of_nat (length l))) as [H1|H1].
    + rewrite (Z.min_l (i + step)) by lia. f_equal. lia.
    + rewrite (Z.min_r (i + step)) by lia.
      rewrite !firstn_all2; [reflexivity | |]; rewrite length_skipn; lia.
Qed.

Lemma range_up_chunks {A} (l : list A) (step : Z) :
  0 < step ->
  forall fuel i,
    0 <= i -> Load.len l - i <= Z.of_nat fuel ->
    let bs := map (fun j => Load.py_slice l j (j + step))
                  (Load.range_up fuel i (Load.len l) step) in
    concat bs = skipn (Z.to_nat i) l /\
    Forall (fun b => 0 < Load.len b <= step) bs /\
    (i <= Load.len l -> Load.len bs = (Load.len l - i + step - 1) / step).
Proof.
  intros Hs. unfold Load.len.
  assert (Hlast : forall n, (n - n + step - 1) / step = 0).
  { intros n. replace (n - n + step - 1) with (step - 1) by lia.
    apply Z.div_small. lia. }
  induction fuel as [|fuel IH]; intros i Hi Hf; simpl.
  - split; [| split].
    + rewrite skipn_all'; [reflexivity | lia].
    + constructor.
    + intros Hle. assert (i = Z.of_nat (length l)) as -> by lia.
      now rewrite Hlast.
  - destruct (i <? Z.of_nat (length l)) eqn:E.
    + apply Z.ltb_lt in E. simpl.
      destruct (IH (i + step)) as (C & F & L); [lia | lia |].
      rewrite (py_slice_chunk _ _ _ Hi Hs).
      split; [| split].
      * rewrite C. replace (Z.to_nat (i + step)) with (Z.to_nat step + Z.to_nat i)%nat by lia.
        rewrite <- skipn_skipn. apply firstn_skipn.
      * constructor; [| exact F].
        rewrite length_firstn, length_skipn. lia.
      * intros _. rewrite Nat2Z.inj_succ.
        destruct (Z.le_gt_cases (i + step) (Z.of_nat (length l))) as [H1|H1].
        -- rewrite (L H1).
           replace (Z.of_nat (length l) - i + step - 1)
             with (Z.of_nat (length l) - (i + step) + step - 1 + 1 * step) by lia.
           rewrite Z.div_add by lia. lia.
        -- assert (Hnil : Load.range_up fuel (i + step) (Z.of_nat (length l)) step = []).
           { destruct fuel; [reflexivity |]. simpl.
             destruct (i + step <? Z.of_nat (length l)) eqn:E';
               [apply Z.ltb_lt in E'; lia | reflexivity]. }
           rewrite Hnil. simpl.
           apply Z.div_unique with (r := Z.of_nat (length l) - i - 1); lia.
    + apply Z.ltb_ge in E. simpl. split; [| split].
      * rewrite skipn_all'; [reflexivity | lia].
      * constructor.
      * intros Hle. assert (i = Z.of_nat (length l)) as -> by lia.
        now rewrite Hlast.
Qed.

(** X13. For a positive batch size the loop of the loader cuts the
    documents into consecutive batches: put together in order they are the
    documents, each once; no batch is empty or longer than [batch_size];
    their number is [(len(documents) + batch_size - 1) // batch_size], the
    [total_batches] of the progress line. *)
Theorem batches_partition {A} (documents : list A) (batch_size : Z) :
  0 < batch_size ->
  concat (batches documents batch_size) = documents /\
  Forall (fun b => 0 < Load.len b <= batch_size) (batches documents batch_size) /\
  Load.len (batches documents batch_size) =
    (Load.len documents + batch_size - 1) / batch_size.
Proof.
  intros Hs. unfold batches, Load.py_range.
  destruct (batch_size =? 0) eqn:E0; [apply Z.eqb_eq in E0; lia |].
  destruct (0 <? batch_size) eqn:E1; [| apply Z.ltb_ge in E1; lia].
  destruct (range_up_chunks documents batch_size Hs
              (Z.to_nat (Load.len documents)) 0) as (C & F & L).
  - lia.
  - unfold Load.len. lia.
  - split; [exact C | split; [exact F |]].
    rewrite L by (unfold Load.len; lia). f_equal. lia.
Qed.

(** ** The loader *)

Section LoadFacts.
Variable DB : Type.
Variable connect : DB -> option Load.error.
Variable bulk_write : string -> list Load.document -> bool -> DB -> Load.write_result * DB.
Variable bulk_upsert : string -> list Load.document -> DB -> Load.upsert_result * DB.
Variable delete_many : string -> DB -> Load.outcome Z * DB.
Variable percent : Z -> Z -> string.

Lemma load_batch_step name documents batch_size ordered stats db i :
  let batch := Load.py_slice documents i (i + batch_size) in
  let st := Load.load_batch DB bulk_write name documents batch_size ordered (stats, db) i in
  snd st = snd (bulk_write name batch ordered db) /\
  Load.collection_name (fst st) = Load.collection_name stats /\
  Load.total_documents (fst st) = Load.total_documents stats /\
  Load.batches_processed (fst st) = Load.batches_processed stats + 1 /\
  (accounts (fst (bulk_write name batch ordered db)) batch ->
   Load.inserted_count (fst st) + Load.failed_count (fst st) =
   Load.inserted_count stats + Load.failed_count stats + Load.len batch).
Proof.
  unfold Load.load_batch. cbv zeta.
  destruct (bulk_write name (Load.py_slice documents i (i + batch_size)) ordered db)
    as [[n|ins errs|msg|msg] db']; simpl; repeat split; try reflexivity; intros; lia.
Qed.

Lemma load_batches_fold name documents batch_size ordered indices : forall stats db,
  let bs := map (fun i => Load.py_slice documents i (i + batch_size)) indices in
  let st := fold_left (Load.load_batch DB bulk_write name documents batch_size ordered)
                      indices (stats, db) in
  snd st = written bulk_write name ordered bs db /\
  Load.collection_name (fst st) = Load.collection_name stats /\
  Load.total_documents (fst st) = Load.total_documents stats /\
  Load.batches_processed (fst st) = Load.batches_processed stats + Load.len bs /\
  ((forall b d, accounts (fst (bulk_write name b ordered d)) b) ->
   Load.inserted_count (fst st) + Load.failed_count (fst st) =
   Load.inserted_count stats + Load.failed_count stats + Load.len (concat bs)).
Proof.
  induction indices as [|i indices IH]; intros stats db; cbv zeta.
  - simpl. unfold Load.len. simpl. repeat split; intros; try reflexivity; lia.
  - cbn [fold_left map].
    destruct (Load.load_batch DB bulk_write name documents batch_size ordered (stats, db) i)
      as [stats1 db1] eqn:E.
    pose proof (load_batch_step name documents batch_size ordered stats db i) as S1.
    cbv zeta in S1. rewrite E in S1. simpl in S1.
    destruct S1 as (D1 & C1 & T1 & B1 & A1).
    destruct (IH stats1 db1) as (D2 & C2 & T2 & B2 & A2).
    split; [| split; [| split; [| split]]].
    + rewrite D2. unfold written. simpl. now rewrite D1.
    + congruence.
    + congruence.
    + rewrite B2, B1. unfold Load.len. simpl length. lia.
    + intros Hacc. rewrite (A2 Hacc), (A1 (Hacc _ _)).
      unfold Load.len. simpl concat. rewrite length_app. lia.
Qed.

(** X14. With a positive batch size and a database handle,
    [load_collection_bulk] never raises, whatever [bulk_write] returns or
    raises: every batch is submitted, once and in order, a failed batch
    does not stop the next one, and the statistics count every batch as
    processed.  When the driver accounts for every document of each batch,
    [inserted_count + failed_count] is the number of documents. *)
Theorem every_batch_is_written name documents batch_size ordered db :
  0 < batch_size ->
  documents = [] \/ connect db = None ->
  exists stats,
    Load.load_collection_bulk DB connect bulk_write name documents batch_size ordered db =
      (Load.Returns stats,
       written bulk_write name ordered (batches documents batch_size) db) /\
    Load.collection_name stats = name /\
    Load.total_documents stats = Load.len documents /\
    Load.batches_processed stats = Load.len (batches documents batch_size) /\
    ((forall b d, accounts (fst (bulk_write name b ordered d)) b) ->
     Load.inserted_count stats + Load.failed_count stats = Load.len documents).
Proof.
  intros Hs Hc.
  destruct (batches_partition documents batch_size Hs) as (Hcat & _ & _).
  unfold batches in *. unfold Load.load_collection_bulk.
  assert (E0 : (batch_size =? 0) = false) by (apply Z.eqb_neq; lia).
  assert (E1 : (0 <? batch_size) = true) by (apply Z.ltb_lt; lia).
  destruct documents as [|d0 documents'] eqn:Hd.
  - eexists. unfold Load.py_range. rewrite E0, E1. simpl.
    split; [reflexivity |]. unfold Load.len. simpl.
    repeat split; intros; try reflexivity; lia.
  - rewrite <- Hd in *. destruct Hc as [Hc|Hc]; [congruence |]. rewrite Hc.
    destruct (Load.py_range (Load.len documents) batch_size) as [indices|e] eqn:R.
    2:{ unfold Load.py_range in R. rewrite E0, E1 in R. discriminate. }
    pose proof (load_batches_fold name documents batch_size ordered indices
                  (Load.set_total_documents (Load.len documents) (Load.LoadStats_new name))
                  db) as F.
    cbv zeta in F.
    destruct (fold_left _ indices _) as [stats' db'] eqn:E.
    simpl in F. destruct F as (D & C & T & B & A).
    exists stats'. rewrite D.
    split; [reflexivity |]. split; [exact C |]. split; [exact T |].
    split; [rewrite B; lia |].
    intros Hacc. rewrite (A Hacc), Hcat. lia.
Qed.

(** X15. The degenerate batch sizes, for documents that are there and a
    database handle: with [batch_size] 0 the loader raises the
    [ValueError] of [range] before anything is written; with a negative
    [batch_size] the loop has no turn, and the loader returns statistics
    with no batch, no insert and no failure, having written nothing. *)
Theorem degenerate_batch_size name documents batch_size ordered db :
  documents <> [] ->
  connect db = None ->
  batch_size <= 0 ->
  Load.load_collection_bulk DB connect bulk_write name documents batch_size ordered db =
  if batch_size =? 0 then (Load.Raises (Load.Builtin ValueError), db)
  else (Load.Returns (Load.mkLoadStats name (Load.len documents) 0 0 [] 0), db).
Proof.
  intros Hd Hc Hs. unfold Load.load_collection_bulk.
  destruct documents as [|d0 documents']; [congruence |].
  rewrite Hc. unfold Load.py_range.
  destruct (batch_size =? 0) eqn:E0; [reflexivity |].
  apply Z.eqb_neq in E0.
  destruct (0 <? batch_size) eqn:E1; [apply Z.ltb_lt in E1; lia |].
  replace (Z.to_nat (- Load.len (d0 :: documents'))) with 0%nat
    by (unfold Load.len; lia).
  reflexivity.
Qed.
Lemma load_collection_bulk_total name documents batch_size ordered db stats db' :
  Load.load_collection_bulk DB connect bulk_write name documents batch_size ordered db =
    (Load.Returns stats, db') ->
  Load.total_documents stats = Load.len documents /\
  (documents = [] -> Load.inserted_count stats = 0 /\ Load.failed_count stats = 0).
Proof.
  unfold Load.load_collection_bulk. destruct documents as [|d0 documents'].
  - intros H. injection H as <- <-. simpl. auto.
  - destruct (connect db); [discriminate |].
    destruct (Load.py_range _ batch_size) as [indices|e]; [| discriminate].
    pose proof (load_batches_fold name (d0 :: documents') batch_size ordered indices
                  (Load.set_total_documents (Load.len (d0 :: documents'))
                                            (Load.LoadStats_new name)) db) as F.
    cbv zeta in F. destruct (fold_left _ indices _) as [stats' db''].
    destruct F as (_ & _ & T & _). intros H. injection H as <- <-.
    split; [exact T | discriminate].
Qed.

Lemma load_collection_bulk_raises name documents batch_size ordered db e db' :
  Load.load_collection_bulk DB connect bulk_write name documents batch_size ordered db =
    (Load.Raises e, db') ->
  connect db = Some e \/ exists x, e = Load.Builtin x.
Proof.
  unfold Load.load_collection_bulk. destruct documents as [|d0 documents']; [discriminate |].
  destruct (connect db) as [e'|].
  - intros H. injection H as <- <-. now left.
  - destruct (Load.py_range _ batch_size) as [indices|x].
    + destruct (fold_left _ indices _). discriminate.
    + intros H. injection H as <- <-. right. eauto.
Qed.

Lemma load_collection_bulk_ok name documents batch_size ordered db :
  0 < batch_size ->
  connect db = None ->
  exists stats,
    Load.load_collection_bulk DB connect bulk_write name documents batch_size ordered db =
      (Load.Returns stats,
       written bulk_write name ordered (batches documents batch_size) db) /\
    ((forall b d, accounts (fst (bulk_write name b ordered d)) b) ->
     Load.inserted_count stats + Load.failed_count stats = Load.len documents).
Proof.
  intros Hs Hc.
  destruct (batches_partition documents batch_size Hs) as (Hcat & _ & _).
  unfold batches in *. unfold Load.load_collection_bulk.
  assert (E0 : (batch_size =? 0) = false) by (apply Z.eqb_neq; lia).
  assert (E1 : (0 <? batch_size) = true) by (apply Z.ltb_lt; lia).
  assert (R : exists indices, Load.py_range (Load.len documents) batch_size = Ok indices).
  { unfold Load.py_range. rewrite E0, E1. eauto. }
  destruct R as (indices & R). rewrite R in *. rewrite Hc.
  pose proof (load_batches_fold name documents batch_size ordered indices
                (Load.set_total_documents (Load.len documents) (Load.LoadStats_new name))
                db) as F.
  cbv zeta in F. destruct (fold_left _ indices _) as [stats' db'] eqn:E.
  simpl in F. destruct F as (D & _ & _ & _ & A).
  destruct documents as [|d0 documents'].
  - unfold Load.py_range in R. rewrite E0, E1 in R. simpl in R. injection R as <-.
    simpl in E. injection E as <- <-. eexists. split; [reflexivity |].
    intros _. reflexivity.
  - exists stats'. rewrite D. split; [reflexivity |].
    intros Hacc. rewrite (A Hacc), Hcat. lia.
Qed.

(** What the four loads leave in [all_stats]. *)
Lemma summarize_returns s1 s2 s3 s4 :
  (forall s, In s [s1; s2; s3; s4] ->
             0 <= Load.total_documents s /\
             (Load.total_documents s = 0 -> Load.failed_count s = 0)) ->
  exists r,
    Load.summarize percent [("organizations", s1); ("users", s2);
                            ("labels", s3); ("projects", s4)] = Load.Returns r /\
    Load.res_total_documents r =
      Load.total_documents s1 + Load.total_documents s2 +
      Load.total_documents s3 + Load.total_documents s4 /\
    Load.res_total_inserted r =
      Load.inserted_count s1 + Load.inserted_count s2 +
      Load.inserted_count s3 + Load.inserted_count s4 /\
    Load.res_total_failed r =
      Load.failed_count s1 + Load.failed_count s2 +
      Load.failed_count s3 + Load.failed_count s4 /\
    map fst (Load.res_collections r) = ["organizations"; "users"; "labels"; "projects"].
Proof.
  intros H.
  destruct (H s1) as [P1 Q1]; [simpl; auto |].
  destruct (H s2) as [P2 Q2]; [simpl; auto |].
  destruct (H s3) as [P3 Q3]; [simpl; auto |].
  destruct (H s4) as [P4 Q4]; [simpl; auto 6 |].
  unfold Load.summarize. cbn [map fold_left snd fst].
  destruct ((0 <? 0 + Load.failed_count s1 + Load.failed_count s2 +
                 Load.failed_count s3 + Load.failed_count s4) &&
            (0 + Load.total_documents s1 + Load.total_documents s2 +
             Load.total_documents s3 + Load.total_documents s4 =? 0)) eqn:E.
  - apply andb_true_iff in E as [E1 E2].
    apply Z.ltb_lt in E1. apply Z.eqb_eq in E2.
    assert (Load.total_documents s1 = 0) by lia.
    assert (Load.total_documents s2 = 0) by lia.
    assert (Load.total_documents s3 = 0) by lia.
    assert (Load.total_documents s4 = 0) by lia.
    rewrite Q1, Q2, Q3, Q4 in E1 by assumption. lia.
  - eexists. split; [reflexivity |]. simpl. repeat split; lia.
Qed.
Lemma load_stats_inv name documents batch_size ordered db stats db' :
  Load.load_collection_bulk DB connect bulk_write name documents batch_size ordered db =
    (Load.Returns stats, db') ->
  0 <= Load.total_documents stats /\
  (Load.total_documents stats = 0 -> Load.failed_count stats = 0).
Proof.
  intros H. apply load_collection_bulk_total in H as [T Z0]. rewrite T. split.
  - unfold Load.len. lia.
  - intros Hlen. apply Z0. destruct documents; [reflexivity |].
    unfold Load.len in Hlen. simpl in Hlen. lia.
Qed.

Lemma load_projects_inv documents batch_size db stats db' :
  Load.load_projects DB connect bulk_write documents batch_size db =
    (Load.Returns stats, db') ->
  Load.load_collection_bulk DB connect bulk_write "projects" documents batch_size false db =
    (Load.Returns stats, db').
Proof.
  unfold Load.load_projects. now destruct (Load.embedded_tasks documents).
Qed.

Lemma load_projects_raises documents batch_size db e db' :
  Load.load_projects DB connect bulk_write documents batch_size db = (Load.Raises e, db') ->
  connect db = Some e \/ exists x, e = Load.Builtin x.
Proof.
  unfold Load.load_projects. destruct (Load.embedded_tasks documents) as [n|x].
  - apply load_collection_bulk_raises.
  - intros H. injection H as <- <-. right. eauto.
Qed.

Lemma clear_collections_raises names : forall deleted db e db',
  Load.clear_collections DB connect delete_many names deleted db = (Load.Raises e, db') ->
  (exists d, connect d = Some e) \/ (exists name d, fst (delete_many name d) = Load.Raises e).
Proof.
  induction names as [|name names IH]; intros deleted db e db' H; simpl in H; [discriminate |].
  unfold Load.clear_collection in H.
  destruct (connect db) as [e'|] eqn:C.
  - injection H as <- <-. left. eauto.
  - destruct (delete_many name db) as [[n|e'] db1] eqn:D.
    + eapply IH. exact H.
    + injection H as <- <-. right. exists name, db. now rewrite D.
Qed.

Lemma load_all_data_in_order_aux mongo_data orgs users labels projects n batch_size db :
  (forall d, connect d = None) ->
  0 < batch_size ->
  dict_get "organizations" mongo_data = Some orgs ->
  dict_get "users" mongo_data = Some users ->
  dict_get "labels" mongo_data = Some labels ->
  dict_get "projects" mongo_data = Some projects ->
  Load.embedded_tasks projects = Ok n ->
  exists r db',
    Load.load_all_data DB connect bulk_write delete_many percent
                       mongo_data batch_size false db = (Load.Returns r, db') /\
    Load.res_total_documents r =
      Load.len orgs + Load.len users + Load.len labels + Load.len projects /\
    ((forall name b d, accounts (fst (bulk_write name b false d)) b) ->
     Load.res_total_inserted r + Load.res_total_failed r = Load.res_total_documents r).
Proof.
  intros Hc Hs Ho Hu Hl Hp Ht.
  unfold Load.load_all_data, Load.load_step, Load.collection_of,
    Load.load_organizations, Load.load_users, Load.load_labels, Load.load_projects.
  rewrite Ho, Hu, Hl, Hp, Ht.
  destruct (load_collection_bulk_ok "organizations" orgs batch_size false db Hs (Hc _))
    as (s1 & E1 & A1).
  rewrite E1. set (db1 := written bulk_write "organizations" false _ db) in *.
  destruct (load_collection_bulk_ok "users" users batch_size false db1 Hs (Hc _))
    as (s2 & E2 & A2).
  rewrite E2. set (db2 := written bulk_write "users" false _ db1) in *.
  destruct (load_collection_bulk_ok "labels" labels batch_size false db2 Hs (Hc _))
    as (s3 & E3 & A3).
  rewrite E3. set (db3 := written bulk_write "labels" false _ db2) in *.
  destruct (load_collection_bulk_ok "projects" projects batch_size false db3 Hs (Hc _))
    as (s4 & E4 & A4).
  rewrite E4. cbn [dict_set String.eqb Ascii.eqb Bool.eqb].
  pose proof (load_collection_bulk_total _ _ _ _ _ _ _ E1) as [T1 _].
  pose proof (load_collection_bulk_total _ _ _ _ _ _ _ E2) as [T2 _].
  pose proof (load_collection_bulk_total _ _ _ _ _ _ _ E3) as [T3 _].
  pose proof (load_collection_bulk_total _ _ _ _ _ _ _ E4) as [T4 _].
  destruct (summarize_returns s1 s2 s3 s4) as (r & Hr & Rd & Ri & Rf & Rc).
  { intros s [<-|[<-|[<-|[<-|[]]]]]; eapply load_stats_inv; eassumption. }
  exists r. eexists. rewrite Hr. split; [reflexivity |].
  split; [rewrite Rd; lia |].
  intros Hacc. rewrite Ri, Rf, Rd.
  specialize (A1 (Hacc _)). specialize (A2 (Hacc _)).
  specialize (A3 (Hacc _)). specialize (A4 (Hacc _)). lia.
Qed.

(** X16. With a database handle, a positive batch size and the four
    collections in the data, [load_all_data] loads organizations, users,
    labels and projects, in that order, each in its batches, and returns
    the totals: [total_documents] is the number of documents of the four
    collections together, and when the driver accounts for every document,
    [total_inserted + total_failed] is that number. *)
Theorem load_all_data_in_order mongo_data orgs users labels projects n batch_size db :
  (forall d, connect d = None) ->
  0 < batch_size ->
  dict_get "organizations" mongo_data = Some orgs ->
  dict_get "users" mongo_data = Some users ->
  dict_get "labels" mongo_data = Some labels ->
  dict_get "projects" mongo_data = Some projects ->
  Load.embedded_tasks projects = Ok n ->
  exists r,
    Load.load_all_data DB connect bulk_write delete_many percent
                       mongo_data batch_size false db =
      (Load.Returns r,
       written bulk_write "projects" false (batches projects batch_size)
         (written bulk_write "labels" false (batches labels batch_size)
            (written bulk_write "users" false (batches users batch_size)
               (written bulk_write "organizations" false (batches orgs batch_size) db)))) /\
    Load.res_total_documents r =
      Load.len orgs + Load.len users + Load.len labels + Load.len projects /\
    map fst (Load.res_collections r) = ["organizations"; "users"; "labels"; "projects"] /\
    ((forall name b d, accounts (fst (bulk_write name b false d)) b) ->
     Load.res_total_inserted r + Load.res_total_failed r = Load.res_total_documents r).
Proof.
  intros Hc Hs Ho Hu Hl Hp Ht.
  unfold Load.load_all_data, Load.load_step, Load.collection_of,
    Load.load_organizations, Load.load_users, Load.load_labels, Load.load_projects.
  rewrite Ho, Hu, Hl, Hp, Ht.
  destruct (load_collection_bulk_ok "organizations" orgs batch_size false db Hs (Hc _))
    as (s1 & E1 & A1).
  rewrite E1. set (db1 := written bulk_write "organizations" false _ db) in *.
  destruct (load_collection_bulk_ok "users" users batch_size false db1 Hs (Hc _))
    as (s2 & E2 & A2).
  rewrite E2. set (db2 := written bulk_write "users" false _ db1) in *.
  destruct (load_collection_bulk_ok "labels" labels batch_size false db2 Hs (Hc _))
    as (s3 & E3 & A3).
  rewrite E3. set (db3 := written bulk_write "labels" false _ db2) in *.
  destruct (load_collection_bulk_ok "projects" projects batch_size false db3 Hs (Hc _))
    as (s4 & E4 & A4).
  rewrite E4. cbn [dict_set String.eqb Ascii.eqb Bool.eqb].
  pose proof (load_collection_bulk_total _ _ _ _ _ _ _ E1) as [T1 _].
  pose proof (load_collection_bulk_total _ _ _ _ _ _ _ E2) as [T2 _].
  pose proof (load_collection_bulk_total _ _ _ _ _ _ _ E3) as [T3 _].
  pose proof (load_collection_bulk_total _ _ _ _ _ _ _ E4) as [T4 _].
  destruct (summarize_returns s1 s2 s3 s4) as (r & Hr & Rd & Ri & Rf & Rc).
  { intros s [<-|[<-|[<-|[<-|[]]]]]; eapply load_stats_inv; eassumption. }
  exists r. rewrite Hr. split; [reflexivity |].
  split; [rewrite Rd; lia |]. split; [exact Rc |].
  intros Hacc. rewrite Ri, Rf, Rd.
  specialize (A1 (Hacc _)). specialize (A2 (Hacc _)).
  specialize (A3 (Hacc _)). specialize (A4 (Hacc _)). lia.
Qed.

(** X17. The success rate that [load_all_data] logs when a document failed
    divides by the number of documents, and that number is then never 0:
    [load_all_data] does not raise [ZeroDivisionError] unless the driver
    does. *)
Theorem summary_never_divides_by_zero mongo_data batch_size clear_existing db :
  (forall d, connect d <> Some Load.ZeroDivisionError) ->
  (forall name d, fst (delete_many name d) <> Load.Raises Load.ZeroDivisionError) ->
  fst (Load.load_all_data DB connect bulk_write delete_many percent
                          mongo_data batch_size clear_existing db)
  <> Load.Raises Load.ZeroDivisionError.
Proof.
  intros Hc Hd.
  assert (Hload : forall name documents d e d',
             Load.load_collection_bulk DB connect bulk_write name documents
                                       batch_size false d = (Load.Raises e, d') ->
             e <> Load.ZeroDivisionError).
  { intros name documents d e d' H. apply load_collection_bulk_raises in H as [H|[x ->]].
    - intros ->. exact (Hc _ H).
    - discriminate. }
  assert (Hproj : forall documents d e d',
             Load.load_projects DB connect bulk_write documents batch_size d =
               (Load.Raises e, d') ->
             e <> Load.ZeroDivisionError).
  { intros documents d e d' H. apply load_projects_raises in H as [H|[x ->]].
    - intros ->. exact (Hc _ H).
    - discriminate. }
  assert (Hmain : forall d,
             fst (Load.load_all_data DB connect bulk_write delete_many percent
                                     mongo_data batch_size false d)
             <> Load.Raises Load.ZeroDivisionError).
  { intros d. unfold Load.load_all_data, Load.load_step, Load.collection_of,
      Load.load_organizations, Load.load_users, Load.load_labels.
    destruct (dict_get "organizations" mongo_data) as [orgs|]; [| discriminate].
    destruct (Load.load_collection_bulk _ _ _ "organizations" orgs batch_size false d)
      as [[s1|e] d1] eqn:E1.
    2:{ simpl. intros [= ->]. exact (Hload _ _ _ _ _ E1 eq_refl). }
    destruct (dict_get "users" mongo_data) as [users|]; [| discriminate].
    destruct (Load.load_collection_bulk _ _ _ "users" users batch_size false d1)
      as [[s2|e] d2] eqn:E2.
    2:{ simpl. intros [= ->]. exact (Hload _ _ _ _ _ E2 eq_refl). }
    destruct (dict_get "labels" mongo_data) as [labels|]; [| discriminate].
    destruct (Load.load_collection_bulk _ _ _ "labels" labels batch_size false d2)
      as [[s3|e] d3] eqn:E3.
    2:{ simpl. intros [= ->]. exact (Hload _ _ _ _ _ E3 eq_refl). }
    destruct (dict_get "projects" mongo_data) as [projects|]; [| discriminate].
    destruct (Load.load_projects _ _ _ projects batch_size d3) as [[s4|e] d4] eqn:E4.
    2:{ simpl. intros [= ->]. exact (Hproj _ _ _ _ E4 eq_refl). }
    apply load_projects_inv in E4.
    cbn [dict_set String.eqb Ascii.eqb Bool.eqb].
    destruct (summarize_returns s1 s2 s3 s4) as (r & Hr & _).
    { intros s [<-|[<-|[<-|[<-|[]]]]]; eapply load_stats_inv; eassumption. }
    simpl. rewrite Hr. discriminate. }
  unfold Load.load_all_data in *. destruct clear_existing; [| apply Hmain].
  unfold Load.clear_all_collections.
  destruct (Load.clear_collections _ _ _ _ [] db) as [[deleted|e] db'] eqn:C.
  - apply Hmain.
  - simpl. intros [= ->].
    apply clear_collections_raises in C as [(d & C)|(name & d & C)].
    + exact (Hc _ C).
    + exact (Hd _ _ C).
Qed.

(** X18. [load_all_data] looks a collection up when its turn comes and
    undoes nothing: for data without the key [labels] it raises the
    [KeyError] after it has written the organizations and the users, which
    stay written. *)
Theorem missing_collection_after_writes mongo_data orgs users batch_size db :
  (forall d, connect d = None) ->
  0 < batch_size ->
  dict_get "organizations" mongo_data = Some orgs ->
  dict_get "users" mongo_data = Some users ->
  dict_get "labels" mongo_data = None ->
  Load.load_all_data DB connect bulk_write delete_many percent
                     mongo_data batch_size false db =
  (Load.Raises (Load.Builtin (KeyError (KStr "labels"))),
   written bulk_write "users" false (batches users batch_size)
     (written bulk_write "organizations" false (batches orgs batch_size) db)).
Proof.
  intros Hc Hs Ho Hu Hl.
  unfold Load.load_all_data, Load.load_step, Load.collection_of,
    Load.load_organizations, Load.load_users.
  rewrite Ho, Hu, Hl.
  destruct (load_collection_bulk_ok "organizations" orgs batch_size false db Hs (Hc _))
    as (s1 & E1 & _).
  rewrite E1.
  destruct (load_collection_bulk_ok "users" users batch_size false
              (written bulk_write "organizations" false (batches orgs batch_size) db)
              Hs (Hc _)) as (s2 & E2 & _).
  rewrite E2. reflexivity.
Qed.

(** X19. An upsert batch is sent to the server only when every document
    of it has an [_id]: for a batch with a document that has none, the
    loop counts all the documents of the batch as failed and the server is
    not called, so the other documents of that batch are not written
    either. *)
Theorem upsert_batch_needs_ids name documents batch_size stats db i :
  let batch := Load.py_slice documents i (i + batch_size) in
  let st := Load.upsert_batch DB bulk_upsert name documents batch_size (stats, db) i in
  if forallb (has_key "_id") batch
  then snd st = snd (bulk_upsert name batch db)
  else st = (Load.increment_batch
               (Load.add_failure (Load.len batch) "Unexpected error: '_id'" stats), db).
Proof.
  cbv zeta. unfold Load.upsert_batch.
  set (batch := Load.py_slice documents i (i + batch_size)).
  assert (H : if forallb (has_key "_id") batch
              then exists ks, Load.upsert_keys batch = Ok ks
              else exists e, Load.upsert_keys batch = Raise e).
  { unfold Load.upsert_keys. induction batch as [|d batch' IH]; simpl; [eauto |].
    unfold has_key at 1. destruct (dict_get "_id" d) as [v|]; simpl; [| eauto].
    destruct (forallb (has_key "_id") batch').
    - destruct IH as (ks & ->). simpl. eauto.
    - destruct IH as (e & ->). simpl. eauto. }
  destruct (forallb (has_key "_id") batch).
  - destruct H as (ks & ->).
    now destruct (bulk_upsert name batch db) as [[u m|u m w|msg] db'].
  - destruct H as (e & ->). reflexivity.
Qed.
End LoadFacts.

(** ** Runs of the loader *)

Lemma batches_partition_witness :
  batches [1; 2; 3; 4; 5] 2 = [[1; 2]; [3; 4]; [5]] /\
  concat (batches [1; 2; 3; 4; 5] 2) = [1; 2; 3; 4; 5] /\
  Load.len (batches [1; 2; 3; 4; 5] 2) = 3.
Proof.
  destruct (batches_partition [1; 2; 3; 4; 5] 2) as (C & _ & L); [lia |].
  split; [reflexivity |]. split; [exact C | exact L].
Defined.

Lemma every_batch_is_written_witness :
  exists stats,
    Load.load_collection_bulk Journal.DB Journal.connect Journal.bulk_write "users"
      [Journal.alice; Journal.bob; Journal.carol] 2 false [] =
      (Load.Returns stats,
       [("users", [Journal.alice; Journal.bob]); ("users", [Journal.carol])]) /\
    Load.batches_processed stats = 2 /\
    Load.inserted_count stats + Load.failed_count stats = 3.
Proof.
  destruct (every_batch_is_written Journal.DB Journal.connect Journal.bulk_write "users"
              [Journal.alice; Journal.bob; Journal.carol] 2 false [])
    as (stats & E & _ & _ & B & A); [lia | right; reflexivity |].
  exists stats. split; [exact E |]. split; [exact B |].
  apply A. intros b d. reflexivity.
Defined.

Lemma degenerate_batch_size_witness :
  Load.load_collection_bulk Journal.DB Journal.connect Journal.bulk_write "users"
    [Journal.alice; Journal.bob] (-1) false [] =
  (Load.Returns (Load.mkLoadStats "users" 2 0 0 [] 0), []).
Proof.
  apply (degenerate_batch_size Journal.DB Journal.connect Journal.bulk_write "users"
           [Journal.alice; Journal.bob] (-1) false []).
  - discriminate.
  - reflexivity.
  - lia.
Defined.

Lemma load_all_data_in_order_witness :
  exists r,
    Load.load_all_data Journal.DB Journal.connect Journal.bulk_write Journal.delete_many
      Journal.percent Journal.full_data 2 false [] =
      (Load.Returns r,
       [("organizations", [Journal.alice]);
        ("users", [Journal.alice; Journal.bob]); ("users", [Journal.carol]);
        ("projects", [Journal.bob])]) /\
    Load.res_total_documents r = 5 /\
    Load.res_total_inserted r + Load.res_total_failed r = 5.
Proof.
  destruct (load_all_data_in_order Journal.DB Journal.connect Journal.bulk_write
              Journal.delete_many Journal.percent Journal.full_data
              [Journal.alice] [Journal.alice; Journal.bob; Journal.carol] [] [Journal.bob]
              0 2 [])
    as (r & E & D & _ & A);
    [intros d; reflexivity | lia | reflexivity | reflexivity | reflexivity
    | reflexivity | reflexivity |].
  exists r. split; [exact E |]. split; [exact D |].
  rewrite A; [exact D |]. intros name b d. reflexivity.
Defined.

Lemma summary_never_divides_by_zero_witness :
  fst (Load.load_all_data Journal.DB Journal.connect Journal.bulk_write Journal.delete_many
         Journal.percent [("organizations", []); ("users", []); ("labels", []);
                          ("projects", [])] 2 true [])
  <> Load.Raises Load.ZeroDivisionError.
Proof.
  apply (summary_never_divides_by_zero Journal.DB Journal.connect Journal.bulk_write
           Journal.delete_many Journal.percent).
  - discriminate.
  - discriminate.
Defined.

Lemma missing_collection_witness :
  Load.load_all_data Journal.DB Journal.connect Journal.bulk_write Journal.delete_many
    Journal.percent Journal.unlabelled_data 2 false [] =
  (Load.Raises (Load.Builtin (KeyError (KStr "labels"))),
   [("organizations", [Journal.alice]);
    ("users", [Journal.alice; Journal.bob]); ("users", [Journal.carol])]).
Proof.
  apply (missing_collection_after_writes Journal.DB Journal.connect Journal.bulk_write
           Journal.delete_many Journal.percent Journal.unlabelled_data
           [Journal.alice] [Journal.alice; Journal.bob; Journal.carol] 2 []);
    [intros d; reflexivity | lia | reflexivity | reflexivity | reflexivity].
Defined.

(** * The orchestrator *)

Lemma doc_getitem_get d k v default :
  doc_getitem d k = Ok v -> Migrate.doc_get d k default = Ok v.
Proof.
  destruct d; try discriminate. simpl.
  destruct (dict_get k kv); [intros H; injection H as ->; reflexivity | discriminate].
Qed.

Lemma len_of_list d k l :
  doc_getitem d k = Ok (DList l) -> Migrate.len_of d k = Ok (Load.len l).
Proof.
  intros H. unfold Migrate.len_of. now rewrite (doc_getitem_get _ _ _ _ H).
Qed.

Lemma sum_over_Forall2 {A} (R : A -> doc -> Prop) (g : doc -> result Z) (h : A -> Z) l ds :
  Forall2 R l ds ->
  (forall x d, R x d -> g d = Ok (h x)) ->
  Migrate.sum_over g (DList ds) = Ok (total h l).
Proof.
  intros H Hg. unfold Migrate.sum_over. simpl.
  now rewrite (rmap_Forall2 _ _ h _ _ H Hg).
Qed.

Section OrchestratorFacts.
Variable fromisoformat : string -> option datetime.
Variable oid0 : ObjectId.

(** The data set of a run, collection by collection. *)
Lemma transform_all_steps_inv data s0 mongo_data s :
  transform_all_steps fromisoformat data s0 = Ok (mongo_data, s) ->
  exists orgs users labels projects tasks lookup odocs udocs ldocs pdocs,
    source_rows data "organizations" = Ok orgs /\
    source_rows data "users" = Ok users /\
    source_rows data "labels" = Ok labels /\
    source_rows data "projects" = Ok projects /\
    getitem data "tasks" = Ok tasks /\
    mongo_data = DDict [("organizations", DList odocs); ("users", DList udocs);
                        ("labels", DList ldocs); ("projects", DList pdocs)] /\
    Forall2 (fun r d => exists sa sb,
                 transform_organization fromisoformat r sa = Ok (d, sb)) orgs odocs /\
    Forall2 (fun r d => exists sa sb,
                 transform_user fromisoformat r sa = Ok (d, sb)) users udocs /\
    Forall2 (fun r d => exists sa sb,
                 transform_label fromisoformat r sa = Ok (d, sb)) labels ldocs /\
    Forall2 (fun r d => exists sa sb,
                 transform_project fromisoformat r tasks lookup sa = Ok (d, sb))
            projects pdocs.
Proof.
  intros H.
  unfold transform_all_steps, transform_organizations, transform_users,
    transform_labels, transform_projects in H.
  monad_inv H. subst.
  apply bind_lift_ok in E3 as (orgs & Ho & E3).
  apply bind_lift_ok in E5 as (users & Hu & E5).
  apply bind_lift_ok in E7 as (labels & Hl & E7).
  apply bind_lift_ok in E10 as (projects & Hp & E10).
  exists orgs, users, labels, projects, v9, v1, v3, v5, v7, v10.
  unfold source_rows. rewrite E2, E4, E6, E8. simpl.
  do 5 (split; [assumption |]). split; [reflexivity |].
  apply mapM_ok in E3, E5, E7, E10. auto.
Qed.

Lemma transform_task_comments task lookup s d s' :
  transform_task fromisoformat task lookup s = Ok (d, s') ->
  Migrate.len_of d "comments" = Ok (comment_rows task).
Proof.
  intros H. apply transform_task_inv in H.
  destruct H as (pg_id & mongo_id & s1 & arows & assignees & s2 & lrows & labels & s3 &
                 crows & unsorted & comments & title & description & status & priority &
                 due & due_date & created & created_at & updated & updated_at & H).
  destruct H as (_ & _ & _ & _ & _ & _ & Hcr & Hc & Hsort & _ & _ & _ & _ & _ &
                 _ & _ & _ & _ & _ & Hdoc).
  apply mapM_ok, Forall2_length' in Hc.
  apply list_sort_perm, Permutation_length in Hsort.
  destruct Hdoc as (_ & _ & _ & _ & _ & _ & _ & _ & _ & _ & _ & Hdc & _).
  rewrite (len_of_list _ _ _ Hdc). unfold comment_rows, Load.len. rewrite Hcr.
  do 2 f_equal. congruence.
Qed.

Lemma transform_project_embedded project tasks lookup s d s' :
  transform_project fromisoformat project tasks lookup s = Ok (d, s') ->
  exists T tdocs,
    py_iter tasks = Ok T /\
    doc_getitem d "tasks" = Ok (DList tdocs) /\
    Forall2 (fun t td => exists sa sb,
                 transform_task fromisoformat t lookup sa = Ok (td, sb))
            (List.filter (belongs project) T) tdocs.
Proof.
  intros H. apply transform_project_inv in H
    as (id & T & s1 & s2 & tdocs & _ & HT & Hc & _ & Htasks).
  exists T, tdocs. split; [assumption |]. split; [assumption |].
  now apply collectM_project_task, mapM_ok in Hc.
Qed.

(** The statistics of [transform_phase] on a data set of a run. *)
Lemma transformed_counts data s0 mongo_data s :
  transform_all_steps fromisoformat data s0 = Ok (mongo_data, s) ->
  exists orgs users labels projects T,
    source_rows data "organizations" = Ok orgs /\
    source_rows data "users" = Ok users /\
    source_rows data "labels" = Ok labels /\
    source_rows data "projects" = Ok projects /\
    (projects = [] \/ source_rows data "tasks" = Ok T) /\
    Migrate.collection_counts mongo_data =
      Ok [("organizations", Load.len orgs); ("users", Load.len users);
          ("labels", Load.len labels); ("projects", Load.len projects)] /\
    Migrate.embedded_tasks mongo_data =
      Ok (total (fun p => count (belongs p) T) projects) /\
    Migrate.embedded_comments mongo_data =
      Ok (total (fun p => total comment_rows (List.filter (belongs p) T)) projects) /\
    Migrate.list_total mongo_data =
      Ok (Load.len orgs + Load.len users + Load.len labels + Load.len projects).
Proof.
  intros H. apply transform_all_steps_inv in H
    as (orgs & users & labels & projects & tasks & lookup & odocs & udocs & ldocs & pdocs &
        Ho & Hu & Hl & Hp & Ht & -> & Fo & Fu & Fl & Fp).
  assert (HT : exists T, (projects = [] \/ py_iter tasks = Ok T) /\
                 Forall2 (fun p d => exists tdocs,
                              doc_getitem d "tasks" = Ok (DList tdocs) /\
                              Forall2 (fun t td => exists sa sb,
                                           transform_task fromisoformat t lookup sa =
                                             Ok (td, sb))
                                      (List.filter (belongs p) T) tdocs)
                         projects pdocs).
  { destruct Fp as [|p d projects' pdocs' Hpd Fp'].
    - exists []. split; [now left | constructor].
    - destruct Hpd as (sa & sb & Hpd).
      apply transform_project_embedded in Hpd as (T & tdocs & HT & Hd & Ftd).
      exists T. split; [now right |].
      constructor; [eauto |].
      eapply Forall2_impl'; [exact Fp' |].
      intros p' d' (sa' & sb' & Hpd').
      apply transform_project_embedded in Hpd' as (T' & tdocs' & HT' & Hd' & Ftd').
      rewrite HT in HT'. injection HT' as <-. eauto. }
  destruct HT as (T & HT & Fpt).
  exists orgs, users, labels, projects, T.
  do 4 (split; [assumption |]).
  split.
  { destruct HT as [HT|HT]; [now left | right].
    unfold source_rows. rewrite Ht. exact HT. }
  apply Forall2_length' in Fo, Fu, Fl. pose proof (Forall2_length' _ _ _ Fp) as Lp.
  unfold Load.len. rewrite Fo, Fu, Fl, Lp.
  split; [reflexivity |]. split; [| split].
  - unfold Migrate.embedded_tasks. simpl.
    apply (sum_over_Forall2 _ _ _ _ _ Fpt).
    intros p d (tdocs & Hd & Ftd).
    rewrite (len_of_list _ _ _ Hd). unfold count, Load.len.
    now rewrite (Forall2_length' _ _ _ Ftd).
  - unfold Migrate.embedded_comments. simpl.
    apply (sum_over_Forall2 _ _ _ _ _ Fpt).
    intros p d (tdocs & Hd & Ftd).
    rewrite (doc_getitem_get _ _ _ _ Hd). simpl.
    apply (sum_over_Forall2 _ _ _ _ _ Ftd).
    intros t td (sa & sb & Htd). eapply transform_task_comments, Htd.
  - unfold Migrate.list_total. simpl. unfold Load.len. reflexivity.
Qed.
End OrchestratorFacts.

Section RunFacts.
Variable fromisoformat : string -> option datetime.
Variable oid0 : ObjectId.
Variable dry_run : bool.
Variable clear_existing : bool.
Variable batch_size : Z.
Variable test_supabase_connection : bool.
Variable test_mongo_connection : bool.
Variable extract_all_data : Load.outcome json.
Variable DB : Type.
Variable connect : DB -> option Load.error.
Variable bulk_write : string -> list Load.document -> bool -> DB -> Load.write_result * DB.
Variable delete_many : string -> DB -> Load.outcome Z * DB.
Variable percent : Z -> Z -> string.

Local Abbreviation run :=
  (Migrate.run fromisoformat oid0 dry_run clear_existing batch_size
               test_supabase_connection test_mongo_connection extract_all_data
               DB connect bulk_write delete_many percent).

Local Abbreviation load_all_data :=
  (Load.load_all_data DB connect bulk_write delete_many percent).

Lemma transform_all_data_steps data mongo_data :
  transform_all_data fromisoformat data oid0 = Ok mongo_data ->
  exists s, transform_all_steps fromisoformat data (initial_state oid0) = Ok (mongo_data, s).
Proof.
  unfold transform_all_data, initial_state.
  destruct (transform_all_steps _ _ _) as [[m s]|e]; [| discriminate].
  intros H. injection H as ->. eauto.
Qed.

Lemma transform_phase_ok data st mongo_data :
  transform_all_data fromisoformat data oid0 = Ok mongo_data ->
  exists counts,
    Migrate.transform_phase fromisoformat oid0 data st =
      (Some mongo_data,
       Migrate.mkStats (Migrate.source_data st) counts
                       (Migrate.load_results st) (Migrate.errors st)) /\
    exists n, Migrate.list_total mongo_data = Ok n.
Proof.
  intros H. unfold Migrate.transform_phase. rewrite H.
  apply transform_all_data_steps in H as (s & H).
  apply transformed_counts in H
    as (orgs & users & labels & projects & T & _ & _ & _ & _ & _ & Hc & Ht & Hm & Hl).
  rewrite Hc, Ht, Hm. simpl. eauto.
Qed.

Lemma transform_phase_raise data st e :
  transform_all_data fromisoformat data oid0 = Raise e ->
  Migrate.transform_phase fromisoformat oid0 data st =
    (None, Migrate.add_error (Migrate.Transformation (Load.Builtin e)) st).
Proof. intros H. unfold Migrate.transform_phase. now rewrite H. Qed.

(** The run once the data set is transformed. *)
Lemma run_after_transform db data counts mongo_data :
  test_supabase_connection = true ->
  test_mongo_connection = true ->
  extract_all_data = Load.Returns data ->
  Migrate.source_counts data = Ok counts ->
  transform_all_data fromisoformat data oid0 = Ok mongo_data ->
  exists tcounts,
    let st := Migrate.mkStats counts tcounts None [] in
    run db =
    if dry_run then (true, st, db)
    else match load_all_data (Migrate.as_collections mongo_data)
                             batch_size clear_existing db with
         | (Load.Returns r, db') => (true, Migrate.set_load_results r st, db')
         | (Load.Raises e, db') =>
             (false, Migrate.add_error (Migrate.Loading e) st, db')
         end.
Proof.
  intros Hs Hm He Hc Ht.
  destruct (transform_phase_ok data
              (Migrate.set_source_data counts Migrate.stats_new) mongo_data Ht)
    as (tcounts & Hphase & n & Hn).
  exists tcounts. cbv zeta.
  unfold Migrate.run, Migrate.test_connections, Migrate.all_connected, Migrate.extract_phase.
  rewrite Hs, Hm, He, Hc. cbn [andb negb]. rewrite Hphase.
  unfold Migrate.load_phase. simpl Migrate.source_data. simpl Migrate.load_results.
  simpl Migrate.errors.
  destruct dry_run.
  - rewrite Hn. reflexivity.
  - destruct (load_all_data _ batch_size clear_existing db) as [[r|e] db']; reflexivity.
Qed.

(** The run when a phase before the load fails. *)
Lemma run_before_load db :
  test_supabase_connection && test_mongo_connection = false \/
  (exists e, extract_all_data = Load.Raises e) \/
  (exists data e, extract_all_data = Load.Returns data /\
                  Migrate.source_counts data = Raise e) \/
  (exists data e, extract_all_data = Load.Returns data /\
                  transform_all_data fromisoformat data oid0 = Raise e) ->
  exists st,
    run db = (false, st, db) /\
    (Migrate.errors st = [] <-> test_supabase_connection && test_mongo_connection = false).
Proof.
  unfold Migrate.run, Migrate.test_connections, Migrate.all_connected, Migrate.extract_phase.
  destruct (test_supabase_connection && test_mongo_connection) eqn:C; simpl.
  2:{ intros _. eexists. split; [reflexivity |]. simpl. tauto. }
  assert (Hno : forall f st, Migrate.errors (Migrate.add_error f st) = [] <-> true = false).
  { intros f st. unfold Migrate.add_error. simpl.
    split; [| discriminate]. destruct (Migrate.errors st); discriminate. }
  intros [H|[(e & ->)|[(data & e & -> & Hc)|(data & e & -> & Ht)]]].
  - discriminate.
  - eexists. split; [reflexivity |]. apply Hno.
  - rewrite Hc. eexists. split; [reflexivity |]. apply Hno.
  - destruct (Migrate.source_counts data) as [counts|e'].
    + rewrite (transform_phase_raise _ _ _ Ht). eexists. split; [reflexivity |].
      apply Hno.
    + eexists. split; [reflexivity |]. apply Hno.
Qed.

(** Every run is of one of the two kinds. *)
Lemma run_cases :
  (test_supabase_connection && test_mongo_connection = false \/
   (exists e, extract_all_data = Load.Raises e) \/
   (exists data e, extract_all_data = Load.Returns data /\
                   Migrate.source_counts data = Raise e) \/
   (exists data e, extract_all_data = Load.Returns data /\
                   transform_all_data fromisoformat data oid0 = Raise e)) \/
  (exists data counts mongo_data,
      test_supabase_connection = true /\
      test_mongo_connection = true /\
      extract_all_data = Load.Returns data /\
      Migrate.source_counts data = Ok counts /\
      transform_all_data fromisoformat data oid0 = Ok mongo_data).
Proof.
  destruct test_supabase_connection, test_mongo_connection; simpl; auto.
  destruct extract_all_data as [data|e]; [| left; right; left; eauto].
  destruct (Migrate.source_counts data) as [counts|e] eqn:C;
    [| left; right; right; left; eauto].
  destruct (transform_all_data fromisoformat data oid0) as [mongo_data|e] eqn:T;
    [| left; right; right; right; eauto].
  right. exists data, counts, mongo_data. auto.
Qed.

(** X20. [run] returns [True] exactly when both connection tests pass, the
    extraction returns data whose tables can be counted, the
    transformation of the whole data set returns, and, unless the run is a
    dry run, [load_all_data] returns.  The verdict does not look at what
    was loaded: a load in which documents, or all of them, failed is a
    success. *)
Theorem run_verdict db :
  fst (fst (run db)) = true <->
  test_supabase_connection = true /\
  test_mongo_connection = true /\
  exists data counts mongo_data,
    extract_all_data = Load.Returns data /\
    Migrate.source_counts data = Ok counts /\
    transform_all_data fromisoformat data oid0 = Ok mongo_data /\
    (dry_run = true \/
     exists r db',
       load_all_data (Migrate.as_collections mongo_data) batch_size clear_existing db =
         (Load.Returns r, db')).
Proof.
  destruct run_cases as [Hfail|(data & counts & mongo_data & Hs & Hm & He & Hc & Ht)].
  - destruct (run_before_load db Hfail) as (st & -> & _). simpl.
    split; [discriminate |].
    intros (Hs & Hm & data & counts & mongo_data & He & Hc & Ht & _).
    rewrite Hs, Hm in Hfail.
    destruct Hfail as [H|[(e & H)|[(d & e & H1 & H2)|(d & e & H1 & H2)]]];
      try discriminate; congruence.
  - destruct (run_after_transform db data counts mongo_data Hs Hm He Hc Ht)
      as (tcounts & Hrun).
    cbv zeta in Hrun. rewrite Hrun.
    split.
    + intros Hv. split; [assumption |]. split; [assumption |].
      exists data, counts, mongo_data. do 3 (split; [assumption |]).
      destruct dry_run; [now left | right].
      destruct (load_all_data _ batch_size clear_existing db) as [[r|e] db'];
        [eauto | discriminate].
    + intros (_ & _ & data' & counts' & mongo_data' & He' & Hc' & Ht' & Hload).
      rewrite He in He'. injection He' as <-.
      rewrite Ht in Ht'. injection Ht' as <-.
      destruct dry_run; [reflexivity |].
      destruct Hload as [H|(r & db' & ->)]; [discriminate | reflexivity].
Qed.


(** X22. The list of errors is empty exactly on the runs that [run] calls
    a success or that stopped at the connection test: when the final check
    [if self.stats["errors"]] is reached the list is always empty, and a
    run that returns [False] after the connection test has recorded the
    phase that failed. *)
Theorem errors_of_a_run db :
  Migrate.errors (snd (fst (run db))) = [] <->
  fst (fst (run db)) = true \/
  test_supabase_connection && test_mongo_connection = false.
Proof.
  destruct run_cases as [Hfail|(data & counts & mongo_data & Hs & Hm & He & Hc & Ht)].
  - destruct (run_before_load db Hfail) as (st & -> & Hst). simpl.
    rewrite Hst. split; [auto |]. intros [H|H]; [discriminate | exact H].
  - destruct (run_after_transform db data counts mongo_data Hs Hm He Hc Ht)
      as (tcounts & Hrun).
    cbv zeta in Hrun. rewrite Hrun, Hs, Hm.
    destruct dry_run; [simpl; tauto |].
    destruct (load_all_data _ batch_size clear_existing db) as [[r|e] db']; simpl.
    + tauto.
    + split; [discriminate |]. intros [H|H]; discriminate.
Qed.
(** X23. When the transformation of the data set returns,
    [transform_phase] returns its data set and never fails on the
    statistics: it records the number of rows of the four source tables as
    the sizes of the four collections, as [embedded_tasks] the number of
    source tasks that belong to a listed project, each counted once per
    project with its [project_id], and as [embedded_comments] the number of
    comment rows of those tasks. *)
Theorem transform_phase_statistics data st mongo_data :
  transform_all_data fromisoformat data oid0 = Ok mongo_data ->
  exists orgs users labels projects T,
    source_rows data "organizations" = Ok orgs /\
    source_rows data "users" = Ok users /\
    source_rows data "labels" = Ok labels /\
    source_rows data "projects" = Ok projects /\
    (projects = [] \/ source_rows data "tasks" = Ok T) /\
    Migrate.transform_phase fromisoformat oid0 data st =
      (Some mongo_data,
       Migrate.mkStats
         (Migrate.source_data st)
         [("organizations", Load.len orgs); ("users", Load.len users);
          ("labels", Load.len labels); ("projects", Load.len projects);
          ("embedded_tasks", total (fun p => count (belongs p) T) projects);
          ("embedded_comments",
           total (fun p => total comment_rows (List.filter (belongs p) T)) projects)]
         (Migrate.load_results st) (Migrate.errors st)).
Proof.
  intros H. unfold Migrate.transform_phase. rewrite H.
  apply transform_all_data_steps in H as (s & H).
  apply transformed_counts in H
    as (orgs & users & labels & projects & T & Ho & Hu & Hl & Hp & HT & Hc & Ht & Hm & _).
  exists orgs, users, labels, projects, T.
  do 5 (split; [assumption |]).
  rewrite Hc, Ht, Hm. reflexivity.
Qed.

Lemma as_collections_run data s0 mongo_data s :
  transform_all_steps fromisoformat data s0 = Ok (mongo_data, s) ->
  exists orgs users labels projects odocs udocs ldocs pdocs n,
    source_rows data "organizations" = Ok orgs /\
    source_rows data "users" = Ok users /\
    source_rows data "labels" = Ok labels /\
    source_rows data "projects" = Ok projects /\
    Migrate.as_collections mongo_data =
      [("organizations", odocs); ("users", udocs); ("labels", ldocs); ("projects", pdocs)] /\
    mongo_data =
      DDict [("organizations", DList (map DDict odocs)); ("users", DList (map DDict udocs));
             ("labels", DList (map DDict ldocs)); ("projects", DList (map DDict pdocs))] /\
    Load.len odocs = Load.len orgs /\
    Load.len udocs = Load.len users /\
    Load.len ldocs = Load.len labels /\
    Load.len pdocs = Load.len projects /\
    Load.embedded_tasks pdocs = Ok n.
Proof.
  intros H. apply transform_all_steps_inv in H
    as (orgs & users & labels & projects & tasks & lookup & odocs & udocs & ldocs & pdocs &
        Ho & Hu & Hl & Hp & Ht & -> & Fo & Fu & Fl & Fp).
  assert (Hdict : forall {A} (R : A -> doc -> Prop) l ds,
             Forall2 R l ds -> (forall x d, R x d -> exists kv, d = DDict kv) ->
             map DDict (map Migrate.as_document ds) = ds /\
             Load.len (map Migrate.as_document ds) = Load.len l).
  { intros A R l ds F HR. split.
    - induction F as [|x d l ds Hxd _ IH]; simpl; [reflexivity |].
      destruct (HR _ _ Hxd) as (kv & ->). simpl. now rewrite IH.
    - unfold Load.len. rewrite length_map. now rewrite (Forall2_length' _ _ _ F). }
  assert (Hkeeps : forall r d, keeps_pg_id r d -> exists kv, d = DDict kv).
  { intros r d (id & _ & Hd). destruct d; try discriminate. eauto. }
  destruct (Hdict _ _ _ _ Fo) as [Do Lo].
  { intros x d (sa & sb & Hx). apply transform_organization_pg_id in Hx as [Hx _]. eauto. }
  destruct (Hdict _ _ _ _ Fu) as [Du Lu].
  { intros x d (sa & sb & Hx). apply transform_user_pg_id in Hx as [Hx _]. eauto. }
  destruct (Hdict _ _ _ _ Fl) as [Dl Ll].
  { intros x d (sa & sb & Hx). apply transform_label_pg_id in Hx as [Hx _]. eauto. }
  destruct (Hdict _ _ _ _ Fp) as [Dp Lp].
  { intros x d (sa & sb & Hx). apply transform_project_pg_id in Hx. eauto. }
  assert (He : exists n, Load.embedded_tasks (map Migrate.as_document pdocs) = Ok n).
  { unfold Load.embedded_tasks.
    assert (Hr : exists ns,
               rmap (fun proj => Load.doc_len (default (DList []) (dict_get "tasks" proj)))
                    (map Migrate.as_document pdocs) = Ok ns).
    { clear Dp Lp Hp. induction Fp as [|p d projects' pdocs' Hpd _ IH]; simpl; [eauto |].
      destruct Hpd as (sa & sb & Hpd).
      apply transform_project_embedded in Hpd as (T & tdocs & _ & Hd & _).
      destruct d as [| | | | | | |kv]; simpl in Hd; try discriminate. simpl.
      destruct (dict_get "tasks" kv) as [v|]; [| discriminate].
      injection Hd as ->. simpl. destruct IH as (ns & ->). simpl. eauto. }
    destruct Hr as (ns & ->). simpl. eauto. }
  destruct He as (n & He).
  exists orgs, users, labels, projects,
    (map Migrate.as_document odocs), (map Migrate.as_document udocs),
    (map Migrate.as_document ldocs), (map Migrate.as_document pdocs), n.
  do 4 (split; [assumption |]). split; [reflexivity |].
  rewrite Do, Du, Dl, Dp. auto 10.
Qed.

(** X24. End to end: when the connection tests pass, the extraction and
    the transformation return, the run is not a dry run, nothing is
    cleared, and the driver connects, with a positive batch size [run]
    returns [True] and keeps load results whose [total_documents] is the
    number of rows of the four source tables; when the driver accounts for
    every document, [total_inserted + total_failed] is that number too. *)
Theorem migration_end_to_end db data counts mongo_data :
  test_supabase_connection = true ->
  test_mongo_connection = true ->
  extract_all_data = Load.Returns data ->
  Migrate.source_counts data = Ok counts ->
  transform_all_data fromisoformat data oid0 = Ok mongo_data ->
  dry_run = false ->
  clear_existing = false ->
  (forall d, connect d = None) ->
  0 < batch_size ->
  exists orgs users labels projects st r,
    source_rows data "organizations" = Ok orgs /\
    source_rows data "users" = Ok users /\
    source_rows data "labels" = Ok labels /\
    source_rows data "projects" = Ok projects /\
    fst (run db) = (true, st) /\
    Migrate.load_results st = Some r /\
    Load.res_total_documents r =
      Load.len orgs + Load.len users + Load.len labels + Load.len projects /\
    ((forall name b d, accounts (fst (bulk_write name b false d)) b) ->
     Load.res_total_inserted r + Load.res_total_failed r = Load.res_total_documents r).
Proof.
  intros Hs Hm He Hc Ht Hdry Hclear Hconn Hbs.
  destruct (run_after_transform db data counts mongo_data Hs Hm He Hc Ht)
    as (tcounts & Hrun).
  cbv zeta in Hrun. rewrite Hdry, Hclear in Hrun.
  apply transform_all_data_steps in Ht as (s & Ht).
  apply as_collections_run in Ht
    as (orgs & users & labels & projects & odocs & udocs & ldocs & pdocs & n &
        Ho & Hu & Hl & Hp & Hcoll & _ & Lo & Lu & Ll & Lp & Hn).
  destruct (load_all_data_in_order_aux DB connect bulk_write delete_many percent
              (Migrate.as_collections mongo_data) odocs udocs ldocs pdocs n batch_size db)
    as (r & db' & Hload & Hd & Hacc);
    try (rewrite Hcoll; reflexivity); try assumption.
  rewrite Hload in Hrun.
  exists orgs, users, labels, projects.
  eexists. exists r.
  do 4 (split; [assumption |]).
  rewrite Hdry, Hclear, Hrun. split; [reflexivity |]. split; [reflexivity |].
  split; [rewrite Hd; lia | exact Hacc].
Qed.
End RunFacts.

(** ** Runs of the orchestrator *)

Lemma run_verdict_witness :
  fst (fst rejected_migration) = true.
Proof.
  apply (proj2 (run_verdict fromisoformat_ref 0%N false false 2 true true
                  (Load.Returns Sample.source_data)
                  Journal.DB Journal.connect Rejecting.bulk_write Journal.delete_many
                  Journal.percent [])).
  split; [reflexivity |]. split; [reflexivity |].
  exists Sample.source_data. eexists. exists (run_value DNone sample_run).
  split; [reflexivity |]. split; [vm_compute; reflexivity |].
  split; [vm_compute; reflexivity |].
  right. eexists. eexists. vm_compute. reflexivity.
Defined.

(** With the driver that rejects every batch the run is a success in
    which all five documents failed. *)
Lemma rejected_migration_counts :
  exists r,
    Migrate.load_results (snd (fst rejected_migration)) = Some r /\
    Load.res_total_documents r = 5 /\
    Load.res_total_inserted r = 0 /\
    Load.res_total_failed r = 5.
Proof. eexists. vm_compute. repeat split; reflexivity. Qed.

Lemma transform_phase_statistics_witness :
  Migrate.transform_phase fromisoformat_ref 0%N Sample.source_data Migrate.stats_new =
  (Some (run_value DNone sample_run),
   Migrate.mkStats []
     [("organizations", 1); ("users", 1); ("labels", 1); ("projects", 2);
      ("embedded_tasks", 3); ("embedded_comments", 2)]
     None []).
Proof.
  destruct (transform_phase_statistics fromisoformat_ref 0%N Sample.source_data
              Migrate.stats_new (run_value DNone sample_run))
    as (orgs & users & labels & projects & T & Ho & Hu & Hl & Hp & HT & H).
  - vm_compute. reflexivity.
  - vm_compute in Ho, Hu, Hl, Hp.
    injection Ho as <-. injection Hu as <-. injection Hl as <-. injection Hp as <-.
    destruct HT as [HT|HT]; [discriminate |].
    vm_compute in HT. injection HT as <-.
    rewrite H. vm_compute. reflexivity.
Defined.

Lemma migration_end_to_end_witness :
  exists st r,
    fst sample_migration = (true, st) /\
    Migrate.load_results st = Some r /\
    Load.res_total_documents r = 5 /\
    Load.res_total_inserted r + Load.res_total_failed r = 5.
Proof.
  destruct (migration_end_to_end fromisoformat_ref 0%N false false 2 true true
              (Load.Returns Sample.source_data)
              Journal.DB Journal.connect Journal.bulk_write Journal.delete_many
              Journal.percent [] Sample.source_data
              [("organizations", 1); ("users", 1); ("labels", 1); ("projects", 2);
               ("tasks", 3)]
              (run_value DNone sample_run))
    as (orgs & users & labels & projects & st & r & Ho & Hu & Hl & Hp & Hrun & Hr & Hd & Ha);
    [reflexivity | reflexivity | reflexivity | vm_compute; reflexivity
    | vm_compute; reflexivity | reflexivity | reflexivity | intros d; reflexivity | lia |].
  vm_compute in Ho, Hu, Hl, Hp.
  injection Ho as <-. injection Hu as <-. injection Hl as <-. injection Hp as <-.
  exists st, r. split; [exact Hrun |]. split; [exact Hr |].
  split; [exact Hd |]. rewrite Ha; [exact Hd |]. intros name b d. reflexivity.
Defined.
